(** * MangaBot site plugins: shallow embedding and verified properties

    The three plugins ([plugins/mangafire.py], [plugins/mangakatana.py],
    [plugins/atsumaru.py]) are embedded as Rocq functions.  Python
    exceptions are explicit ([Py.result]); the fetch primitive, the HTML
    parser and the image codec are collaborators outside the plugins, so
    their results enter the embedding as inputs or section variables. *)

From Stdlib Require Import ZArith List Bool Ascii String DecimalString Lia.
From stdpp Require Import gmap strings.
Import ListNotations.
Local Open Scope Z_scope.

(* ================================================================== *)
(** * Part I: the embedding *)
(* ================================================================== *)

(** ** The fragment of the Python runtime the plugins rely on *)
Module Py.

(** The exception classes that the plugins' code can meet. *)
Inductive exn : Type :=
| ZeroDivisionError
| KeyError
| AttributeError
| TypeError
| JSONDecodeError.

(** A computation either returns a value or raises. *)
Inductive result (A : Type) : Type :=
| Ret (a : A)
| Raise (e : exn).
Arguments Ret {A} a.
Arguments Raise {A} e.

Definition bind {A B : Type} (m : result A) (k : A -> result B) : result B :=
  match m with
  | Ret a => k a
  | Raise e => Raise e
  end.

(** [try: m  except Exception: h] *)
Definition try_except {A : Type} (m : result A) (h : exn -> A) : A :=
  match m with
  | Ret a => a
  | Raise e => h e
  end.

Fixpoint mapM {A B : Type} (f : A -> result B) (l : list A) : result (list B) :=
  match l with
  | [] => Ret []
  | a :: l' =>
      bind (f a) (fun b => bind (mapM f l') (fun bs => Ret (b :: bs)))
  end.

(** [a // b] and [a % b] on integers: floor division, the remainder takes
    the sign of the divisor, a zero divisor raises. *)
Definition floordiv (a b : Z) : result Z :=
  if b =? 0 then Raise ZeroDivisionError else Ret (a / b).

Definition modulo (a b : Z) : result Z :=
  if b =? 0 then Raise ZeroDivisionError else Ret (a mod b).

(** [range(n)]: [0, 1, ..., n-1], empty when [n <= 0]. *)
Definition range (n : Z) : list Z := map Z.of_nat (seq 0 (Z.to_nat n)).

(** [l[a:b]] for a list, with Python's treatment of negative and
    out-of-range bounds. *)
Definition clamp_index (len i : Z) : Z :=
  if i <? 0 then Z.max 0 (i + len) else Z.min i len.

Definition slice {A : Type} (l : list A) (a b : Z) : list A :=
  let len := Z.of_nat (List.length l) in
  let lo := clamp_index len a in
  let hi := clamp_index len b in
  firstn (Z.to_nat (hi - lo)) (skipn (Z.to_nat lo) l).

(** *** Strings

    A string is a sequence of characters with code points below 256. *)

(** [str.isspace] on one character, which is also the class [\s] of [re]. *)
Definition is_space (c : ascii) : bool :=
  let n := N_of_ascii c in
  ((9 <=? n) && (n <=? 13) || (28 <=? n) && (n <=? 32)
   || (n =? 133) || (n =? 160))%N.

(** The class [\w] of [re]: alphanumeric characters and the underscore. *)
Definition is_word (c : ascii) : bool :=
  let n := N_of_ascii c in
  ((48 <=? n) && (n <=? 57) || (65 <=? n) && (n <=? 90)
   || (97 <=? n) && (n <=? 122) || (n =? 95)
   || (n =? 170) || (n =? 178) || (n =? 179) || (n =? 181)
   || (n =? 185) || (n =? 186) || (188 <=? n) && (n <=? 190)
   || (192 <=? n) && (n <=? 214) || (216 <=? n) && (n <=? 246)
   || (248 <=? n) && (n <=? 255))%N.

(** [s.startswith(p)] *)
Definition startswith (s p : string) : bool := String.prefix p s.

(** [sub in s] *)
Fixpoint contains (sub s : string) : bool :=
  String.prefix sub s ||
  match s with
  | EmptyString => false
  | String _ t => contains sub t
  end.

(** [s.endswith(c)] for a one-character suffix. *)
Fixpoint endswith_char (s : string) (c : ascii) : bool :=
  match s with
  | EmptyString => false
  | String a EmptyString => Ascii.eqb a c
  | String _ t => endswith_char t c
  end.

(** [s.endswith(suffix)] *)
Fixpoint endswith (s suffix : string) : bool :=
  String.eqb s suffix ||
  match s with
  | EmptyString => false
  | String _ t => endswith t suffix
  end.

(** [s[:-1]] *)
Fixpoint drop_last (s : string) : string :=
  match s with
  | EmptyString => EmptyString
  | String _ EmptyString => EmptyString
  | String a t => String a (drop_last t)
  end.

Fixpoint lstrip (s : string) : string :=
  match s with
  | EmptyString => EmptyString
  | String c t => if is_space c then lstrip t else s
  end.

Fixpoint rstrip (s : string) : string :=
  match s with
  | EmptyString => EmptyString
  | String c t =>
      match rstrip t with
      | EmptyString => if is_space c then EmptyString else String c EmptyString
      | t' => String c t'
      end
  end.

(** [s.strip()] *)
Definition strip (s : string) : string := rstrip (lstrip s).

(** [s.replace(old, new)] for a non-empty [old]: occurrences are replaced
    from left to right and do not overlap; [skip] counts the characters
    of an occurrence that are still to be passed over. *)
Fixpoint replace_from (old new s : string) (skip : nat) : string :=
  match s with
  | EmptyString => EmptyString
  | String c t =>
      match skip with
      | S k => replace_from old new t k
      | O =>
          if String.prefix old s
          then new +:+ replace_from old new t (Nat.pred (String.length old))
          else String c (replace_from old new t O)
      end
  end.

Definition replace (s old new : string) : string := replace_from old new s O.

(** [s.removeprefix(p)] *)
Fixpoint drop (n : nat) (s : string) : string :=
  match n, s with
  | S k, String _ t => drop k t
  | _, _ => s
  end.

Definition removeprefix (s p : string) : string :=
  if String.prefix p s then drop (String.length p) s else s.

(** [s.split(sep)] for a non-empty [sep]; [cur] holds the characters of
    the current field in reverse. *)
Fixpoint split_from (sep s : string) (skip : nat) (cur : list ascii) : list string :=
  match s with
  | EmptyString => [string_of_list_ascii (rev cur)]
  | String c t =>
      match skip with
      | S k => split_from sep t k cur
      | O =>
          if String.prefix sep s
          then string_of_list_ascii (rev cur)
               :: split_from sep t (Nat.pred (String.length sep)) []
          else split_from sep t O (c :: cur)
      end
  end.

Definition split (s sep : string) : list string := split_from sep s O [].

(** *** Decoded JSON values *)
#[warnings="-register-all"]
Inductive json : Type :=
| JNull
| JBool (b : bool)
| JNum (n : Z)
| JStr (s : string)
| JArr (items : list json)
| JObj (fields : list (string * json)).

Fixpoint assoc (k : string) (kv : list (string * json)) : option json :=
  match kv with
  | [] => None
  | (k', v) :: rest => if String.eqb k k' then Some v else assoc k rest
  end.

(** [d.get(k, default)]: only a dict has the method. *)
Definition dict_get (d : json) (k : string) (default : json) : result json :=
  match d with
  | JObj kv => Ret (match assoc k kv with Some v => v | None => default end)
  | _ => Raise AttributeError
  end.

(** [d[k]] with a string key. *)
Definition getitem (d : json) (k : string) : result json :=
  match d with
  | JObj kv => match assoc k kv with Some v => Ret v | None => Raise KeyError end
  | _ => Raise TypeError
  end.

Fixpoint chars (s : string) : list json :=
  match s with
  | EmptyString => []
  | String c t => JStr (String c EmptyString) :: chars t
  end.

(** What [for v in x] iterates over. *)
Definition iterate (x : json) : result (list json) :=
  match x with
  | JArr l => Ret l
  | JStr s => Ret (chars s)
  | JObj kv => Ret (map (fun p => JStr (fst p)) kv)
  | _ => Raise TypeError
  end.

(** Truth value of [x] in [if x] and [not x]. *)
Definition truthy (x : json) : bool :=
  match x with
  | JNull => false
  | JBool b => b
  | JNum n => negb (n =? 0)
  | JStr s => negb (String.eqb s EmptyString)
  | JArr l => match l with [] => false | _ => true end
  | JObj kv => match kv with [] => false | _ => true end
  end.

(** [x == n] and [n >= x] against an integer [n]. *)
Definition eq_int (x : json) (n : Z) : bool :=
  match x with
  | JNum m => m =? n
  | JBool b => (if b then 1 else 0) =? n
  | _ => false
  end.

Definition int_ge (n : Z) (x : json) : result bool :=
  match x with
  | JNum m => Ret (m <=? n)
  | JBool b => Ret ((if b then 1 else 0) <=? n)
  | _ => Raise TypeError
  end.


(** *** Loops *)

(** [for a in l: body], the body updating the local state [s]. *)
Fixpoint for_each {A S : Type} (l : list A) (body : S -> A -> result S) (s : S)
  : result S :=
  match l with
  | [] => Ret s
  | a :: l' => bind (body s a) (for_each l' body)
  end.

(** [str(n)] and [f"{n}"] for an integer. *)
Definition str_int (n : Z) : string := NilEmpty.string_of_int (Z.to_int n).

(** [l[-k]] for [k >= 1], the [k]-th element from the end; [None] stands
    for the [IndexError] of a list that is too short. *)
Definition index_from_end {A : Type} (l : list A) (k : nat) : option A :=
  nth_error (rev l) (Nat.pred k).

End Py.

Notation "x <- m ;; k" := (Py.bind m (fun x => k))
  (at level 100, m at next level, right associativity).

(** ** Raster images as the imaging library presents them

    An image is its size and its pixel array.  A pixel is kept as one
    integer (the packed channels); the codec ([open], [save]) is outside
    this model, so mode conversion and lossy encoding are not part of it. *)
Module PIL.

Definition pixel : Type := Z.
Definition blank : pixel := 0.

Record image : Type := mkImage {
  img_width : Z;
  img_height : Z;
  px : Z -> Z -> pixel
}.

Definition in_bounds (im : image) (i j : Z) : bool :=
  (0 <=? i) && (i <? img_width im) && (0 <=? j) && (j <? img_height im).

(** Reading a pixel; outside the raster a crop sees blank pixels. *)
Definition get (im : image) (i j : Z) : pixel :=
  if in_bounds im i j then px im i j else blank.

(** [Image.new(mode, (width, height))] *)
Definition new (width height : Z) : image :=
  mkImage width height (fun _ _ => blank).

(** [im.crop((left, upper, right, lower))] *)
Definition crop (im : image) (box : Z * Z * Z * Z) : image :=
  let '(x0, y0, x1, y1) := box in
  mkImage (x1 - x0) (y1 - y0) (fun i j => get im (x0 + i) (y0 + j)).

(** [im.paste(piece, (x, y))]: the piece overwrites the pixels under it. *)
Definition paste (dst piece : image) (at_ : Z * Z) : image :=
  let '(x, y) := at_ in
  mkImage (img_width dst) (img_height dst)
          (fun i j =>
             if in_bounds piece (i - x) (j - y)
             then px piece (i - x) (j - y)
             else px dst i j).

End PIL.


(** ** The value shapes shared by the plugins *)
Module Client.

(** Modelled from the spec: the class [MangaCard] of plugins/client.py,
    which is not among the sources.  A card has a display name, a
    canonical URL and a thumbnail URL, possibly empty; the plugins build
    it with [MangaCard(client, name, url, picture_url)], where the client
    is the plugin itself and is left implicit.  The name holds whatever
    value the plugin passes, a string in most places. *)
Record MangaCard : Type := mkCard {
  card_name : Py.json;
  card_url : string;
  card_picture_url : string
}.

(** Modelled from the spec: the class [MangaChapter] of plugins/client.py,
    which is not among the sources.  An item has a display label, a
    canonical URL, its owning card and a sequence of already resolved
    asset locations; the plugins build it with
    [MangaChapter(client, name, url, manga, pictures)]. *)
Record MangaChapter : Type := mkChapter {
  chapter_name : string;
  chapter_url : string;
  chapter_manga : MangaCard;
  chapter_pictures : list string
}.

End Client.

(** ** What the HTML parser hands to the plugins

    [BeautifulSoup(...).select(...)] and [select_one] are library calls;
    the plugins only see the selected elements, kept here with exactly
    the parts the code reads. *)
Module Soup.

(** An [<a>] element: its text and its [href] attribute, if any. *)
Record anchor : Type := mkAnchor {
  a_text : string;
  a_href : option string
}.

(** An [<img>] element: its [src] attribute, if any. *)
Record img : Type := mkImg { img_src : option string }.

(** [tag["href"]]: a missing attribute is a [KeyError]. *)
Definition attr (v : option string) : Py.result string :=
  match v with
  | Some s => Py.Ret s
  | None => Py.Raise Py.KeyError
  end.

End Soup.

(** ** plugins/mangafire.py *)
Module MangaFire.
Import Py PIL Client Soup.

Definition base_url : string := "https://mangafire.to".

(** *** [_descramble_image]: the tile arithmetic *)

Definition PIECE_SIZE : Z := 200.
Definition MIN_SPLIT_COUNT : Z := 5.

(** [def ceil_div(a, b): return (a + b - 1) // b] *)
Definition ceil_div (a b : Z) : result Z := floordiv (a + b - 1) b.

(** One iteration of the double loop moves one tile; these are its loop
    variables. *)
Record tile : Type := mkTile {
  x_dst : Z;
  y_dst : Z;
  w : Z;
  h : Z;
  x_src : Z;
  y_src : Z
}.

(** [if x == x_max: x_src_idx = x
     else: x_src_idx = (x_max - x + offset) % x_max] *)
Definition src_index (idx max offset : Z) : result Z :=
  if idx =? max then Ret idx else modulo (max - idx + offset) max.

(** The body of the double loop, up to the crop box. *)
Definition tile_at (width height piece_width piece_height x_max y_max offset : Z)
  (x y : Z) : result tile :=
  let x_dst := piece_width * x in
  let y_dst := piece_height * y in
  let w := Z.min piece_width (width - x_dst) in
  let h := Z.min piece_height (height - y_dst) in
  x_src_idx <- src_index x x_max offset ;;
  let x_src := piece_width * x_src_idx in
  y_src_idx <- src_index y y_max offset ;;
  let y_src := piece_height * y_src_idx in
  Ret (mkTile x_dst y_dst w h x_src y_src).

(** The tiles visited by
    [for y in range(y_max + 1): for x in range(x_max + 1): ...],
    in loop order. *)
Definition descramble_tiles (width height offset : Z) : result (list tile) :=
  cw <- ceil_div width MIN_SPLIT_COUNT ;;
  let piece_width := Z.min PIECE_SIZE cw in
  ch <- ceil_div height MIN_SPLIT_COUNT ;;
  let piece_height := Z.min PIECE_SIZE ch in
  cx <- ceil_div width piece_width ;;
  let x_max := cx - 1 in
  cy <- ceil_div height piece_height ;;
  let y_max := cy - 1 in
  rows <- mapM (fun y =>
            mapM (fun x => tile_at width height piece_width piece_height
                                   x_max y_max offset x y)
                 (range (x_max + 1)))
          (range (y_max + 1)) ;;
  Ret (concat rows).

(** [box = (x_src, y_src, x_src + w, y_src + h)
     piece = img.crop(box)
     result.paste(piece, (x_dst, y_dst))] *)
Definition move_tile (img : image) (res : image) (t : tile) : image :=
  let box := (x_src t, y_src t, x_src t + w t, y_src t + h t) in
  let piece := crop img box in
  paste res piece (x_dst t, y_dst t).

(** The pixel array built inside the [with] block.  The loops abort on
    the first exception and the partial result is then discarded, so the
    tiles are computed first and pasted afterwards. *)
Definition descramble_pixels (img : image) (offset : Z) : result image :=
  let width := img_width img in
  let height := img_height img in
  tiles <- descramble_tiles width height offset ;;
  Ret (fold_left (move_tile img) tiles (new width height)).

(** The forward scramble.  It is not part of the plugin; it follows the
    specification's words, "the inverse of the descramble tile mapping":
    the tile that descrambling reads at the source position and writes at
    the destination position is here read at the destination position
    and written at the source position. *)
Definition spec_unmove_tile (img : image) (res : image) (t : tile) : image :=
  let box := (x_dst t, y_dst t, x_dst t + w t, y_dst t + h t) in
  paste res (crop img box) (x_src t, y_src t).

Definition spec_scramble_pixels (img : image) (offset : Z) : result image :=
  let width := img_width img in
  let height := img_height img in
  tiles <- descramble_tiles width height offset ;;
  Ret (fold_left (spec_unmove_tile img) tiles (new width height)).

(** Closed forms used to state the properties: the source index along one
    axis, and the source coordinate of a pixel along one axis. *)
Definition piece_size (size : Z) : Z :=
  Z.min PIECE_SIZE ((size + MIN_SPLIT_COUNT - 1) / MIN_SPLIT_COUNT).

Definition max_index (size : Z) : Z :=
  (size + piece_size size - 1) / piece_size size - 1.

Definition src_idx (max offset idx : Z) : Z :=
  if idx =? max then idx else (max - idx + offset) mod max.

Definition src_coord (size offset i : Z) : Z :=
  let p := piece_size size in
  p * src_idx (max_index size) offset (i / p) + i mod p.

Definition tile_of (width height offset x y : Z) : tile :=
  let pw := piece_size width in
  let ph := piece_size height in
  mkTile (pw * x) (ph * y)
         (Z.min pw (width - pw * x)) (Z.min ph (height - ph * y))
         (pw * src_idx (max_index width) offset x)
         (ph * src_idx (max_index height) offset y).

(** *** [_descramble_image] and [get_url] *)

(** What [super().get_url] hands back: bytes, or something else. *)
Inductive content : Type :=
| Bytes (data : list Byte.byte)
| NotBytes (text : string).

Section Collaborators.

(** [PILImage.open(BytesIO(data))] together with the decoding that the
    first [crop] triggers, and
    [result.convert("RGB").save(output, format="JPEG", quality=90)]. *)
Variable image_open : list Byte.byte -> result image.
Variable image_save : image -> result (list Byte.byte).

(** The built-in [int(s)]. *)
Variable int_of_str : string -> result Z.

(** [MangaClient.get_url] of plugins/client.py, the fetch primitive. *)
Variable super_get_url : string -> result content.

(** [json.loads], [urlparse(u).path], [urljoin]. *)
Variable json_loads : content -> result json.
Variable urlparse_path : string -> result string.
Variable urljoin : string -> string -> string.

Definition _descramble_image (image_data : list Byte.byte) (offset : Z)
  : list Byte.byte :=
  try_except
    (img <- image_open image_data ;;
     result <- descramble_pixels img offset ;;
     image_save result)
    (fun _ => image_data).

Definition get_url (url : string) : result content :=
  let '(url, is_scrambled, offset) :=
    if contains "#scrambled_" url then
      let parts := split url "#scrambled_" in
      let url := nth 0 parts EmptyString in
      match int_of_str (nth 1 parts EmptyString) with
      | Ret n => (url, true, n)
      | Raise _ => (url, false, 0)
      end
    else (url, false, 0) in
  content <- super_get_url url ;;
  match content with
  | Bytes data =>
      if is_scrambled then Ret (Bytes (_descramble_image data offset))
      else Ret content
  | NotBytes _ => Ret content
  end.

(** *** [search] *)

(** An element selected by [".original.card-lg .unit .inner"]:
    [select_one(".info > a")] and [select_one("img")] on it. *)
Record unit_inner : Type := mkUnit {
  info_link : option anchor;
  unit_img : option img
}.

(** [BeautifulSoup(content, "html.parser").select(".original.card-lg .unit .inner")] *)
Variable select_units : content -> result (list unit_inner).

Definition search (query : string) (page : Z) : result (list MangaCard) :=
  let std_query := replace (strip query) " " "+" in
  let url := base_url +:+ "/filter?keyword=" +:+ std_query
             +:+ "&page=" +:+ str_int page in
  content <- get_url url ;;
  container <- select_units content ;;
  for_each container
    (fun mangas element =>
       match info_link element with
       | None => Ret mangas
       | Some info_link =>
           let name := strip (a_text info_link) in
           href <- attr (a_href info_link) ;;
           let manga_url := urljoin base_url href in
           picture_url <- match unit_img element with
                          | Some i => attr (img_src i)
                          | None => Ret EmptyString
                          end ;;
           Ret (mangas ++ [mkCard (JStr name) manga_url picture_url])
       end)
    [].

(** *** [get_chapters] and [iter_chapters] *)

(** An element selected by ["li.item"]: [select_one("a")],
    the attribute [data-number], and the text of [select_one("span")]. *)
Record li_item : Type := mkItem {
  li_link : option anchor;
  li_data_number : option string;
  li_span_text : option string
}.

(** [BeautifulSoup(html_content, "html.parser").select("li.item")] *)
Variable select_li_items : json -> result (list li_item).

(** [path.split(".")[-1]] *)
Definition last_dot_field (path : string) : string :=
  List.last (split path ".") EmptyString.

Definition ajax_url (manga_id : string) : string :=
  let lang_code := "en" in
  base_url +:+ "/ajax/manga/" +:+ manga_id +:+ "/chapter/" +:+ lang_code.

(** [number = item.get("data-number", '')]
    [raw_title = title_span.text.strip() if title_span else ''] *)
Definition item_number (item : li_item) : string :=
  match li_data_number item with Some n => n | None => EmptyString end.

Definition item_raw_title (item : li_item) : string :=
  match li_span_text item with Some t => strip t | None => EmptyString end.

(** The label built in [get_chapters], lines "Title parsing" and
    "Clean up name". *)
Definition chapter_label (number raw_title : string) : string :=
  let name := raw_title in
  let name :=
    if negb (String.eqb number EmptyString)
    then "Chapter " +:+ number +:+ ": " +:+ raw_title
    else name in
  let name := strip (replace name "Chapter :" "Chapter") in
  if endswith_char name ":" then drop_last name else name.

(** The list [chapters] built by the loop of [get_chapters]. *)
Definition parse_chapters (manga_card : MangaCard) (items : list li_item)
  : result (list MangaChapter) :=
  for_each items
    (fun chapters item =>
       match li_link item with
       | None => Ret chapters
       | Some link =>
           href <- attr (a_href link) ;;
           let url := urljoin base_url href in
           let name := chapter_label (item_number item) (item_raw_title item) in
           Ret (chapters ++ [mkChapter name url manga_card []])
       end)
    [].

Definition get_chapters (manga_card : MangaCard) (page : Z)
  : result (list MangaChapter) :=
  match (path <- urlparse_path (card_url manga_card) ;;
         Ret (last_dot_field path)) with
  | Raise _ => Ret []
  | Ret manga_id =>
      content <- get_url (ajax_url manga_id) ;;
      Ret (try_except
             (data <- json_loads content ;;
              status <- dict_get data "status" JNull ;;
              if negb (eq_int status 200) then Ret []
              else
                html_content <- dict_get data "result" (JStr EmptyString) ;;
                items <- select_li_items html_content ;;
                chapters <- parse_chapters manga_card items ;;
                Ret (slice chapters ((page - 1) * 20) (page * 20)))
             (fun _ => []))
  end.

(** The label built in [iter_chapters]:
    [name = f"Chapter {number}" if number else raw_title]. *)
Definition iter_label (number raw_title : string) : string :=
  if negb (String.eqb number EmptyString) then "Chapter " +:+ number
  else raw_title.

(** The chapters yielded by the loop of [iter_chapters] up to the item
    that raises, if any. *)
Fixpoint iter_items (manga_card : MangaCard) (items : list li_item)
  : list MangaChapter :=
  match items with
  | [] => []
  | item :: rest =>
      match li_link item with
      | None => iter_items manga_card rest
      | Some link =>
          match attr (a_href link) with
          | Raise _ => []
          | Ret href =>
              let url := urljoin base_url href in
              let name := iter_label (item_number item) (item_raw_title item) in
              mkChapter name url manga_card [] :: iter_items manga_card rest
          end
      end
  end.

(** [iter_chapters]: the sequence of yielded chapters.  Everything is
    inside [try: ... except Exception: pass], so a failure before the
    loop yields nothing and a failure inside it ends the sequence. *)
Definition iter_chapters (manga_url manga_name : string) : list MangaChapter :=
  let manga_card := mkCard (JStr manga_name) manga_url EmptyString in
  try_except
    (path <- urlparse_path manga_url ;;
     let manga_id := last_dot_field path in
     content <- get_url (ajax_url manga_id) ;;
     data <- json_loads content ;;
     html_content <- dict_get data "result" (JStr EmptyString) ;;
     items <- select_li_items html_content ;;
     Ret (iter_items manga_card items))
    (fun _ => []).

(** *** [contains_url] and [check_updated_urls] *)

(** [return "mangafire.to" in url] *)
Definition contains_url (url : string) : bool := contains "mangafire.to" url.

Definition check_updated_urls (last_chapters : list MangaChapter)
  : result (list string * list string) :=
  content <- get_url (base_url +:+ "/filter?sort=recently_updated") ;;
  container <- select_units content ;;
  updates <- for_each container
    (fun (updates : gmap string bool) element =>
       match info_link element with
       | Some link =>
           href <- attr (a_href link) ;;
           let m_url := urljoin base_url href in
           Ret (<[m_url := true]> updates)
       | None => Ret updates
       end)
    ∅ ;;
  Ret (fold_left
         (fun '(updated, not_updated) lc =>
            if bool_decide (is_Some (updates !! chapter_url lc))
            then (updated ++ [chapter_url lc], not_updated)
            else (updated, not_updated ++ [chapter_url lc]))
         last_chapters ([], [])).

(** Notion used to state the property of [check_updated_urls]: the URLs
    recorded for the anchors of the listing that have an [href]. *)
Definition listed_urls (container : list unit_inner) : list string :=
  flat_map (fun element =>
              match info_link element with
              | Some (mkAnchor _ (Some href)) => [urljoin base_url href]
              | _ => []
              end) container.

(** [pictures_from_chapters]: without a response there is nothing to
    return; with one, the body is decoded and, the reader endpoint not
    being recoverable from it, the empty list is returned. *)
Definition pictures_from_chapters (content : list Byte.byte)
  (response : option string) : list string :=
  match response with
  | Some chapter_url => []
  | None => []
  end.

End Collaborators.

End MangaFire.

(** ** plugins/mangakatana.py *)
Module MangaKatana.
Import Py Client Soup.

Definition base_url : string := "https://mangakatana.com".

(** *** The three patterns of [pictures_from_chapters]

    Each [re.search] tries the pattern at every position from the left
    and keeps the first match; the functions [match_*] are the pattern
    anchored at the start of the text and return group 1. *)

Fixpoint take_while (p : ascii -> bool) (s : string) : string :=
  match s with
  | EmptyString => EmptyString
  | String c t => if p c then String c (take_while p t) else EmptyString
  end.

Fixpoint drop_while (p : ascii -> bool) (s : string) : string :=
  match s with
  | EmptyString => EmptyString
  | String c t => if p c then drop_while p t else s
  end.

Definition strip_prefix (p s : string) : option string :=
  if String.prefix p s then Some (drop (String.length p) s) else None.

(** [re.search]: the anchored pattern [m] is tried at each position from
    the left, the first match wins. *)
Fixpoint search_first (m : string -> option string) (s : string) : option string :=
  match m s with
  | Some group => Some group
  | None =>
      match s with
      | EmptyString => None
      | String _ t => search_first m t
      end
  end.

Definition squote : ascii := ascii_of_nat 39.
Definition dquote : ascii := ascii_of_nat 34.
Definition rbracket : ascii := ascii_of_nat 93.

Definition not_quote (c : ascii) : bool := negb (Ascii.eqb c squote).
Definition not_close (c : ascii) : bool := negb (Ascii.eqb c rbracket).

(** The marker pattern: the text data-src, a single or a double quote, a
    comma, a run of whitespace, and a captured non-empty run of word
    characters.  Both runs are greedy and the two classes are disjoint,
    so only the maximal runs can match. *)
Definition match_marker (s : string) : option string :=
  match strip_prefix "data-src" s with
  | Some (String q (String "," rest)) =>
      if Ascii.eqb q squote || Ascii.eqb q dquote then
        match take_while is_word (drop_while is_space rest) with
        | EmptyString => None
        | name => Some name
        end
      else None
  | _ => None
  end.

Definition search_marker (s : string) : option string :=
  search_first match_marker s.

(** The array pattern: the text var, a blank, the name, the equals sign
    and an opening bracket, then a captured greedy run of characters
    other than the closing bracket, then the closing bracket, which has
    to be there. *)
Definition match_array (var_name s : string) : option string :=
  match strip_prefix ("var " +:+ var_name +:+ "=[") s with
  | Some rest =>
      match drop_while not_close rest with
      | String _ _ => Some (take_while not_close rest)
      | EmptyString => None
      end
  | None => None
  end.

Definition search_array (var_name s : string) : option string :=
  search_first (match_array var_name) s.

(** [re.findall] of the literal pattern (a single quote, a captured run
    of characters other than the single quote, a single quote): matches
    are taken from left to right and do not overlap; [cur] is the literal
    being read, in reverse, once its opening quote has been passed. *)
Fixpoint findall_from (s : string) (cur : option (list ascii)) : list string :=
  match s with
  | EmptyString => []
  | String c t =>
      match cur with
      | None =>
          if Ascii.eqb c squote then findall_from t (Some [])
          else findall_from t None
      | Some acc =>
          if Ascii.eqb c squote
          then string_of_list_ascii (rev acc) :: findall_from t None
          else findall_from t (Some (c :: acc))
      end
  end.

Definition findall_quoted (raw : string) : list string := findall_from raw None.

(** Notions used to state the properties of the patterns: every
    character of a text satisfies a test; the opening of the array
    assignment for a name; a text free of single quotes and closing
    brackets; and the text of a run of single-quoted literals, each
    followed by a separator, after a leading separator. *)
Fixpoint all_chars (p : ascii -> bool) (s : string) : bool :=
  match s with
  | EmptyString => true
  | String c t => p c && all_chars p t
  end.

Definition array_open (var_name : string) : string :=
  "var " +:+ var_name +:+ "=[".

Definition plain (s : string) : bool :=
  all_chars (fun c => not_quote c && not_close c) s.

Fixpoint literals_text (lead : string) (lits : list (string * string)) : string :=
  match lits with
  | [] => lead
  | (u, sep) :: rest =>
      lead +:+ String squote (u +:+ String squote (literals_text sep rest))
  end.

(** Notion used to state the property of [pictures_from_chapters]: the
    marker pattern matches at the start of [r] and captures [name], that
    is, [r] starts with the text data-src, a single or a double quote and
    a comma, then come whitespace characters and the non-empty run of
    word characters [name], which no word character follows. *)
Definition marker_at (r name : string) : Prop :=
  exists q ws tail,
    r = "data-src" +:+ String q (String "," (ws +:+ name +:+ tail)) /\
    (q = squote \/ q = dquote) /\
    all_chars is_space ws = true /\
    all_chars is_word name = true /\
    name <> EmptyString /\
    (forall d t, tail = String d t -> is_word d = false).

(** *** Elements the listing pages are read through *)

(** An element selected by ["div#book_list > div.item"]:
    [select_one("div.text")] and, on it, [select_one("h3 > a")];
    [select_one("img")]; [select_one("div.text > h3 > a")]. *)
Record book_item : Type := mkBook {
  text_div_link : option (option anchor);
  book_img : option img;
  text_h3_link : option anchor
}.

(** An element selected by [".chapter"]: [select_one("a")]. *)
Record chapter_row : Type := mkRow { row_link : option anchor }.


Section Collaborators.

(** [MangaClient.get_url], [urllib.parse.quote],
    [content.decode("utf-8", errors="ignore")], and the two selections
    [BeautifulSoup(page, "html.parser").select(...)]. *)
Variable get_url : string -> result (list Byte.byte).
Variable quote : string -> string.
Variable decode_utf8_ignore : list Byte.byte -> string.
Variable select_book_items : list Byte.byte -> list book_item.
Variable select_chapter_rows : list Byte.byte -> list chapter_row.

Definition mangas_from_page (page : list Byte.byte) : result (list MangaCard) :=
  let items := select_book_items page in
  for_each items
    (fun mangas item =>
       match text_div_link item with
       | None => Ret mangas
       | Some None => Ret mangas
       | Some (Some link) =>
           let name := strip (a_text link) in
           url <- attr (a_href link) ;;
           picture_url <- match book_img item with
                          | Some i => attr (img_src i)
                          | None => Ret EmptyString
                          end ;;
           Ret (mangas ++ [mkCard (JStr name) url picture_url])
       end)
    [].

Definition chapters_from_page (page : list Byte.byte) (manga : MangaCard)
  : result (list MangaChapter) :=
  let rows := select_chapter_rows page in
  for_each rows
    (fun chapters row =>
       match row_link row with
       | None => Ret chapters
       | Some link =>
           url <- attr (a_href link) ;;
           let name := strip (a_text link) in
           Ret (chapters ++ [mkChapter name url manga []])
       end)
    [].

Definition pictures_from_chapters (content : list Byte.byte) : list string :=
  let html_str := decode_utf8_ignore content in
  match search_marker html_str with
  | None => []
  | Some var_name =>
      match search_array var_name html_str with
      | None => []
      | Some raw_array => findall_quoted raw_array
      end
  end.

Definition search (query : string) (page : Z) : result (list MangaCard) :=
  let query := quote query in
  let url := base_url +:+ "/page/" +:+ str_int page +:+ "?search=" +:+ query
             +:+ "&search_by=book_name" in
  content <- get_url url ;;
  mangas_from_page content.

Definition get_chapters (manga_card : MangaCard) (page : Z)
  : result (list MangaChapter) :=
  content <- get_url (card_url manga_card) ;;
  chapters <- chapters_from_page content manga_card ;;
  Ret (slice chapters ((page - 1) * 20) (page * 20)).

Definition iter_chapters (manga_url manga_name : string)
  : result (list MangaChapter) :=
  let manga_card := mkCard (JStr manga_name) manga_url EmptyString in
  content <- get_url manga_url ;;
  chapters_from_page content manga_card.

(** [return url.startswith(self.base_url)] *)
Definition contains_url (url : string) : bool := startswith url base_url.

Definition check_updated_urls (last_chapters : list MangaChapter)
  : result (list string * list string) :=
  content <- get_url (base_url +:+ "/page/1") ;;
  let items := select_book_items content in
  updated_urls <- for_each items
    (fun (updated_urls : gset string) item =>
       match text_h3_link item with
       | Some link =>
           href <- attr (a_href link) ;;
           Ret (updated_urls ∪ {[href]})
       | None => Ret updated_urls
       end)
    ∅ ;;
  Ret (fold_left
         (fun '(updated, not_updated) lc =>
            if bool_decide (chapter_url lc ∈ updated_urls)
            then (updated ++ [chapter_url lc], not_updated)
            else (updated, not_updated ++ [chapter_url lc]))
         last_chapters ([], [])).

End Collaborators.

End MangaKatana.

(** ** plugins/atsumaru.py *)
Module Atsumaru.
Import Py Client.

Definition base_url : string := "https://atsu.moe".

(** How one pass through a [try] block of [iter_chapters] ends, and how
    the generator as a whole ends. *)
Inductive flow : Type :=
| NextPage
| Break.

Inductive ending : Type :=
| Exhausted
| Propagated (e : exn).

Section Collaborators.

(** [MangaClient.get_url], [json.loads], [urllib.parse.urlencode], and
    the text that [str(v)] and an f-string give for a decoded value. *)
Variable get_url : string -> result (list Byte.byte).
Variable json_loads : list Byte.byte -> result json.
Variable urlencode : list (string * string) -> string.
Variable py_str : json -> string.

(** [try: m  except json.JSONDecodeError: return []]: [None] stands for
    the early return, any other exception goes on. *)
Definition unless_decode_error {A : Type} (m : result A) : result (option A) :=
  match m with
  | Ret a => Ret (Some a)
  | Raise JSONDecodeError => Ret None
  | Raise e => Raise e
  end.

(** The body of the loop [for item in items] of [search]. *)
Definition card_of_item (item : json) : result MangaCard :=
  manga_id <- dict_get item "id" JNull ;;
  title <- dict_get item "title" JNull ;;
  poster <- dict_get item "poster" JNull ;;
  image_path <- (if truthy poster then Ret poster
                 else dict_get item "image" JNull) ;;
  image_path <- match image_path with
                | JObj _ => dict_get image_path "image" JNull
                | _ => Ret image_path
                end ;;
  let thumbnail_url :=
    if truthy image_path then
      let image_path :=
        removeprefix (removeprefix (py_str image_path) "/") "static/" in
      base_url +:+ "/static/" +:+ image_path
    else EmptyString in
  let manga_url := base_url +:+ "/manga/" +:+ py_str manga_id in
  Ret (mkCard title manga_url thumbnail_url).

Definition search (query : string) (page : Z) : result (list MangaCard) :=
  found <-
    (if String.eqb query EmptyString then
       let api_page := page - 1 in
       let url := base_url +:+ "/api/infinite/trending?page=" +:+ str_int api_page
                  +:+ "&types=Manga,Manwha,Manhua,OEL" in
       content <- get_url url ;;
       unless_decode_error
         (data <- json_loads content ;;
          dict_get data "items" (JArr []))
     else
       let params :=
         [("q", query);
          ("query_by", "title,englishTitle,otherNames");
          ("limit", "24");
          ("page", str_int page);
          ("query_by_weights", "3,2,1");
          ("include_fields", "id,title,englishTitle,poster");
          ("num_typos", "4,3,2")] in
       let query_string := urlencode params in
       let url := base_url +:+ "/collections/manga/documents/search?"
                  +:+ query_string in
       content <- get_url url ;;
       unless_decode_error
         (data <- json_loads content ;;
          hits <- dict_get data "hits" (JArr []) ;;
          hits <- iterate hits ;;
          documents <- mapM (fun hit => getitem hit "document") hits ;;
          Ret (JArr documents))) ;;
  match found with
  | None => Ret []
  | Some items =>
      items <- iterate items ;;
      for_each items
        (fun mangas item =>
           card <- card_of_item item ;;
           Ret (mangas ++ [card]))
        []
  end.

(** [manga_card.url.split("/")[-1]] *)
Definition slug_of (url : string) : string := List.last (split url "/") EmptyString.

Definition chapters_url (slug : string) (page : Z) : string :=
  base_url +:+ "/api/manga/chapters?id=" +:+ slug
  +:+ "&filter=all&sort=desc&page=" +:+ str_int page.

(** The entry shaping shared by [get_chapters] and [iter_chapters]. *)
Definition chapter_of (slug : string) (manga_card : MangaCard) (ch : json)
  : result MangaChapter :=
  ch_id <- dict_get ch "id" JNull ;;
  title <- dict_get ch "title" JNull ;;
  number <- dict_get ch "number" (JStr EmptyString) ;;
  let chapter_url := base_url +:+ "/read/" +:+ slug +:+ "/" +:+ py_str ch_id in
  let display_title :=
    if truthy number then "Ch. " +:+ py_str number +:+ " - " +:+ py_str title
    else py_str title in
  Ret (mkChapter display_title chapter_url manga_card []).

Definition get_chapters (manga_card : MangaCard) (page : Z)
  : result (list MangaChapter) :=
  let slug := slug_of (card_url manga_card) in
  let api_page := page - 1 in
  content <- get_url (chapters_url slug api_page) ;;
  found <- unless_decode_error
             (data <- json_loads content ;;
              dict_get data "chapters" (JArr [])) ;;
  match found with
  | None => Ret []
  | Some chapters_data =>
      chapters_data <- iterate chapters_data ;;
      for_each chapters_data
        (fun chapters ch =>
           chapter <- chapter_of slug manga_card ch ;;
           Ret (chapters ++ [chapter]))
        []
  end.

(** The chapters yielded by [for ch in chapters_data] before an entry
    raises, and whether one did. *)
Fixpoint yield_chapters (slug : string) (manga_card : MangaCard) (l : list json)
  : list MangaChapter * bool :=
  match l with
  | [] => ([], true)
  | ch :: rest =>
      match chapter_of slug manga_card ch with
      | Raise _ => ([], false)
      | Ret chapter =>
          let '(more, ok) := yield_chapters slug manga_card rest in
          (chapter :: more, ok)
      end
  end.

(** One pass through the [try] block of the loop, for the page whose
    body is [content]: what it yields and how it leaves the block.  Every
    exception inside the block leads to [break]. *)
Definition page_pass (slug : string) (manga_card : MangaCard) (page : Z)
  (content : list Byte.byte) : list MangaChapter * flow :=
  match (data <- json_loads content ;;
         chapters_data <- dict_get data "chapters" (JArr []) ;;
         Ret (data, chapters_data)) with
  | Raise _ => ([], Break)
  | Ret (data, chapters_data) =>
      if negb (truthy chapters_data) then ([], Break)
      else
        match iterate chapters_data with
        | Raise _ => ([], Break)
        | Ret entries =>
            let '(yielded, ok) := yield_chapters slug manga_card entries in
            if negb ok then (yielded, Break)
            else
              match (total_pages <- dict_get data "pages" (JNum 0) ;;
                     int_ge (page + 1) total_pages) with
              | Raise _ => (yielded, Break)
              | Ret true => (yielded, Break)
              | Ret false => (yielded, NextPage)
              end
        end
  end.

(** A finished run of the generator: the chapters it yielded, the URLs
    it requested, in order, and how it ended. *)
Record run : Type := mkRun {
  yielded : list MangaChapter;
  requested : list string;
  ended : ending
}.

(** The [while True] loop, one unit of fuel per fetched page; [None]
    means the fuel ran out before the loop ended. *)
Fixpoint iter_pages (fuel : nat) (slug : string) (manga_card : MangaCard)
  (page : Z) : option run :=
  match fuel with
  | O => None
  | S fuel' =>
      let url := chapters_url slug page in
      match get_url url with
      | Raise e => Some (mkRun [] [url] (Propagated e))
      | Ret content =>
          match page_pass slug manga_card page content with
          | (chapters, Break) => Some (mkRun chapters [url] Exhausted)
          | (chapters, NextPage) =>
              match iter_pages fuel' slug manga_card (page + 1) with
              | Some r =>
                  Some (mkRun (chapters ++ yielded r) (url :: requested r)
                              (ended r))
              | None => None
              end
          end
      end
  end.

(** [iter_chapters]: the local [page] starts at 0 on every call. *)
Definition iter_chapters (fuel : nat) (manga_url manga_name : string)
  : option run :=
  let manga_card := mkCard (JStr manga_name) manga_url EmptyString in
  let slug := slug_of manga_url in
  let page := 0 in
  iter_pages fuel slug manga_card page.

(** Notions used to state the termination property.  The page [page] of
    the listing for [slug] comes back without items: the body decodes to
    an object whose [chapters] entry is missing, empty, or otherwise
    false.  And the URLs of [count] consecutive pages from [page] on. *)
Definition no_items (slug : string) (page : Z) : Prop :=
  exists content data chapters_data,
    get_url (chapters_url slug page) = Ret content /\
    json_loads content = Ret data /\
    dict_get data "chapters" (JArr []) = Ret chapters_data /\
    truthy chapters_data = false.

Definition pages_from (slug : string) (page : Z) (count : nat) : list string :=
  map (fun i => chapters_url slug (page + Z.of_nat i)) (seq 0 count).

(** [return url.startswith("https://atsu.moe/")] *)
Definition contains_url (url : string) : bool := startswith url "https://atsu.moe/".

Definition check_updated_urls (last_chapters : list MangaChapter)
  : result (list string * list string) :=
  let url := base_url
             +:+ "/api/infinite/recentlyUpdated?page=0&types=Manga,Manwha,Manhua,OEL" in
  content <- get_url url ;;
  Ret (try_except
         (data <- json_loads content ;;
          items <- dict_get data "items" (JArr []) ;;
          items <- iterate items ;;
          _ <- for_each items
                 (fun (latest_map : unit) item =>
                    manga_id <- dict_get item "id" JNull ;;
                    Ret latest_map)
                 tt ;;
          Ret ([], map chapter_url last_chapters))
         (fun _ => ([], []))).

(** [pictures_from_chapters]: [response] is the URL of the response, if
    there is one.  Everything after the first test is inside
    [try: ... except Exception: return []]: the split of the URL, the
    two fields taken from its end, the request to the reader endpoint and
    the loop over the pages of its answer. *)
Definition read_url (slug chapter_id : string) : string :=
  base_url +:+ "/api/read/chapter?mangaId=" +:+ slug
  +:+ "&chapterId=" +:+ chapter_id.

Definition pictures_from_api (slug chapter_id : string) : list string :=
  try_except
    (json_content <- get_url (read_url slug chapter_id) ;;
     data <- json_loads json_content ;;
     read_chapter <- dict_get data "readChapter" (JObj []) ;;
     pages <- dict_get read_chapter "pages" (JArr []) ;;
     pages <- iterate pages ;;
     for_each pages
       (fun images p =>
          img_path <- dict_get p "image" JNull ;;
          if truthy img_path
          then Ret (images ++ [base_url +:+ py_str img_path])
          else Ret images)
       [])
    (fun _ => []).

Definition pictures_from_chapters (content : list Byte.byte)
  (response : option string) : list string :=
  match response with
  | None => []
  | Some url_str =>
      let parts := split url_str "/" in
      match index_from_end parts 2, index_from_end parts 1 with
      | Some slug, Some chapter_id => pictures_from_api slug chapter_id
      | _, _ => []
      end
  end.

End Collaborators.

End Atsumaru.

(** ** Concrete inputs used in examples *)
Module Samples.
Import Py PIL Client Soup.

(** A 3 x 3 image whose nine pixels are pairwise different. *)
Definition img_3x3 : image := mkImage 3 3 (fun i j => i + 3 * j).


(** A toy decoder: the first two bytes give the size, the pixel at
    [(i, j)] is the byte at position [2 + i + width * j]; shorter data
    does not decode.  The toy encoder writes the same layout. *)
Definition toy_open (data : list Byte.byte) : result image :=
  match data with
  | bw :: bh :: body =>
      let width := Z.of_N (Byte.to_N bw) in
      let height := Z.of_N (Byte.to_N bh) in
      Ret (mkImage width height
             (fun i j => Z.of_N (Byte.to_N
                (nth (Z.to_nat (i + width * j)) body Byte.x00))))
  | _ => Raise TypeError
  end.

Definition toy_byte (n : Z) : Byte.byte :=
  match Byte.of_N (Z.to_N n) with Some b => b | None => Byte.x00 end.

Definition toy_save (im : image) : result (list Byte.byte) :=
  Ret (toy_byte (img_width im) :: toy_byte (img_height im) ::
       flat_map (fun j => map (fun i => toy_byte (get im i j))
                              (range (img_width im)))
                (range (img_height im))).

(** A fetch primitive that answers every request with the same bytes. *)
Definition fetch_bytes (data : list Byte.byte) (url : string)
  : result (list Byte.byte) := Ret data.

Definition fetch_content (data : list Byte.byte) (url : string)
  : result MangaFire.content := Ret (MangaFire.Bytes data).

(** [urljoin] on the references met here: paths from the site root. *)
Definition join_root (base ref : string) : string := base +:+ ref.

(** A card with 45 chapters, as either listing presents them. *)
Definition sample_card : MangaCard :=
  mkCard (JStr "Sample") "https://mangafire.to/manga/sample.x1" EmptyString.

Definition sample_path (url : string) : result string := Ret "/manga/sample.x1".

Definition sample_envelope : json :=
  JObj [("status", JNum 200); ("result", JStr "<ul>...</ul>")].

Definition sample_items : list MangaFire.li_item :=
  map (fun n =>
         MangaFire.mkItem
           (Some (mkAnchor "read"
                    (Some ("/read/sample.x1/en/chapter-" +:+ str_int n))))
           (Some (str_int n)) (Some "Title"))
      (range 45).

Definition sample_rows : list MangaKatana.chapter_row :=
  map (fun n =>
         MangaKatana.mkRow
           (Some (mkAnchor ("Chapter " +:+ str_int n)
                    (Some ("https://mangakatana.com/manga/sample.1/c"
                           +:+ str_int n)))))
      (range 45).

Definition sample_chapters_fire : list MangaChapter :=
  map (fun n =>
         mkChapter ("Chapter " +:+ str_int n +:+ ": Title")
           ("https://mangafire.to/read/sample.x1/en/chapter-" +:+ str_int n)
           sample_card [])
      (range 45).

Definition sample_chapters_katana : list MangaChapter :=
  map (fun n =>
         mkChapter ("Chapter " +:+ str_int n)
           ("https://mangakatana.com/manga/sample.1/c" +:+ str_int n)
           sample_card [])
      (range 45).

(** A listing served in pages: two chapters on page 0, one on page 1,
    none from page 2 on, each response claiming [pages] pages in total.
    The fetch answers with the requested URL as the body, and the decoder
    reads the page off it. *)
Definition paged_get_url (url : string) : result (list Byte.byte) :=
  Ret (list_byte_of_string url).

Definition entry (n : Z) : json :=
  JObj [("id", JStr ("c" +:+ str_int n)); ("title", JStr "Title");
        ("number", JNum n)].

Definition paged_loads (pages : json) (content : list Byte.byte) : result json :=
  let url := string_of_list_byte content in
  let chapters :=
    if contains "page=0" url then [entry 3; entry 2]
    else if contains "page=1" url then [entry 1]
    else [] in
  Ret (JObj [("chapters", JArr chapters); ("pages", pages)]).

(** [str(v)] on the values met in the samples. *)
Definition sample_str (v : json) : string :=
  match v with
  | JStr s => s
  | JNum n => str_int n
  | JNull => "None"
  | JBool true => "True"
  | JBool false => "False"
  | JArr _ => "[...]"
  | JObj _ => "{...}"
  end.

(** Malformed upstream payloads: a search hit without its [document], a
    body that is a JSON array, and listing elements whose anchor has no
    [href]. *)
Definition hits_without_document : json :=
  JObj [("hits", JArr [JObj [("text_match", JNum 1)]])].

Definition book_without_href : MangaKatana.book_item :=
  MangaKatana.mkBook (Some (Some (mkAnchor "New" None))) None
                     (Some (mkAnchor "New" None)).

Definition unit_without_href : MangaFire.unit_inner :=
  MangaFire.mkUnit (Some (mkAnchor "New" None)) None.

(** One previously known chapter and a listing that mentions its card. *)
Definition sample_last : list MangaChapter :=
  [mkChapter "Chapter 7" "https://mangakatana.com/manga/sample.1/c7"
             sample_card []].

Definition book_listed : MangaKatana.book_item :=
  let link := mkAnchor "Sample" (Some "https://mangakatana.com/manga/sample.1") in
  MangaKatana.mkBook (Some (Some link)) None (Some link).

Definition unit_listed : MangaFire.unit_inner :=
  MangaFire.mkUnit (Some (mkAnchor "Sample" (Some "/manga/sample.x1"))) None.

End Samples.

(* ================================================================== *)
(** * Part II: properties *)
(* ================================================================== *)

(** ** Generic facts about the runtime model *)

Lemma range_In (n x : Z) : In x (Py.range n) <-> 0 <= x < n.
Proof.
  unfold Py.range. rewrite in_map_iff. split.
  - intros [k [<- Hk]]. apply in_seq in Hk. lia.
  - intros Hx. exists (Z.to_nat x). split; [lia|]. apply in_seq. lia.
Qed.


Lemma mapM_pure {A B : Type} (f : A -> Py.result B) (g : A -> B) (l : list A) :
  (forall a, In a l -> f a = Py.Ret (g a)) ->
  Py.mapM f l = Py.Ret (map g l).
Proof.
  induction l as [|a l IH]; intros Hf; simpl; [reflexivity|].
  rewrite (Hf a (or_introl eq_refl)). simpl.
  rewrite IH by (intros b Hb; apply Hf; now right). reflexivity.
Qed.

Lemma fold_left_snoc {A B : Type} (f : A -> B -> A) (l : list B) (b : B) (a : A) :
  fold_left f (l ++ [b]) a = f (fold_left f l a) b.
Proof. now rewrite fold_left_app. Qed.

(** *** Strings *)

Lemma append_cons (c : ascii) (p r : string) :
  String c p +:+ r = String c (p +:+ r).
Proof. reflexivity. Qed.

Lemma append_nil (r : string) : EmptyString +:+ r = r.
Proof. reflexivity. Qed.

Lemma prefix_iff (p s : string) :
  String.prefix p s = true <-> exists rest, s = p +:+ rest.
Proof.
  revert s. induction p as [|c p IH]; intros s; simpl.
  - destruct s; (split; [intros _; eexists; reflexivity|reflexivity]).
  - destruct s as [|d s]; simpl.
    + split; [discriminate|intros [rest Hr]; discriminate Hr].
    + destruct (Ascii.ascii_dec c d) as [->|Hne].
      * rewrite IH. split; intros [rest Hr]; exists rest;
          rewrite append_cons in *; congruence.
      * split; [discriminate|].
        intros [rest Hr]. rewrite append_cons in Hr. congruence.
Qed.

Lemma contains_iff (sub s : string) :
  Py.contains sub s = true <-> exists pre post, s = pre +:+ sub +:+ post.
Proof.
  induction s as [|c s IH].
  - change (Py.contains sub EmptyString)
      with (String.prefix sub EmptyString || false).
    rewrite orb_false_r, prefix_iff. split.
    + intros [rest Hr]. now exists EmptyString, rest.
    + intros [pre [post Hs]]. destruct pre; [|discriminate].
      now exists post.
  - change (Py.contains sub (String c s))
      with (String.prefix sub (String c s) || Py.contains sub s).
    rewrite orb_true_iff, prefix_iff, IH. split.
    + intros [[rest Hr]|[pre [post Hs]]].
      * now exists EmptyString, rest.
      * exists (String c pre), post. rewrite append_cons. now rewrite Hs.
    + intros [[|d pre] [post Hs]].
      * left. now exists post.
      * right. exists pre, post. rewrite append_cons in Hs. congruence.
Qed.

Lemma append_assoc (a b c : string) : (a +:+ b) +:+ c = a +:+ b +:+ c.
Proof.
  induction a as [|x a IH]; [reflexivity|].
  rewrite !append_cons. now rewrite IH.
Qed.

Lemma append_nil_r (a : string) : a +:+ EmptyString = a.
Proof.
  induction a as [|x a IH]; [reflexivity|]. rewrite append_cons. now rewrite IH.
Qed.

Lemma append_length (a b : string) :
  String.length (a +:+ b) = (String.length a + String.length b)%nat.
Proof.
  induction a as [|x a IH]; [reflexivity|].
  rewrite append_cons. simpl. now rewrite IH.
Qed.

Lemma drop_append (p r : string) : Py.drop (String.length p) (p +:+ r) = r.
Proof. induction p as [|x p IH]; [now destruct r|]. rewrite append_cons. exact IH. Qed.

(** ** The descrambling transform (plugins/mangafire.py) *)

(** [ceil_div] is the ceiling of the quotient for a positive divisor. *)
Lemma ceil_div_pos (a b : Z) :
  0 < b ->
  MangaFire.ceil_div a b = Py.Ret ((a + b - 1) / b) /\
  b * ((a + b - 1) / b - 1) < a <= b * ((a + b - 1) / b).
Proof.
  intros Hb. unfold MangaFire.ceil_div, Py.floordiv.
  destruct (Z.eqb_spec b 0) as [->|_]; [lia|]. split; [reflexivity|].
  pose proof (Z.div_mod (a + b - 1) b ltac:(lia)) as Hdm.
  pose proof (Z.mod_pos_bound (a + b - 1) b Hb) as Hm. nia.
Qed.

(** The tile grid of an axis of positive size. *)
Lemma piece_size_pos (size : Z) : 0 < size -> 0 < MangaFire.piece_size size <= 200.
Proof.
  intros Hs. unfold MangaFire.piece_size, MangaFire.PIECE_SIZE,
    MangaFire.MIN_SPLIT_COUNT.
  destruct (ceil_div_pos size 5 ltac:(lia)) as [_ Hc]. lia.
Qed.

Lemma max_index_bounds (size : Z) :
  0 < size ->
  0 <= MangaFire.max_index size /\
  MangaFire.piece_size size * MangaFire.max_index size < size
    <= MangaFire.piece_size size * (MangaFire.max_index size + 1).
Proof.
  intros Hs. pose proof (piece_size_pos size Hs) as Hp.
  unfold MangaFire.max_index.
  destruct (ceil_div_pos size (MangaFire.piece_size size) ltac:(lia)) as [_ Hc].
  nia.
Qed.

Lemma src_index_pure (max offset idx : Z) :
  0 <= idx <= max ->
  MangaFire.src_index idx max offset = Py.Ret (MangaFire.src_idx max offset idx).
Proof.
  intros Hi. unfold MangaFire.src_index, MangaFire.src_idx, Py.modulo.
  destruct (Z.eqb_spec idx max); [reflexivity|].
  destruct (Z.eqb_spec max 0); [lia|reflexivity].
Qed.

Lemma src_idx_last (max offset : Z) : MangaFire.src_idx max offset max = max.
Proof. unfold MangaFire.src_idx. now rewrite Z.eqb_refl. Qed.

Lemma src_idx_inner (max offset idx : Z) :
  0 <= idx < max -> 0 <= MangaFire.src_idx max offset idx < max.
Proof.
  intros Hi. unfold MangaFire.src_idx.
  destruct (Z.eqb_spec idx max); [lia|]. apply Z.mod_pos_bound. lia.
Qed.

Lemma src_idx_involutive (max offset idx : Z) :
  0 <= idx <= max ->
  MangaFire.src_idx max offset (MangaFire.src_idx max offset idx) = idx.
Proof.
  intros Hi. destruct (Z.eq_dec idx max) as [->|Hne].
  - now rewrite !src_idx_last.
  - pose proof (src_idx_inner max offset idx ltac:(lia)) as Hb.
    unfold MangaFire.src_idx in *.
    destruct (Z.eqb_spec idx max); [lia|].
    set (a := (max - idx + offset) mod max) in *.
    destruct (Z.eqb_spec a max); [lia|].
    pose proof (Z.div_mod (max - idx + offset) max ltac:(lia)) as Hdm.
    fold a in Hdm.
    symmetry. apply (Z.mod_unique_pos _ _ ((max - idx + offset) / max + 1 - 1 + 0)).
    + lia.
    + lia.
Qed.

(** On an image of positive size no step of the tile computation raises,
    and the double loop yields the closed-form tiles in loop order. *)
Lemma descramble_tiles_pure (W H offset : Z) :
  0 < W -> 0 < H ->
  MangaFire.descramble_tiles W H offset =
  Py.Ret (concat (map (fun y => map (fun x => MangaFire.tile_of W H offset x y)
                                    (Py.range (MangaFire.max_index W + 1)))
                      (Py.range (MangaFire.max_index H + 1)))).
Proof.
  intros HW HH.
  pose proof (piece_size_pos W HW) as HpW. pose proof (piece_size_pos H HH) as HpH.
  unfold MangaFire.descramble_tiles.
  destruct (ceil_div_pos W MangaFire.MIN_SPLIT_COUNT ltac:(reflexivity)) as [-> _].
  cbn [Py.bind].
  destruct (ceil_div_pos H MangaFire.MIN_SPLIT_COUNT ltac:(reflexivity)) as [-> _].
  cbn [Py.bind]. fold (MangaFire.piece_size W). fold (MangaFire.piece_size H).
  destruct (ceil_div_pos W (MangaFire.piece_size W) ltac:(lia)) as [-> _].
  cbn [Py.bind].
  destruct (ceil_div_pos H (MangaFire.piece_size H) ltac:(lia)) as [-> _].
  cbn [Py.bind]. fold (MangaFire.max_index W). fold (MangaFire.max_index H).
  erewrite mapM_pure; [reflexivity|].
  intros y Hy. apply range_In in Hy. apply mapM_pure.
  intros x Hx. apply range_In in Hx.
  unfold MangaFire.tile_at.
  rewrite (src_index_pure (MangaFire.max_index W) offset x) by lia.
  rewrite (src_index_pure (MangaFire.max_index H) offset y) by lia.
  reflexivity.
Qed.

Lemma In_grid {A : Type} (f : Z -> Z -> A) (nx ny : Z) (a : A) :
  In a (concat (map (fun y => map (fun x => f x y) (Py.range nx)) (Py.range ny)))
  <-> exists x y, 0 <= x < nx /\ 0 <= y < ny /\ a = f x y.
Proof.
  rewrite in_concat. split.
  - intros [row [Hrow Ha]]. apply in_map_iff in Hrow as [y [<- Hy]].
    apply in_map_iff in Ha as [x [<- Hx]].
    apply range_In in Hx, Hy. now exists x, y.
  - intros [x [y [Hx [Hy ->]]]].
    exists (map (fun x => f x y) (Py.range nx)). split.
    + apply in_map_iff. exists y. split; [reflexivity|now apply range_In].
    + apply in_map_iff. exists x. split; [reflexivity|now apply range_In].
Qed.


Example descramble_tiles_7x3 :
  MangaFire.descramble_tiles 7 3 4 =
  Py.Ret (map (fun '(xd, yd, xs, ys) => MangaFire.mkTile xd yd 2 1 xs ys)
            [(0,0,2,0); (2,0,0,0); (4,0,4,0)] ++
          [MangaFire.mkTile 6 0 1 1 6 0] ++
          map (fun '(xd, yd, xs, ys) => MangaFire.mkTile xd yd 2 1 xs ys)
            [(0,1,2,1); (2,1,0,1); (4,1,4,1)] ++
          [MangaFire.mkTile 6 1 1 1 6 1] ++
          map (fun '(xd, yd, xs, ys) => MangaFire.mkTile xd yd 2 1 xs ys)
            [(0,2,2,2); (2,2,0,2); (4,2,4,2)] ++
          [MangaFire.mkTile 6 2 1 1 6 2]).
Proof. vm_compute. reflexivity. Qed.

(** *** Pixel-level behaviour of the paste loops *)

Lemma paste_fold_size {T : Type} (piece : T -> PIL.image) (pos : T -> Z * Z)
  (ts : list T) (res : PIL.image) :
  PIL.img_width (fold_left (fun r t => PIL.paste r (piece t) (pos t)) ts res)
    = PIL.img_width res /\
  PIL.img_height (fold_left (fun r t => PIL.paste r (piece t) (pos t)) ts res)
    = PIL.img_height res.
Proof.
  revert res. induction ts as [|t ts IH]; intros res; simpl; [now split|].
  destruct (IH (PIL.paste res (piece t) (pos t))) as [-> ->].
  unfold PIL.paste. destruct (pos t). now split.
Qed.

(** After a sequence of pastes, a pixel covered by some piece holds the
    value of a covering piece; when all covering pieces agree on it, that
    value is determined. *)
Lemma paste_fold_px {T : Type} (piece : T -> PIL.image) (pos : T -> Z * Z)
  (ts : list T) (res : PIL.image) (i j : Z) (v : PIL.pixel) :
  (exists t, In t ts /\
     PIL.in_bounds (piece t) (i - fst (pos t)) (j - snd (pos t)) = true) ->
  (forall t, In t ts ->
     PIL.in_bounds (piece t) (i - fst (pos t)) (j - snd (pos t)) = true ->
     PIL.px (piece t) (i - fst (pos t)) (j - snd (pos t)) = v) ->
  PIL.px (fold_left (fun r t => PIL.paste r (piece t) (pos t)) ts res) i j = v.
Proof.
  induction ts as [|t ts IH] using rev_ind; intros [t0 [Hin Hcov]] Hval.
  - destruct Hin.
  - rewrite fold_left_snoc. unfold PIL.paste at 1.
    destruct (pos t) as [x y] eqn:Hpos. cbn [PIL.px].
    destruct (PIL.in_bounds (piece t) (i - x) (j - y)) eqn:Hb.
    + specialize (Hval t). rewrite Hpos in Hval. cbn [fst snd] in Hval.
      apply Hval; [apply in_or_app; right; now left|assumption].
    + apply IH.
      * apply in_app_or in Hin as [Hin|[<-|[]]].
        -- now exists t0.
        -- rewrite Hpos in Hcov. cbn [fst snd] in Hcov. congruence.
      * intros t' Hin' Hcov'. apply Hval; [apply in_or_app; now left|assumption].
Qed.

Lemma in_bounds_true (im : PIL.image) (i j : Z) :
  PIL.in_bounds im i j = true <->
  0 <= i < PIL.img_width im /\ 0 <= j < PIL.img_height im.
Proof. unfold PIL.in_bounds. rewrite !andb_true_iff. lia. Qed.

Lemma get_in_bounds (im : PIL.image) (i j : Z) :
  0 <= i < PIL.img_width im -> 0 <= j < PIL.img_height im ->
  PIL.get im i j = PIL.px im i j.
Proof.
  intros Hi Hj. unfold PIL.get.
  now rewrite (proj2 (in_bounds_true im i j) (conj Hi Hj)).
Qed.

(** *** One axis of the tile grid *)

(** The tile that holds coordinate [i], and the offset of [i] inside it. *)
Lemma axis_locate (size i : Z) :
  0 < size -> 0 <= i < size ->
  let p := MangaFire.piece_size size in
  0 <= i / p <= MangaFire.max_index size /\
  0 <= i mod p < Z.min p (size - p * (i / p)) /\
  i = p * (i / p) + i mod p.
Proof.
  intros Hs Hi p. pose proof (piece_size_pos size Hs) as Hp. fold p in Hp.
  pose proof (max_index_bounds size Hs) as Hm. fold p in Hm.
  pose proof (Z.div_mod i p ltac:(lia)) as Hdm.
  pose proof (Z.mod_pos_bound i p ltac:(lia)) as Hr.
  assert (0 <= i / p) by (apply Z.div_pos; lia).
  repeat split; try lia; nia.
Qed.

Lemma axis_unique (p i x : Z) :
  0 < p -> 0 <= i - p * x < p -> x = i / p /\ i - p * x = i mod p.
Proof.
  intros Hp Hr. split.
  - apply (Z.div_unique_pos i p x (i - p * x)); lia.
  - apply (Z.mod_unique_pos i p x (i - p * x)); lia.
Qed.

(** The source coordinate stays on the axis, keeps the offset inside the
    tile, and applying it twice gives the coordinate back. *)
Lemma src_coord_spec (size offset i : Z) :
  0 < size -> 0 <= i < size ->
  let p := MangaFire.piece_size size in
  0 <= MangaFire.src_coord size offset i < size /\
  MangaFire.src_coord size offset i / p
    = MangaFire.src_idx (MangaFire.max_index size) offset (i / p) /\
  MangaFire.src_coord size offset i mod p = i mod p.
Proof.
  intros Hs Hi p. pose proof (piece_size_pos size Hs) as Hp. fold p in Hp.
  pose proof (max_index_bounds size Hs) as Hm. fold p in Hm.
  destruct (axis_locate size i Hs Hi) as [Hx [Hr Hi']]. fold p in Hx, Hr, Hi'.
  unfold MangaFire.src_coord. fold p.
  set (m := MangaFire.max_index size) in *.
  set (s := MangaFire.src_idx m offset (i / p)).
  assert (Hs' : 0 <= s <= m /\ (i / p = m -> s = m) /\ (i / p < m -> s < m)).
  { subst s. destruct (Z.eq_dec (i / p) m) as [->|Hne].
    - rewrite src_idx_last. lia.
    - pose proof (src_idx_inner m offset (i / p) ltac:(lia)). lia. }
  destruct (axis_unique p (p * s + i mod p) s ltac:(lia) ltac:(lia)) as [Hq Hrem].
  split; [|split].
  - destruct (Z.eq_dec (i / p) m); nia.
  - now rewrite <- Hq.
  - rewrite <- Hrem. lia.
Qed.

Lemma src_coord_involutive (size offset i : Z) :
  0 < size -> 0 <= i < size ->
  MangaFire.src_coord size offset (MangaFire.src_coord size offset i) = i.
Proof.
  intros Hs Hi.
  destruct (src_coord_spec size offset i Hs Hi) as [Hb [Hq Hr]].
  destruct (axis_locate size i Hs Hi) as [Hx [_ Hi']].
  unfold MangaFire.src_coord at 1. rewrite Hq, Hr.
  rewrite src_idx_involutive by lia. lia.
Qed.

Lemma src_coord_last_tile (size offset i : Z) :
  0 < size ->
  MangaFire.piece_size size * MangaFire.max_index size <= i < size ->
  MangaFire.src_coord size offset i = i.
Proof.
  intros Hs Hi. pose proof (piece_size_pos size Hs) as Hp.
  pose proof (max_index_bounds size Hs) as Hm.
  destruct (axis_locate size i Hs ltac:(nia)) as [Hx [Hr Hi']].
  assert (i / MangaFire.piece_size size = MangaFire.max_index size) as Hq by nia.
  unfold MangaFire.src_coord. rewrite Hq, src_idx_last. lia.
Qed.

(** *** What the two transforms do to each pixel *)

Lemma descramble_pixels_px (img : PIL.image) (offset : Z) :
  0 < PIL.img_width img -> 0 < PIL.img_height img ->
  exists r,
    MangaFire.descramble_pixels img offset = Py.Ret r /\
    PIL.img_width r = PIL.img_width img /\
    PIL.img_height r = PIL.img_height img /\
    forall i j,
      0 <= i < PIL.img_width img -> 0 <= j < PIL.img_height img ->
      PIL.get r i j =
      PIL.get img (MangaFire.src_coord (PIL.img_width img) offset i)
                  (MangaFire.src_coord (PIL.img_height img) offset j).
Proof.
  intros HW HH. unfold MangaFire.descramble_pixels.
  rewrite (descramble_tiles_pure _ _ offset HW HH). cbn [Py.bind].
  set (W := PIL.img_width img) in *. set (H := PIL.img_height img) in *.
  set (ts := concat _).
  set (piece := fun t => PIL.crop img
        (MangaFire.x_src t, MangaFire.y_src t,
         MangaFire.x_src t + MangaFire.w t, MangaFire.y_src t + MangaFire.h t)).
  set (pos := fun t => (MangaFire.x_dst t, MangaFire.y_dst t)).
  change (fold_left (MangaFire.move_tile img) ts (PIL.new W H)) with
    (fold_left (fun r t => PIL.paste r (piece t) (pos t)) ts (PIL.new W H)).
  eexists. split; [reflexivity|].
  destruct (paste_fold_size piece pos ts (PIL.new W H)) as [Hw Hh].
  pose proof (paste_fold_px piece pos ts (PIL.new W H)) as Hpx.
  subst piece pos. cbv beta in Hw, Hh, Hpx.
  split; [exact Hw|]. split; [exact Hh|].
  intros i j Hi Hj. rewrite get_in_bounds by (rewrite ?Hw, ?Hh; assumption).
  pose proof (piece_size_pos W HW) as HpW. pose proof (piece_size_pos H HH) as HpH.
  destruct (axis_locate W i HW Hi) as [Hxi [Hri Hi']].
  destruct (axis_locate H j HH Hj) as [Hxj [Hrj Hj']].
  apply Hpx.
  - exists (MangaFire.tile_of W H offset (i / MangaFire.piece_size W)
                                          (j / MangaFire.piece_size H)).
    split.
    + subst ts. apply In_grid. eexists _, _. split; [|split; [|reflexivity]]; lia.
    + apply in_bounds_true. cbn. lia.
  - intros t Hin Hcov. subst ts. apply In_grid in Hin as [x [y [Hx [Hy ->]]]].
    apply in_bounds_true in Hcov. cbn in Hcov. cbn.
    destruct (axis_unique (MangaFire.piece_size W) i x ltac:(lia) ltac:(lia))
      as [-> Hrx].
    destruct (axis_unique (MangaFire.piece_size H) j y ltac:(lia) ltac:(lia))
      as [-> Hry].
    unfold MangaFire.src_coord. f_equal; lia.
Qed.

(** A pixel of the destination tile [x] along one axis, at [a] inside
    the tile, comes from the same place inside the source tile. *)
Lemma src_coord_tile (size offset x a : Z) :
  0 < size -> 0 <= x <= MangaFire.max_index size ->
  0 <= a < Z.min (MangaFire.piece_size size)
                 (size - MangaFire.piece_size size * x) ->
  0 <= MangaFire.piece_size size * x + a < size /\
  MangaFire.src_coord size offset (MangaFire.piece_size size * x + a)
  = MangaFire.piece_size size
      * MangaFire.src_idx (MangaFire.max_index size) offset x + a.
Proof.
  intros Hs Hx Ha. pose proof (piece_size_pos size Hs) as Hp.
  split; [nia|].
  destruct (axis_unique (MangaFire.piece_size size)
              (MangaFire.piece_size size * x + a) x ltac:(lia) ltac:(lia))
    as [Hq Hr].
  unfold MangaFire.src_coord. rewrite <- Hq, <- Hr. lia.
Qed.



(** The first row of the 7 x 3 sample after descrambling with offset 4:
    the tiles of two pixels at 0 and 2 are exchanged, those at 4 and 6
    stay, and the rows keep their places. *)
Example descramble_7x3_pixels :
  exists r,
    MangaFire.descramble_pixels (PIL.mkImage 7 3 (fun i j => i + 7 * j)) 4
      = Py.Ret r /\
    map (fun j => map (fun i => PIL.get r i j) [0; 1; 2; 3; 4; 5; 6]) [0; 1; 2]
    = [[2; 3; 0; 1; 4; 5; 6]; [9; 10; 7; 8; 11; 12; 13];
       [16; 17; 14; 15; 18; 19; 20]].
Proof. eexists. split; [reflexivity|]. vm_compute. reflexivity. Qed.

Lemma spec_scramble_pixels_px (img : PIL.image) (offset : Z) :
  0 < PIL.img_width img -> 0 < PIL.img_height img ->
  exists r,
    MangaFire.spec_scramble_pixels img offset = Py.Ret r /\
    PIL.img_width r = PIL.img_width img /\
    PIL.img_height r = PIL.img_height img /\
    forall i j,
      0 <= i < PIL.img_width img -> 0 <= j < PIL.img_height img ->
      PIL.get r i j =
      PIL.get img (MangaFire.src_coord (PIL.img_width img) offset i)
                  (MangaFire.src_coord (PIL.img_height img) offset j).
Proof.
  intros HW HH. unfold MangaFire.spec_scramble_pixels.
  rewrite (descramble_tiles_pure _ _ offset HW HH). cbn [Py.bind].
  set (W := PIL.img_width img) in *. set (H := PIL.img_height img) in *.
  set (ts := concat _).
  set (piece := fun t => PIL.crop img
        (MangaFire.x_dst t, MangaFire.y_dst t,
         MangaFire.x_dst t + MangaFire.w t, MangaFire.y_dst t + MangaFire.h t)).
  set (pos := fun t => (MangaFire.x_src t, MangaFire.y_src t)).
  change (fold_left (MangaFire.spec_unmove_tile img) ts (PIL.new W H)) with
    (fold_left (fun r t => PIL.paste r (piece t) (pos t)) ts (PIL.new W H)).
  eexists. split; [reflexivity|].
  destruct (paste_fold_size piece pos ts (PIL.new W H)) as [Hw Hh].
  pose proof (paste_fold_px piece pos ts (PIL.new W H)) as Hpx.
  subst piece pos. cbv beta in Hw, Hh, Hpx.
  split; [exact Hw|]. split; [exact Hh|].
  intros i j Hi Hj. rewrite get_in_bounds by (rewrite ?Hw, ?Hh; assumption).
  pose proof (piece_size_pos W HW) as HpW. pose proof (piece_size_pos H HH) as HpH.
  pose proof (max_index_bounds W HW) as HmW.
  pose proof (max_index_bounds H HH) as HmH.
  assert (Haxis : forall size x c, 0 < size -> 0 <= c < size ->
            0 <= x <= MangaFire.max_index size ->
            let p := MangaFire.piece_size size in
            let m := MangaFire.max_index size in
            0 <= c - p * MangaFire.src_idx m offset x < Z.min p (size - p * x) ->
            p * x + (c - p * MangaFire.src_idx m offset x)
              = MangaFire.src_coord size offset c).
  { intros size x c Hs Hc Hx p m Hcov.
    pose proof (piece_size_pos size Hs) as Hp. fold p in Hp.
    destruct (axis_unique p c (MangaFire.src_idx m offset x) ltac:(lia) ltac:(lia))
      as [Hq Hr].
    unfold MangaFire.src_coord. fold p m. rewrite <- Hq, <- Hr.
    rewrite src_idx_involutive by assumption. reflexivity. }
  assert (Hfind : forall size c, 0 < size -> 0 <= c < size ->
            let p := MangaFire.piece_size size in
            let m := MangaFire.max_index size in
            let x := MangaFire.src_idx m offset (c / p) in
            0 <= x <= m /\
            0 <= c - p * MangaFire.src_idx m offset x < Z.min p (size - p * x)).
  { intros size c Hs Hc p m x.
    pose proof (piece_size_pos size Hs) as Hp. fold p in Hp.
    pose proof (max_index_bounds size Hs) as Hm. fold p m in Hm.
    destruct (axis_locate size c Hs Hc) as [Hq [Hr Hc']]. fold p m in Hq, Hr, Hc'.
    assert (Hx : 0 <= x <= m /\ (c / p = m -> x = m) /\ (c / p < m -> x < m)).
    { subst x. destruct (Z.eq_dec (c / p) m) as [->|Hne].
      - rewrite src_idx_last. lia.
      - pose proof (src_idx_inner m offset (c / p) ltac:(lia)). lia. }
    split; [lia|]. subst x. rewrite src_idx_involutive by lia.
    destruct (Z.eq_dec (c / p) m); nia. }
  apply Hpx.
  - destruct (Hfind W i HW Hi) as [Hx Hcx]. destruct (Hfind H j HH Hj) as [Hy Hcy].
    eexists (MangaFire.tile_of W H offset _ _). split.
    + subst ts. apply In_grid. eexists _, _. split; [|split; [|reflexivity]].
      * split; [apply Hx|]. apply Z.lt_succ_r, Hx.
      * split; [apply Hy|]. apply Z.lt_succ_r, Hy.
    + apply in_bounds_true. cbn. split; lia.
  - intros t Hin Hcov. subst ts. apply In_grid in Hin as [x [y [Hx [Hy ->]]]].
    apply in_bounds_true in Hcov. cbn in Hcov. cbn.
    assert (0 <= i - MangaFire.piece_size W *
                  MangaFire.src_idx (MangaFire.max_index W) offset x
              < Z.min (MangaFire.piece_size W) (W - MangaFire.piece_size W * x))
      as Hcx by lia.
    assert (0 <= j - MangaFire.piece_size H *
                  MangaFire.src_idx (MangaFire.max_index H) offset y
              < Z.min (MangaFire.piece_size H) (H - MangaFire.piece_size H * y))
      as Hcy by lia.
    rewrite (Haxis W x i HW Hi ltac:(lia) Hcx), (Haxis H y j HH Hj ltac:(lia) Hcy).
    rewrite get_in_bounds; [reflexivity| |].
    + apply src_coord_spec; assumption.
    + apply src_coord_spec; assumption.
Qed.

(** *** Round trip *)

(** C2 as stated fails on its second half: the tiles of the final row are
    not left in place by the descrambling.  On the 3 x 3 sample with
    offset 1 every tile is one pixel, the last index is 2 on both axes,
    and the tile (0, 2) of the final row receives the pixel of tile
    (1, 2). *)
Lemma final_row_tile_not_invariant :
  ~ (forall (img : PIL.image) (offset : Z) (r : PIL.image) (i j : Z),
       MangaFire.descramble_pixels img offset = Py.Ret r ->
       0 <= i < PIL.img_width img ->
       MangaFire.piece_size (PIL.img_height img)
         * MangaFire.max_index (PIL.img_height img) <= j < PIL.img_height img ->
       PIL.get r i j = PIL.get img i j).
Proof.
  intros Hclaim.
  assert (0 <= 0 < PIL.img_width Samples.img_3x3) as Hi by (cbn; lia).
  assert (MangaFire.piece_size (PIL.img_height Samples.img_3x3)
            * MangaFire.max_index (PIL.img_height Samples.img_3x3) <= 2
          < PIL.img_height Samples.img_3x3) as Hj
    by (vm_compute; split; [discriminate|reflexivity]).
  specialize (Hclaim Samples.img_3x3 1 _ 0 2 eq_refl Hi Hj).
  vm_compute in Hclaim. discriminate Hclaim.
Qed.

(** C2, amended.  Scrambling and then descrambling gives back every pixel
    of the image, on edge tiles as well as on inner ones.  Both transforms
    keep the last tile index of an axis and map the other index of an
    edge tile as they map it for inner tiles: the tile [(x, yMax)] of the
    final row receives the tile [(src_idx x, yMax)], pixel by pixel, the
    tile [(xMax, y)] of the final column receives the tile
    [(xMax, src_idx y)], and the corner tile, last on both axes, is left
    in place by both. *)
Theorem scramble_descramble_roundtrip (img : PIL.image) (offset : Z) :
  0 < PIL.img_width img -> 0 < PIL.img_height img ->
  let W := PIL.img_width img in
  let H := PIL.img_height img in
  let pw := MangaFire.piece_size W in
  let ph := MangaFire.piece_size H in
  let xMax := MangaFire.max_index W in
  let yMax := MangaFire.max_index H in
  let x_last := pw * xMax in
  let y_last := ph * yMax in
  exists s d r,
    MangaFire.spec_scramble_pixels img offset = Py.Ret s /\
    MangaFire.descramble_pixels img offset = Py.Ret d /\
    MangaFire.descramble_pixels s offset = Py.Ret r /\
    PIL.img_width r = W /\ PIL.img_height r = H /\
    (forall i j, 0 <= i < W -> 0 <= j < H -> PIL.get r i j = PIL.get img i j) /\
    (forall x a j,
       0 <= x <= xMax -> 0 <= a < Z.min pw (W - pw * x) -> y_last <= j < H ->
       PIL.get s (pw * x + a) j
         = PIL.get img (pw * MangaFire.src_idx xMax offset x + a) j /\
       PIL.get d (pw * x + a) j
         = PIL.get img (pw * MangaFire.src_idx xMax offset x + a) j) /\
    (forall y b i,
       0 <= y <= yMax -> 0 <= b < Z.min ph (H - ph * y) -> x_last <= i < W ->
       PIL.get s i (ph * y + b)
         = PIL.get img i (ph * MangaFire.src_idx yMax offset y + b) /\
       PIL.get d i (ph * y + b)
         = PIL.get img i (ph * MangaFire.src_idx yMax offset y + b)) /\
    (forall i j, x_last <= i < W -> y_last <= j < H ->
       PIL.get s i j = PIL.get img i j /\ PIL.get d i j = PIL.get img i j).
Proof.
  intros HW HH W H pw ph xMax yMax x_last y_last.
  destruct (spec_scramble_pixels_px img offset HW HH) as [s [Hs [Hsw [Hsh Hspx]]]].
  destruct (descramble_pixels_px img offset HW HH) as [d [Hd [_ [_ Hdpx]]]].
  destruct (descramble_pixels_px s offset) as [r [Hr [Hrw [Hrh Hrpx]]]];
    [rewrite Hsw; exact HW|rewrite Hsh; exact HH|].
  rewrite Hsw, Hsh in Hrpx. fold W H in Hrpx, Hspx, Hdpx, Hrw, Hrh, Hsw, Hsh.
  pose proof (max_index_bounds W HW) as HmW.
  pose proof (max_index_bounds H HH) as HmH.
  pose proof (piece_size_pos W HW) as HpW. pose proof (piece_size_pos H HH) as HpH.
  fold pw xMax in HmW, HpW. fold ph yMax in HmH, HpH.
  exists s, d, r. split; [exact Hs|]. split; [exact Hd|]. split; [exact Hr|].
  split; [congruence|]. split; [congruence|].
  split; [|split; [|split]].
  - intros i j Hi Hj. rewrite Hrpx by assumption.
    rewrite Hspx by (apply src_coord_spec; assumption).
    now rewrite !src_coord_involutive.
  - intros x a j Hx Ha Hj. assert (0 <= j < H) as Hj' by (subst y_last; nia).
    destruct (src_coord_tile W offset x a HW Hx Ha) as [Hi Hsx].
    fold pw xMax in Hi, Hsx.
    rewrite (Hspx _ _ Hi Hj'), (Hdpx _ _ Hi Hj'), Hsx.
    now rewrite (src_coord_last_tile H offset j HH Hj).
  - intros y b i Hy Hb Hi. assert (0 <= i < W) as Hi' by (subst x_last; nia).
    destruct (src_coord_tile H offset y b HH Hy Hb) as [Hj Hsy].
    fold ph yMax in Hj, Hsy.
    rewrite (Hspx _ _ Hi' Hj), (Hdpx _ _ Hi' Hj), Hsy.
    now rewrite (src_coord_last_tile W offset i HW Hi).
  - intros i j Hi Hj.
    assert (0 <= i < W) as Hi' by (subst x_last; nia).
    assert (0 <= j < H) as Hj' by (subst y_last; nia).
    rewrite Hspx, Hdpx by assumption.
    now rewrite (src_coord_last_tile W offset i HW Hi),
                (src_coord_last_tile H offset j HH Hj).
Qed.

Lemma scramble_descramble_roundtrip_witness :
  exists s d r,
    MangaFire.spec_scramble_pixels Samples.img_3x3 1 = Py.Ret s /\
    MangaFire.descramble_pixels Samples.img_3x3 1 = Py.Ret d /\
    MangaFire.descramble_pixels s 1 = Py.Ret r /\
    (forall i j, 0 <= i < 3 -> 0 <= j < 3 ->
       PIL.get r i j = PIL.get Samples.img_3x3 i j) /\
    PIL.get d 0 2 = PIL.get Samples.img_3x3 1 2 /\
    PIL.get d 2 2 = PIL.get Samples.img_3x3 2 2.
Proof.
  destruct (scramble_descramble_roundtrip Samples.img_3x3 1)
    as [s [d [r [Hs [Hd [Hr [_ [_ [Hpx [Hrow [_ Hcorner]]]]]]]]]]].
  - simpl. lia.
  - simpl. lia.
  - exists s, d, r. split; [exact Hs|]. split; [exact Hd|]. split; [exact Hr|].
    split; [exact Hpx|]. split.
    + refine (proj2 (Hrow 0 0 2 _ _ _)); vm_compute; split; congruence.
    + refine (proj2 (Hcorner 2 2 _ _)); vm_compute; split; congruence.
Defined.

(** The rows of the sample after descrambling with offset 1: the first
    two tiles of each axis are exchanged, the last one stays. *)
Example descramble_3x3 :
  exists r, MangaFire.descramble_pixels Samples.img_3x3 1 = Py.Ret r /\
    map (fun j => map (fun i => PIL.get r i j) [0; 1; 2]) [0; 1; 2]
    = [[4; 3; 5]; [1; 0; 2]; [7; 6; 8]].
Proof. eexists. split; [reflexivity|]. vm_compute. reflexivity. Qed.

(** ** Decoding failures in the descrambling step (plugins/mangafire.py) *)

Section DescrambleFailure.
Variable image_open : list Byte.byte -> Py.result PIL.image.
Variable image_save : PIL.image -> Py.result (list Byte.byte).
Variable int_of_str : string -> Py.result Z.
Variable super_get_url : string -> Py.result MangaFire.content.

(** [_descramble_image] has only two outcomes: the re-encoded image when
    decoding, tile arithmetic and encoding all succeed, and the input
    bytes otherwise. *)
Lemma descramble_image_outcomes (data : list Byte.byte) (offset : Z) :
  MangaFire._descramble_image image_open image_save data offset = data \/
  exists img r out,
    image_open data = Py.Ret img /\
    MangaFire.descramble_pixels img offset = Py.Ret r /\
    image_save r = Py.Ret out /\
    MangaFire._descramble_image image_open image_save data offset = out.
Proof.
  unfold MangaFire._descramble_image.
  destruct (image_open data) as [img|e] eqn:Ho; [|now left].
  cbn [Py.bind].
  destruct (MangaFire.descramble_pixels img offset) as [r|e] eqn:Hd; [|now left].
  cbn [Py.bind].
  destruct (image_save r) as [out|e] eqn:Hs; [|now left].
  right. now exists img, r, out.
Qed.

(** C8.  When the decoder fails on the fetched bytes, [_descramble_image]
    returns exactly those bytes, and so does [get_url] for a URL that
    carries a scramble token: nothing is raised and nothing is lost. *)
Theorem descramble_decode_failure_keeps_bytes
  (data : list Byte.byte) (offset : Z) (e : Py.exn) :
  image_open data = Py.Raise e ->
  MangaFire._descramble_image image_open image_save data offset = data /\
  forall url,
    (forall u, super_get_url u = Py.Ret (MangaFire.Bytes data)) ->
    MangaFire.get_url image_open image_save int_of_str super_get_url url
      = Py.Ret (MangaFire.Bytes data).
Proof.
  intros Hopen.
  assert (Hd : forall off,
             MangaFire._descramble_image image_open image_save data off = data).
  { intros off. unfold MangaFire._descramble_image. now rewrite Hopen. }
  split; [apply Hd|].
  intros url Hfetch. unfold MangaFire.get_url.
  destruct (Py.contains "#scrambled_" url).
  - destruct (int_of_str _) as [n|e'].
    + rewrite Hfetch. cbn [Py.bind]. now rewrite Hd.
    + rewrite Hfetch. reflexivity.
  - rewrite Hfetch. reflexivity.
Qed.

End DescrambleFailure.

Lemma descramble_decode_failure_keeps_bytes_witness :
  MangaFire._descramble_image Samples.toy_open Samples.toy_save [Byte.x07] 3
    = [Byte.x07].
Proof.
  apply (descramble_decode_failure_keeps_bytes
           Samples.toy_open Samples.toy_save
           (fun _ => Py.Raise Py.TypeError) (Samples.fetch_content [Byte.x07])
           [Byte.x07] 3 Py.TypeError).
  reflexivity.
Defined.

(** With the toy codec, a 3 x 3 image scrambled by offset 1 is decoded,
    descrambled and encoded again. *)
Example descramble_image_toy :
  MangaFire._descramble_image Samples.toy_open Samples.toy_save
    [Byte.x03; Byte.x03;
     Byte.x04; Byte.x03; Byte.x05;
     Byte.x01; Byte.x00; Byte.x02;
     Byte.x07; Byte.x06; Byte.x08] 1
  = [Byte.x03; Byte.x03;
     Byte.x00; Byte.x01; Byte.x02;
     Byte.x03; Byte.x04; Byte.x05;
     Byte.x06; Byte.x07; Byte.x08].
Proof. vm_compute. reflexivity. Qed.

(** ** Membership of a URL ([contains_url], all three plugins) *)

(** C9 as stated fails for MangaFire, whose test is a substring test: a
    URL of another site that merely mentions the domain is accepted. *)
Lemma mangafire_contains_url_not_prefix :
  ~ (forall url,
       MangaFire.contains_url url = true <->
       Py.startswith url MangaFire.base_url = true).
Proof.
  intros Hclaim.
  destruct (Hclaim "http://evil.example/?mangafire.to") as [Hc _].
  specialize (Hc eq_refl). vm_compute in Hc. discriminate Hc.
Qed.

(** C9, amended.  Each [contains_url] is a function of the URL text alone.
    MangaKatana accepts exactly the URLs that start with its base address,
    Atsumaru exactly those that start with its base address followed by a
    slash, and MangaFire exactly those that contain its domain name
    anywhere. *)
Theorem contains_url_spec (url : string) :
  (MangaKatana.contains_url url = true <->
     exists rest, url = "https://mangakatana.com" +:+ rest) /\
  (Atsumaru.contains_url url = true <->
     exists rest, url = "https://atsu.moe/" +:+ rest) /\
  (MangaFire.contains_url url = true <->
     exists pre post, url = pre +:+ "mangafire.to" +:+ post).
Proof.
  split; [|split].
  - apply prefix_iff.
  - apply prefix_iff.
  - apply contains_iff.
Qed.

Example contains_url_samples :
  MangaKatana.contains_url "https://mangakatana.com/manga/x.1" = true /\
  MangaKatana.contains_url "http://mangakatana.com/manga/x.1" = false /\
  Atsumaru.contains_url "https://atsu.moe/manga/x" = true /\
  Atsumaru.contains_url "https://atsu.moe" = false /\
  MangaFire.contains_url "https://mangafire.to/manga/x.1" = true /\
  MangaFire.contains_url "http://www.mangafire.to/manga/x.1" = true.
Proof. vm_compute. repeat split. Qed.

(** ** Chapter labels (plugins/mangafire.py) *)

Lemma replace_absent (old new s : string) :
  Py.contains old s = false -> Py.replace s old new = s.
Proof.
  unfold Py.replace. induction s as [|c s IH]; intros Hc; [reflexivity|].
  change (Py.contains old (String c s))
    with (String.prefix old (String c s) || Py.contains old s) in Hc.
  apply orb_false_iff in Hc as [Hp Hs].
  cbn [Py.replace_from]. rewrite Hp. now rewrite IH.
Qed.

Lemma lstrip_within (s : string) : exists a, s = a +:+ Py.lstrip s.
Proof.
  induction s as [|c s [a IH]]; [now exists EmptyString|]. simpl.
  destruct (Py.is_space c).
  - exists (String c a). rewrite append_cons. now rewrite <- IH.
  - now exists EmptyString.
Qed.

(** *** Endings of a text *)

Lemma endswith_iff (s suf : string) :
  Py.endswith s suf = true <-> exists a, s = a +:+ suf.
Proof.
  split.
  - induction s as [|c s IH]; cbn [Py.endswith]; intros H.
    + rewrite orb_false_r in H. apply String.eqb_eq in H as <-.
      now exists EmptyString.
    + apply orb_true_iff in H as [H|H].
      * apply String.eqb_eq in H as <-. now exists EmptyString.
      * destruct (IH H) as [a ->]. now exists (String c a).
  - intros [a ->]. induction a as [|c a IH].
    + rewrite append_nil. destruct suf; cbn [Py.endswith];
        now rewrite String.eqb_refl.
    + rewrite append_cons. cbn [Py.endswith]. rewrite IH. apply orb_true_r.
Qed.

Lemma endswith_char_iff (s : string) (c : ascii) :
  Py.endswith_char s c = true <-> exists a, s = a +:+ String c EmptyString.
Proof.
  split.
  - induction s as [|x s IH]; [discriminate|]. destruct s as [|d s].
    + cbn [Py.endswith_char]. intros H. apply Ascii.eqb_eq in H as ->.
      now exists EmptyString.
    + change (Py.endswith_char (String x (String d s)) c)
        with (Py.endswith_char (String d s) c).
      intros H. destruct (IH H) as [a Ha]. exists (String x a).
      rewrite append_cons. now rewrite <- Ha.
  - intros [a ->]. induction a as [|x a IH].
    + rewrite append_nil. cbn [Py.endswith_char]. apply Ascii.eqb_refl.
    + rewrite append_cons. destruct a as [|y a]; exact IH.
Qed.

Lemma last_char_exists (c : ascii) (s : string) :
  exists a d, String c s = a +:+ String d EmptyString.
Proof.
  revert c. induction s as [|x s IH]; intros c.
  - now exists EmptyString, c.
  - destruct (IH x) as [a [d Ha]]. exists (String c a), d.
    rewrite append_cons. now rewrite <- Ha.
Qed.

Lemma last_char_unique (a b : string) (c d : ascii) :
  a +:+ String c EmptyString = b +:+ String d EmptyString -> c = d.
Proof.
  revert b. induction a as [|x a IH]; intros [|y b]; rewrite ?append_cons,
    ?append_nil; intros H.
  - now injection H.
  - injection H as _ H. destruct b; discriminate H.
  - injection H as _ H. destruct a; discriminate H.
  - injection H as _ H. exact (IH b H).
Qed.

(** *** Stripping *)

Lemma rstrip_last (s : string) :
  Py.rstrip s = EmptyString \/
  exists a c, Py.rstrip s = a +:+ String c EmptyString /\ Py.is_space c = false.
Proof.
  induction s as [|x s IH]; [now left|]. cbn [Py.rstrip].
  destruct (Py.rstrip s) as [|d r] eqn:Hr.
  - destruct (Py.is_space x) eqn:Hx; [now left|].
    right. now exists EmptyString, x.
  - right. destruct IH as [IH|[a [c [Ha Hc]]]]; [discriminate IH|].
    exists (String x a), c. rewrite append_cons. now rewrite <- Ha.
Qed.

Lemma rstrip_fixed (a : string) (c : ascii) :
  Py.is_space c = false ->
  Py.rstrip (a +:+ String c EmptyString) = a +:+ String c EmptyString.
Proof.
  intros Hc. induction a as [|x a IH].
  - rewrite append_nil. cbn [Py.rstrip]. now rewrite Hc.
  - rewrite append_cons. cbn [Py.rstrip]. rewrite IH.
    destruct a; reflexivity.
Qed.

Lemma lstrip_keeps_last (a : string) (c : ascii) :
  Py.is_space c = false ->
  exists b, Py.lstrip (a +:+ String c EmptyString) = b +:+ String c EmptyString.
Proof.
  intros Hc. induction a as [|x a IH].
  - rewrite append_nil. cbn [Py.lstrip]. rewrite Hc. now exists EmptyString.
  - rewrite append_cons. cbn [Py.lstrip]. destruct (Py.is_space x).
    + exact IH.
    + now exists (String x a).
Qed.

(** A text that ends with a character other than whitespace keeps its
    ending when stripped: the stripped text is a final part of it. *)
Lemma strip_final_part (a : string) (c : ascii) :
  Py.is_space c = false ->
  exists pre b,
    a +:+ String c EmptyString = pre +:+ Py.strip (a +:+ String c EmptyString) /\
    Py.strip (a +:+ String c EmptyString) = b +:+ String c EmptyString.
Proof.
  intros Hc. unfold Py.strip.
  destruct (lstrip_keeps_last a c Hc) as [b Hb].
  destruct (lstrip_within (a +:+ String c EmptyString)) as [pre Hpre].
  rewrite Hb, (rstrip_fixed b c Hc). exists pre, b. split; [|reflexivity].
  now rewrite <- Hb.
Qed.

(** *** The clean-up of [get_chapters]: [replace("Chapter :", "Chapter")] *)

Lemma replace_from_skip (old new : string) (s : string) :
  forall k, Py.replace_from old new s k = Py.replace_from old new (Py.drop k s) 0.
Proof.
  induction s as [|c s IH]; intros [|k]; try reflexivity.
  cbn [Py.replace_from Py.drop]. apply IH.
Qed.

Lemma replace_at_occurrence (rest : string) :
  Py.replace ("Chapter :" +:+ rest) "Chapter :" "Chapter"
  = "Chapter" +:+ Py.replace rest "Chapter :" "Chapter".
Proof.
  unfold Py.replace.
  change ("Chapter :" +:+ rest) with (String "C" ("hapter :" +:+ rest)).
  cbn [Py.replace_from].
  assert (String.prefix "Chapter :" (String "C" ("hapter :" +:+ rest)) = true)
    as -> by (apply prefix_iff; now exists rest).
  rewrite replace_from_skip.
  change (Nat.pred (String.length "Chapter :")) with (String.length "hapter :").
  now rewrite drop_append.
Qed.

Lemma replace_off_occurrence (c : ascii) (t : string) :
  String.prefix "Chapter :" (String c t) = false ->
  Py.replace (String c t) "Chapter :" "Chapter"
  = String c (Py.replace t "Chapter :" "Chapter").
Proof. intros H. unfold Py.replace. cbn [Py.replace_from]. now rewrite H. Qed.

Lemma replace_keeps_word (s : string) :
  Py.contains "Chapter :" s = true ->
  Py.contains "Chapter" (Py.replace s "Chapter :" "Chapter") = true.
Proof.
  induction s as [|c s IH]; [discriminate|].
  destruct (String.prefix "Chapter :" (String c s)) eqn:Hp.
  - apply prefix_iff in Hp as [rest ->]. intros _.
    rewrite replace_at_occurrence. apply contains_iff.
    now exists EmptyString, (Py.replace rest "Chapter :" "Chapter").
  - change (Py.contains "Chapter :" (String c s))
      with (String.prefix "Chapter :" (String c s) || Py.contains "Chapter :" s).
    rewrite Hp. cbn [orb]. intros Hs. rewrite (replace_off_occurrence c s Hp).
    apply IH, contains_iff in Hs as [pre [post Heq]].
    apply contains_iff. exists (String c pre), post.
    rewrite append_cons. now rewrite <- Heq.
Qed.

Lemma replace_nonempty (c : ascii) (s : string) :
  Py.replace (String c s) "Chapter :" "Chapter" <> EmptyString.
Proof.
  destruct (String.prefix "Chapter :" (String c s)) eqn:Hp.
  - apply prefix_iff in Hp as [rest ->]. rewrite replace_at_occurrence.
    discriminate.
  - rewrite (replace_off_occurrence c s Hp). discriminate.
Qed.

(** An ending of the rewritten text is an ending of the text itself,
    unless the text ends with the rewritten occurrence.  It holds for
    every ending [suf] that cannot start inside a replacement. *)
Lemma replace_ending (suf : string) :
  (forall x a, x <> EmptyString -> "Chapter" +:+ x = a +:+ suf ->
     exists a', x = a' +:+ suf) ->
  Py.contains "Chapter" (Py.drop 1 suf) = false ->
  forall n s a,
    (String.length s <= n)%nat ->
    Py.replace s "Chapter :" "Chapter" = a +:+ suf ->
    (exists a', s = a' +:+ suf) \/
    ((exists a', s = a' +:+ "Chapter :") /\ exists a', "Chapter" = a' +:+ suf).
Proof.
  intros Hover Hin. induction n as [|n IH]; intros s a Hlen Hr.
  - destruct s; [|simpl in Hlen; lia]. left. now exists a.
  - destruct s as [|c s]; [left; now exists a|].
    destruct (String.prefix "Chapter :" (String c s)) eqn:Hp.
    + apply prefix_iff in Hp as [rest Hs]. rewrite Hs in *.
      rewrite replace_at_occurrence in Hr.
      destruct rest as [|d rest].
      * right. split; [now exists EmptyString|]. exists a.
        now rewrite <- Hr.
      * destruct (Hover _ a (replace_nonempty d rest) Hr) as [a1 Ha1].
        rewrite append_length in Hlen. simpl in Hlen.
        destruct (IH (String d rest) a1 ltac:(simpl; lia) Ha1)
          as [[a2 Ha2]|[[a2 Ha2] Hnew]].
        -- left. exists ("Chapter :" +:+ a2). now rewrite append_assoc, <- Ha2.
        -- right. split; [|exact Hnew].
           exists ("Chapter :" +:+ a2). now rewrite append_assoc, <- Ha2.
    + rewrite (replace_off_occurrence c s Hp) in Hr.
      destruct a as [|x a].
      * rewrite append_nil in Hr. left. exists EmptyString.
        rewrite append_nil, <- Hr. f_equal. symmetry.
        apply replace_absent.
        destruct (Py.contains "Chapter :" s) eqn:Hc; [|reflexivity].
        apply replace_keeps_word in Hc. rewrite <- Hr in Hin.
        cbn [Py.drop] in Hin. congruence.
      * rewrite append_cons in Hr. injection Hr as <- Hr.
        simpl in Hlen.
        destruct (IH s a ltac:(lia) Hr) as [[a2 Ha2]|[[a2 Ha2] Hnew]].
        -- left. exists (String c a2). rewrite append_cons. now rewrite <- Ha2.
        -- right. split; [|exact Hnew].
           exists (String c a2). rewrite append_cons. now rewrite <- Ha2.
Qed.

Lemma replace_ending_char (s a : string) (c : ascii) :
  Py.replace s "Chapter :" "Chapter" = a +:+ String c EmptyString ->
  (exists a', s = a' +:+ String c EmptyString) \/
  ((exists a', s = a' +:+ "Chapter :") /\ c = "r"%char).
Proof.
  intros Hr.
  destruct (replace_ending (String c EmptyString)) with (n := String.length s)
    (s := s) (a := a) as [H|[H [a' Hnew]]]; auto.
  - intros x a0 Hx H. rewrite !append_cons, append_nil in H.
    destruct a0 as [|a1 a0]; [rewrite append_nil in H; discriminate H|].
    rewrite append_cons in H; injection H as _ H.
    destruct a0 as [|a2 a0]; [rewrite append_nil in H; discriminate H|].
    rewrite append_cons in H; injection H as _ H.
    destruct a0 as [|a3 a0]; [rewrite append_nil in H; discriminate H|].
    rewrite append_cons in H; injection H as _ H.
    destruct a0 as [|a4 a0]; [rewrite append_nil in H; discriminate H|].
    rewrite append_cons in H; injection H as _ H.
    destruct a0 as [|a5 a0]; [rewrite append_nil in H; discriminate H|].
    rewrite append_cons in H; injection H as _ H.
    destruct a0 as [|a6 a0]; [rewrite append_nil in H; discriminate H|].
    rewrite append_cons in H; injection H as _ H.
    destruct a0 as [|a7 a0].
    + rewrite append_nil in H. injection H as _ H. contradiction.
    + rewrite append_cons in H; injection H as _ H. now exists a0.
  - right. split; [exact H|].
    change "Chapter" with ("Chapte" +:+ "r") in Hnew.
    now apply last_char_unique in Hnew.
Qed.

Lemma replace_ending_word (s a : string) :
  Py.replace s "Chapter :" "Chapter" = a +:+ "Chapter" ->
  (exists a', s = a' +:+ "Chapter") \/ (exists a', s = a' +:+ "Chapter :").
Proof.
  intros Hr.
  destruct (replace_ending "Chapter") with (n := String.length s)
    (s := s) (a := a) as [H|[H _]]; auto.
  intros x a0 Hx H. rewrite !append_cons, append_nil in H.
  destruct a0 as [|a1 a0].
  { rewrite append_nil in H. injection H as H. contradiction. }
  rewrite append_cons in H; injection H as _ H.
  destruct a0 as [|a2 a0]; [rewrite append_nil in H; discriminate H|].
  rewrite append_cons in H; injection H as _ H.
  destruct a0 as [|a3 a0]; [rewrite append_nil in H; discriminate H|].
  rewrite append_cons in H; injection H as _ H.
  destruct a0 as [|a4 a0]; [rewrite append_nil in H; discriminate H|].
  rewrite append_cons in H; injection H as _ H.
  destruct a0 as [|a5 a0]; [rewrite append_nil in H; discriminate H|].
  rewrite append_cons in H; injection H as _ H.
  destruct a0 as [|a6 a0]; [rewrite append_nil in H; discriminate H|].
  rewrite append_cons in H; injection H as _ H.
  destruct a0 as [|a7 a0]; [rewrite append_nil in H; discriminate H|].
  rewrite append_cons in H; injection H as _ H. now exists a0.
Qed.

Lemma replace_ending_colons (s a : string) :
  Py.replace s "Chapter :" "Chapter" = a +:+ "::" ->
  exists a', s = a' +:+ "::".
Proof.
  intros Hr.
  destruct (replace_ending "::") with (n := String.length s)
    (s := s) (a := a) as [H|[_ [a' Hnew]]]; auto.
  - intros x a0 Hx H. rewrite !append_cons, append_nil in H.
    destruct a0 as [|a1 a0]; [rewrite append_nil in H; discriminate H|].
    rewrite append_cons in H; injection H as _ H.
    destruct a0 as [|a2 a0]; [rewrite append_nil in H; discriminate H|].
    rewrite append_cons in H; injection H as _ H.
    destruct a0 as [|a3 a0]; [rewrite append_nil in H; discriminate H|].
    rewrite append_cons in H; injection H as _ H.
    destruct a0 as [|a4 a0]; [rewrite append_nil in H; discriminate H|].
    rewrite append_cons in H; injection H as _ H.
    destruct a0 as [|a5 a0]; [rewrite append_nil in H; discriminate H|].
    rewrite append_cons in H; injection H as _ H.
    destruct a0 as [|a6 a0]; [rewrite append_nil in H; discriminate H|].
    rewrite append_cons in H; injection H as _ H.
    destruct a0 as [|a7 a0]; [rewrite append_nil in H; discriminate H|].
    rewrite append_cons in H; injection H as _ H. now exists a0.
  - exfalso.
    assert (Py.endswith "Chapter" "::" = true) as Hc
      by (apply endswith_iff; now exists a').
    vm_compute in Hc. discriminate Hc.
Qed.

Lemma drop_last_app (b : string) (c : ascii) :
  Py.drop_last (b +:+ String c EmptyString) = b.
Proof.
  induction b as [|x b IH]; [reflexivity|].
  rewrite append_cons.
  destruct b as [|y b]; [reflexivity|].
  rewrite append_cons in *.
  change (Py.drop_last (String x (String y (b +:+ String c EmptyString))))
    with (String x (Py.drop_last (String y (b +:+ String c EmptyString)))).
  now rewrite IH.
Qed.

(** Without a number, the label that [get_chapters] gives a stripped,
    non-empty title: the rewritten text ends with a character [d] other
    than whitespace, the last one of the title unless the title ended
    with a rewritten occurrence, and the label is a final part of the
    rewritten text, without that last character when it is a colon. *)
Lemma chapter_label_shape (b : string) (c : ascii) :
  Py.is_space c = false ->
  let title := b +:+ String c EmptyString in
  exists pre b' d,
    Py.replace title "Chapter :" "Chapter" = pre +:+ b' +:+ String d EmptyString /\
    (d = c \/ (c = ":"%char /\ d = "r"%char)) /\
    MangaFire.chapter_label EmptyString title
    = (if Ascii.eqb d ":" then b' else b' +:+ String d EmptyString).
Proof.
  intros Hc title.
  unfold MangaFire.chapter_label. cbn [String.eqb negb].
  assert (Hlast : exists r d,
            Py.replace title "Chapter :" "Chapter" = r +:+ String d EmptyString /\
            (d = c \/ (c = ":"%char /\ d = "r"%char))).
  { destruct (Py.replace title "Chapter :" "Chapter") as [|x r] eqn:Hr.
    - exfalso. subst title. destruct b as [|y b].
      + rewrite append_nil in Hr. exact (replace_nonempty c EmptyString Hr).
      + rewrite append_cons in Hr. exact (replace_nonempty y _ Hr).
    - destruct (last_char_exists x r) as [r' [d Hd]]. rewrite Hd in Hr.
      exists r', d. split; [exact Hd|].
      destruct (replace_ending_char title r' d Hr) as [[a' Ha']|[[a' Ha'] ->]].
      + subst title. apply last_char_unique in Ha' as <-. now left.
      + right. split; [|reflexivity]. subst title.
        change "Chapter :" with ("Chapter " +:+ ":") in Ha'.
        rewrite <- append_assoc in Ha'. now apply last_char_unique in Ha'. }
  destruct Hlast as [r [d [Hr Hd]]]. rewrite Hr.
  assert (Hdspace : Py.is_space d = false)
    by (destruct Hd as [->|[_ ->]]; [exact Hc|reflexivity]).
  destruct (strip_final_part r d Hdspace) as [pre [b' [Hpre Hb']]].
  exists pre, b', d. rewrite Hb'. split; [now rewrite <- Hb'|].
  split; [exact Hd|].
  assert (Py.endswith_char (b' +:+ String d EmptyString) ":" = Ascii.eqb d ":")
    as ->.
  { destruct (Ascii.eqb_spec d ":") as [->|Hne].
    - apply endswith_char_iff. now exists b'.
    - destruct (Py.endswith_char _ ":") eqn:He; [|reflexivity].
      apply endswith_char_iff in He as [a Ha].
      apply last_char_unique in Ha. contradiction. }
  destruct (Ascii.eqb d ":"); [apply drop_last_app|reflexivity].
Qed.

(** Without a number, what the labels of a stripped title end with. *)
Lemma chapter_label_endings (text : string) :
  let title := Py.strip text in
  let label := MangaFire.chapter_label EmptyString title in
  (Py.endswith title "::" = false -> Py.endswith_char label ":" = false) /\
  (Py.endswith_char title ":" = false -> Py.endswith title "Chapter" = false ->
   Py.endswith label "Chapter" = false).
Proof.
  cbv zeta. unfold Py.strip.
  destruct (rstrip_last (Py.lstrip text)) as [->|[b [c [-> Hc]]]].
  { split; intros; reflexivity. }
  destruct (chapter_label_shape b c Hc) as [pre [b' [d [Hr [Hd Hlabel]]]]].
  cbv zeta in Hr, Hlabel. rewrite Hlabel. split.
  - intros Hpair. destruct (Ascii.eqb_spec d ":") as [->|Hne].
    + destruct (Py.endswith_char b' ":") eqn:He; [|reflexivity].
      apply endswith_char_iff in He as [a ->].
      rewrite <- !append_assoc in Hr.
      rewrite (append_assoc (pre +:+ a) ":" ":") in Hr.
      destruct (replace_ending_colons _ _ Hr) as [a' Ha'].
      assert (Py.endswith (b +:+ String c EmptyString) "::" = true) as Ht
        by (apply endswith_iff; now exists a').
      congruence.
    + destruct (Py.endswith_char _ ":") eqn:He; [|reflexivity].
      apply endswith_char_iff in He as [a Ha].
      apply last_char_unique in Ha. contradiction.
  - intros Hcolon Hword.
    assert (c <> ":"%char) as Hcne.
    { intros ->.
      assert (Py.endswith_char (b +:+ ":") ":" = true) as Ht
        by (apply endswith_char_iff; now exists b).
      congruence. }
    destruct Hd as [->|[-> _]]; [|contradiction].
    destruct (Ascii.eqb_spec c ":") as [->|_]; [contradiction|].
    destruct (Py.endswith (b' +:+ String c EmptyString) "Chapter") eqn:He;
      [|reflexivity].
    apply endswith_iff in He as [a Ha]. rewrite Ha in Hr.
    rewrite <- append_assoc in Hr.
    destruct (replace_ending_word _ _ Hr) as [[a' Ha']|[a' Ha']].
    + assert (Py.endswith (b +:+ String c EmptyString) "Chapter" = true) as Ht
        by (apply endswith_iff; now exists a').
      congruence.
    + exfalso. change "Chapter :" with ("Chapter " +:+ ":") in Ha'.
      rewrite <- append_assoc in Ha'. apply last_char_unique in Ha'.
      contradiction.
Qed.

(** C10 as stated fails: an item without a chapter number whose title is
    [Prologue:] is yielded by [iter_chapters] under that very title, which
    ends with a colon; [get_chapters] removes one colon only, so the
    title [Vol 1::] keeps one; and [get_chapters] labels an item titled
    [Chapter] with the bare word. *)
Lemma empty_number_label_keeps_title :
  let item := fun title =>
    MangaFire.mkItem
      (Some (Soup.mkAnchor "read" (Some "/read/sample.x1/en/chapter-1")))
      None (Some title) in
  map Client.chapter_name
    (MangaFire.iter_items Samples.join_root Samples.sample_card [item "Prologue:"])
    = ["Prologue:"] /\
  Py.endswith_char "Prologue:" ":" = true /\
  (exists ch,
    MangaFire.parse_chapters Samples.join_root Samples.sample_card [item "Vol 1::"]
      = Py.Ret [ch] /\
    Client.chapter_name ch = "Vol 1:" /\
    Py.endswith_char (Client.chapter_name ch) ":" = true) /\
  exists ch,
    MangaFire.parse_chapters Samples.join_root Samples.sample_card [item "Chapter"]
      = Py.Ret [ch] /\
    Client.chapter_name ch = "Chapter".
Proof.
  cbv zeta. split; [reflexivity|]. split; [reflexivity|].
  split; eexists; repeat split; reflexivity.
Qed.

Section Labels.
Variable urljoin : string -> string -> string.
Variable card : Client.MangaCard.

Lemma parse_chapters_names (items : list MangaFire.li_item) :
  forall acc chs,
    Py.for_each items
      (fun chapters item =>
         match MangaFire.li_link item with
         | None => Py.Ret chapters
         | Some link =>
             href <- Soup.attr (Soup.a_href link) ;;
             let url := urljoin MangaFire.base_url href in
             let name := MangaFire.chapter_label (MangaFire.item_number item)
                           (MangaFire.item_raw_title item) in
             Py.Ret (chapters ++ [Client.mkChapter name url card []])
         end) acc = Py.Ret chs ->
    forall ch, In ch chs ->
      In ch acc \/
      exists item, In item items /\
        Client.chapter_name ch
        = MangaFire.chapter_label (MangaFire.item_number item)
            (MangaFire.item_raw_title item).
Proof.
  induction items as [|item items IH]; intros acc chs Hrun ch Hin.
  - injection Hrun as <-. now left.
  - cbn [Py.for_each] in Hrun.
    destruct (MangaFire.li_link item) as [link|].
    + destruct (Soup.attr (Soup.a_href link)) as [href|e]; [|discriminate].
      cbn [Py.bind] in Hrun.
      destruct (IH _ _ Hrun ch Hin) as [Hacc|[it [Hit Hname]]].
      * apply in_app_or in Hacc as [Hacc|[<-|[]]]; [now left|].
        right. exists item. split; [now left|reflexivity].
      * right. exists it. split; [now right|exact Hname].
    + cbn [Py.bind] in Hrun.
      destruct (IH _ _ Hrun ch Hin) as [Hacc|[it [Hit Hname]]]; [now left|].
      right. exists it. split; [now right|exact Hname].
Qed.

Lemma iter_items_names (items : list MangaFire.li_item) :
  forall ch, In ch (MangaFire.iter_items urljoin card items) ->
    exists item, In item items /\
      Client.chapter_name ch
      = MangaFire.iter_label (MangaFire.item_number item)
          (MangaFire.item_raw_title item).
Proof.
  induction items as [|item items IH]; intros ch Hin; [destruct Hin|].
  cbn [MangaFire.iter_items] in Hin.
  destruct (MangaFire.li_link item) as [link|].
  - destruct (Soup.attr (Soup.a_href link)) as [href|e]; [|destruct Hin].
    destruct Hin as [<-|Hin].
    + exists item. split; [now left|reflexivity].
    + destruct (IH ch Hin) as [it [Hit Hname]]. exists it. split; [now right|exact Hname].
  - destruct (IH ch Hin) as [it [Hit Hname]]. exists it. split; [now right|exact Hname].
Qed.

(** C10, amended.  Every chapter produced by [get_chapters] or
    [iter_chapters] is labelled from the number and the stripped title of
    its list element.  When the number is empty or absent: the label of
    [get_chapters] does not end with a colon unless the title ends with
    two colons, and the label of [iter_chapters] does not end with a colon
    when the title does not; the label of [get_chapters] does not end
    with the word [Chapter] when the title ends neither with a colon nor
    with that word, and the label of [iter_chapters] does not when the
    title does not end with that word. *)
Theorem empty_number_label_from_title (items : list MangaFire.li_item) :
  (forall chs,
     MangaFire.parse_chapters urljoin card items = Py.Ret chs ->
     forall ch, In ch chs ->
       exists item, In item items /\
         Client.chapter_name ch
         = MangaFire.chapter_label (MangaFire.item_number item)
             (MangaFire.item_raw_title item) /\
         (MangaFire.item_number item = EmptyString ->
          let title := MangaFire.item_raw_title item in
          (Py.endswith title "::" = false ->
           Py.endswith_char (Client.chapter_name ch) ":" = false) /\
          (Py.endswith_char title ":" = false ->
           Py.endswith title "Chapter" = false ->
           Py.endswith (Client.chapter_name ch) "Chapter" = false))) /\
  (forall ch, In ch (MangaFire.iter_items urljoin card items) ->
     exists item, In item items /\
       Client.chapter_name ch
       = MangaFire.iter_label (MangaFire.item_number item)
           (MangaFire.item_raw_title item) /\
       (MangaFire.item_number item = EmptyString ->
        let title := MangaFire.item_raw_title item in
        (Py.endswith_char title ":" = false ->
         Py.endswith_char (Client.chapter_name ch) ":" = false) /\
        (Py.endswith title "Chapter" = false ->
         Py.endswith (Client.chapter_name ch) "Chapter" = false))).
Proof.
  split.
  - intros chs Hrun ch Hin. unfold MangaFire.parse_chapters in Hrun.
    destruct (parse_chapters_names items [] chs Hrun ch Hin)
      as [[]|[item [Hitem Hname]]].
    exists item. split; [exact Hitem|]. split; [exact Hname|].
    intros Hnum. rewrite Hname, Hnum. cbv zeta.
    unfold MangaFire.item_raw_title.
    destruct (MangaFire.li_span_text item) as [text|].
    + exact (chapter_label_endings text).
    + split; intros; reflexivity.
  - intros ch Hin.
    destruct (iter_items_names items ch Hin) as [item [Hitem Hname]].
    exists item. split; [exact Hitem|]. split; [exact Hname|].
    intros Hnum. rewrite Hname, Hnum. cbv zeta.
    change (MangaFire.iter_label EmptyString (MangaFire.item_raw_title item))
      with (MangaFire.item_raw_title item).
    split; intros H; exact H.
Qed.

End Labels.

Lemma empty_number_label_from_title_witness :
  let item := fun title =>
    MangaFire.mkItem
      (Some (Soup.mkAnchor "read" (Some "/read/sample.x1/en/chapter-1")))
      None (Some title) in
  let items := [item "Vol 1: The Start"; item "Prologue:"; item "Side Chapter 2"] in
  exists chs,
    MangaFire.parse_chapters Samples.join_root Samples.sample_card items
      = Py.Ret chs /\
    List.length chs = 3%nat /\
    Forall (fun ch => Py.endswith_char (Client.chapter_name ch) ":" = false) chs /\
    Forall (fun ch => Py.endswith_char (Client.chapter_name ch) ":" = false)
      (MangaFire.iter_items Samples.join_root Samples.sample_card
         [item "Vol 1: The Start"; item "Side Chapter 2"]).
Proof.
  intros item items. eexists. split; [reflexivity|]. split; [reflexivity|].
  split.
  - apply List.Forall_forall. intros ch Hin.
    destruct (proj1 (empty_number_label_from_title Samples.join_root
                       Samples.sample_card items) _ eq_refl ch Hin)
      as [it [Hit [_ Hclean]]].
    destruct Hit as [<-|[<-|[<-|[]]]]; apply (Hclean eq_refl); reflexivity.
  - apply List.Forall_forall. intros ch Hin.
    destruct (proj2 (empty_number_label_from_title Samples.join_root
                       Samples.sample_card
                       [item "Vol 1: The Start"; item "Side Chapter 2"]) ch Hin)
      as [it [Hit [_ Hclean]]].
    destruct Hit as [<-|[<-|[]]]; apply (Hclean eq_refl); reflexivity.
Defined.

(** Labels on sample elements. *)
Example chapter_label_samples :
  MangaFire.chapter_label "5" "The Start" = "Chapter 5: The Start" /\
  MangaFire.chapter_label "5" EmptyString = "Chapter 5" /\
  MangaFire.chapter_label EmptyString "Prologue" = "Prologue" /\
  MangaFire.chapter_label EmptyString "Prologue:" = "Prologue" /\
  MangaFire.chapter_label EmptyString "Vol 1::" = "Vol 1:" /\
  MangaFire.chapter_label EmptyString "Chapter :" = "Chapter" /\
  MangaFire.iter_label "5" "The Start" = "Chapter 5" /\
  MangaFire.iter_label EmptyString "Prologue:" = "Prologue:".
Proof. vm_compute. repeat split. Qed.

(** ** Slicing the chapter list into pages ([get_chapters]) *)

(** For a page number from 1 on, the slice [l[(p-1)*20 : p*20]] consists
    of at most 20 elements starting at index [20*(p-1)]. *)
Lemma slice_page {A : Type} (l : list A) (p : Z) :
  1 <= p ->
  Py.slice l ((p - 1) * 20) (p * 20)
  = firstn 20 (skipn (Z.to_nat (20 * (p - 1))) l).
Proof.
  intros Hp. unfold Py.slice, Py.clamp_index.
  set (len := Z.of_nat (List.length l)).
  destruct (Z.ltb_spec ((p - 1) * 20) 0); [lia|].
  destruct (Z.ltb_spec (p * 20) 0); [lia|].
  destruct (Z_le_gt_dec len ((p - 1) * 20)) as [Hbig|Hin].
  - rewrite !skipn_all2 by (subst len; lia).
    now rewrite !firstn_nil.
  - replace (Z.to_nat (Z.min ((p - 1) * 20) len)) with (Z.to_nat (20 * (p - 1)))
      by lia.
    destruct (Z_le_gt_dec (p * 20) len) as [Hfull|Hshort].
    + f_equal. lia.
    + rewrite !firstn_all2; [reflexivity| |];
        rewrite length_skipn; subst len; lia.
Qed.

Lemma page_nth {A : Type} (l : list A) (k i : nat) :
  (i < 20)%nat ->
  nth_error (firstn 20 (skipn k l)) i = nth_error l (k + i).
Proof.
  intros Hi. rewrite nth_error_firstn.
  destruct (Nat.ltb_spec i 20); [|lia]. apply nth_error_skipn.
Qed.

Section Pagination.
Variable image_open : list Byte.byte -> Py.result PIL.image.
Variable image_save : PIL.image -> Py.result (list Byte.byte).
Variable int_of_str : string -> Py.result Z.
Variable super_get_url : string -> Py.result MangaFire.content.
Variable json_loads : MangaFire.content -> Py.result Py.json.
Variable urlparse_path : string -> Py.result string.
Variable urljoin : string -> string -> string.
Variable select_li_items : Py.json -> Py.result (list MangaFire.li_item).
Variable get_url : string -> Py.result (list Byte.byte).
Variable select_chapter_rows : list Byte.byte -> list MangaKatana.chapter_row.

(** C4.  When the site answers with the whole chapter list [full] in one
    response, [get_chapters card p] of MangaFire and of MangaKatana
    returns, for every page [p >= 1], the elements of [full] with index in
    [20*(p-1), 20*p): at most 20 elements, the [i]-th being element
    [20*(p-1) + i] of [full]; for [p = 2] these are elements 20 to 39. *)
Theorem get_chapters_page_slice
  (card : Client.MangaCard) (p : Z)
  (path : string) (content : MangaFire.content) (data status html : Py.json)
  (items : list MangaFire.li_item) (full_fire : list Client.MangaChapter)
  (page_body : list Byte.byte) (full_katana : list Client.MangaChapter) :
  1 <= p ->
  urlparse_path (Client.card_url card) = Py.Ret path ->
  MangaFire.get_url image_open image_save int_of_str super_get_url
    (MangaFire.ajax_url (MangaFire.last_dot_field path)) = Py.Ret content ->
  json_loads content = Py.Ret data ->
  Py.dict_get data "status" Py.JNull = Py.Ret status ->
  Py.eq_int status 200 = true ->
  Py.dict_get data "result" (Py.JStr EmptyString) = Py.Ret html ->
  select_li_items html = Py.Ret items ->
  MangaFire.parse_chapters urljoin card items = Py.Ret full_fire ->
  get_url (Client.card_url card) = Py.Ret page_body ->
  MangaKatana.chapters_from_page select_chapter_rows page_body card
    = Py.Ret full_katana ->
  let page_of := fun full : list Client.MangaChapter =>
    firstn 20 (skipn (Z.to_nat (20 * (p - 1))) full) in
  MangaFire.get_chapters image_open image_save int_of_str super_get_url
    json_loads urlparse_path urljoin select_li_items card p
    = Py.Ret (page_of full_fire) /\
  MangaKatana.get_chapters get_url select_chapter_rows card p
    = Py.Ret (page_of full_katana) /\
  forall full : list Client.MangaChapter,
    (List.length (page_of full) <= 20)%nat /\
    forall i : nat, (i < 20)%nat ->
      nth_error (page_of full) i = nth_error full (Z.to_nat (20 * (p - 1)) + i).
Proof.
  intros Hp Hpath Hfetch Hload Hstatus H200 Hres Hsel Hfull Hget Hrows page_of.
  split; [|split].
  - unfold MangaFire.get_chapters. rewrite Hpath. cbn [Py.bind].
    rewrite Hfetch. cbn [Py.bind]. rewrite Hload. cbn [Py.bind].
    rewrite Hstatus. cbn [Py.bind]. rewrite H200. cbn [negb].
    rewrite Hres. cbn [Py.bind]. rewrite Hsel. cbn [Py.bind].
    rewrite Hfull. cbn [Py.bind Py.try_except].
    now rewrite slice_page.
  - unfold MangaKatana.get_chapters. rewrite Hget. cbn [Py.bind].
    rewrite Hrows. cbn [Py.bind]. now rewrite slice_page.
  - intros full. split.
    + subst page_of. cbv beta. rewrite length_firstn. lia.
    + intros i Hi. apply page_nth. exact Hi.
Qed.

End Pagination.

Lemma get_chapters_page_slice_witness :
  MangaFire.get_chapters Samples.toy_open Samples.toy_save
    (fun _ => Py.Raise Py.TypeError) (Samples.fetch_content [])
    (fun _ => Py.Ret Samples.sample_envelope) Samples.sample_path
    Samples.join_root (fun _ => Py.Ret Samples.sample_items)
    Samples.sample_card 2
  = Py.Ret (firstn 20 (skipn 20 Samples.sample_chapters_fire)) /\
  MangaKatana.get_chapters (Samples.fetch_bytes [])
    (fun _ => Samples.sample_rows) Samples.sample_card 2
  = Py.Ret (firstn 20 (skipn 20 Samples.sample_chapters_katana)).
Proof.
  destruct (get_chapters_page_slice
         Samples.toy_open Samples.toy_save
         (fun _ => Py.Raise Py.TypeError) (Samples.fetch_content [])
         (fun _ => Py.Ret Samples.sample_envelope) Samples.sample_path
         Samples.join_root (fun _ => Py.Ret Samples.sample_items)
         (Samples.fetch_bytes []) (fun _ => Samples.sample_rows)
         Samples.sample_card 2
         "/manga/sample.x1" (MangaFire.Bytes []) Samples.sample_envelope
         (Py.JNum 200) (Py.JStr "<ul>...</ul>") Samples.sample_items
         Samples.sample_chapters_fire [] Samples.sample_chapters_katana)
    as [Hfire [Hkatana _]].
  - lia.
  - reflexivity.
  - reflexivity.
  - reflexivity.
  - reflexivity.
  - reflexivity.
  - reflexivity.
  - reflexivity.
  - vm_compute. reflexivity.
  - reflexivity.
  - vm_compute. reflexivity.
  - split; [exact Hfire|exact Hkatana].
Defined.

(** ** Asset extraction from the inline script (plugins/mangakatana.py) *)

Lemma strip_prefix_iff (p s r : string) :
  MangaKatana.strip_prefix p s = Some r <-> s = p +:+ r.
Proof.
  unfold MangaKatana.strip_prefix.
  destruct (String.prefix p s) eqn:Hp.
  - apply prefix_iff in Hp as [rest ->]. rewrite drop_append. split.
    + now intros [= ->].
    + intros Heq. apply (inj (String.app p)) in Heq. now subst.
  - split; [discriminate|]. intros ->.
    assert (String.prefix p (p +:+ r) = true) as Ht
      by (apply prefix_iff; now exists r).
    congruence.
Qed.

(** *** First-match search *)

Lemma search_first_none (m : string -> option string) (s : string) :
  MangaKatana.search_first m s = None <->
  forall pre rest, s = pre +:+ rest -> m rest = None.
Proof.
  induction s as [|c s IH]; simpl.
  - destruct (m EmptyString) eqn:Hm.
    + split; [discriminate|]. intros H. now rewrite (H EmptyString EmptyString) in Hm.
    + split; [|reflexivity]. intros _ pre rest Heq.
      destruct pre; [|discriminate]. rewrite append_nil in Heq. now subst.
  - destruct (m (String c s)) eqn:Hm.
    + split; [discriminate|]. intros H.
      now rewrite (H EmptyString (String c s)) in Hm.
    + rewrite IH. split.
      * intros H [|d pre] rest Heq.
        -- rewrite append_nil in Heq. now subst.
        -- rewrite append_cons in Heq. injection Heq as -> Heq. now apply (H pre).
      * intros H pre rest Heq. apply (H (String c pre)).
        rewrite append_cons. now rewrite Heq.
Qed.

(** A match at the end of [pre] is returned when no earlier position of
    the text matches. *)
Lemma search_first_at (m : string -> option string) (pre rest group : string) :
  m rest = Some group ->
  (forall p1 r1, pre +:+ rest = p1 +:+ r1 ->
     (String.length p1 < String.length pre)%nat -> m r1 = None) ->
  MangaKatana.search_first m (pre +:+ rest) = Some group.
Proof.
  induction pre as [|c pre IH]; intros Hm Hearly.
  - rewrite append_nil. destruct rest; simpl; now rewrite Hm.
  - rewrite append_cons. simpl.
    rewrite (Hearly EmptyString (String c (pre +:+ rest)))
      by (try reflexivity; simpl; lia).
    apply IH; [exact Hm|].
    intros p1 r1 Heq Hlen. apply (Hearly (String c p1)).
    + rewrite !append_cons. now rewrite Heq.
    + simpl. lia.
Qed.

(** *** Runs of characters *)

Lemma take_drop_while_run (f : ascii -> bool) (b : string) (d : ascii) (t : string) :
  MangaKatana.all_chars f b = true -> f d = false ->
  MangaKatana.take_while f (b +:+ String d t) = b /\
  MangaKatana.drop_while f (b +:+ String d t) = String d t.
Proof.
  intros Hb Hd. induction b as [|c b IH].
  - rewrite append_nil. simpl. now rewrite Hd.
  - simpl in Hb. apply andb_true_iff in Hb as [Hc Hb].
    rewrite append_cons. simpl. rewrite Hc.
    destruct (IH Hb) as [-> ->]. now split.
Qed.

Lemma drop_while_stops (f : ascii -> bool) (b : string) (d : ascii) (t : string) :
  f d = false -> MangaKatana.drop_while f (b +:+ String d t) <> EmptyString.
Proof.
  intros Hd. induction b as [|c b IH].
  - rewrite append_nil. simpl. now rewrite Hd.
  - rewrite append_cons. simpl. destruct (f c); [exact IH|discriminate].
Qed.

Lemma take_drop_while_split (f : ascii -> bool) (s : string) :
  s = MangaKatana.take_while f s +:+ MangaKatana.drop_while f s /\
  MangaKatana.all_chars f (MangaKatana.take_while f s) = true /\
  (forall d t, MangaKatana.drop_while f s = String d t -> f d = false).
Proof.
  induction s as [|c s [IH1 [IH2 IH3]]]; simpl.
  - repeat split. discriminate.
  - destruct (f c) eqn:Hc.
    + rewrite append_cons. simpl. rewrite Hc, IH2.
      split; [now rewrite <- IH1|]. split; [reflexivity|exact IH3].
    + rewrite append_nil. repeat split. intros d t [= <- <-]. exact Hc.
Qed.

(** *** The array pattern *)

Lemma match_array_some (v body post : string) :
  MangaKatana.all_chars MangaKatana.not_close body = true ->
  MangaKatana.match_array v
    (MangaKatana.array_open v +:+ body +:+ String MangaKatana.rbracket post)
  = Some body.
Proof.
  intros Hbody. unfold MangaKatana.match_array.
  fold (MangaKatana.array_open v).
  rewrite (proj2 (strip_prefix_iff (MangaKatana.array_open v) _
                    (body +:+ String MangaKatana.rbracket post)) eq_refl).
  destruct (take_drop_while_run MangaKatana.not_close body
              MangaKatana.rbracket post Hbody eq_refl) as [-> ->].
  reflexivity.
Qed.

Lemma not_close_false (d : ascii) :
  MangaKatana.not_close d = false -> d = MangaKatana.rbracket.
Proof.
  unfold MangaKatana.not_close. intros H. apply negb_false_iff in H.
  now apply Ascii.eqb_eq.
Qed.

Lemma match_array_sound (v r body : string) :
  MangaKatana.match_array v r = Some body ->
  MangaKatana.all_chars MangaKatana.not_close body = true /\
  exists post,
    r = MangaKatana.array_open v +:+ body +:+ String MangaKatana.rbracket post.
Proof.
  unfold MangaKatana.match_array. fold (MangaKatana.array_open v).
  destruct (MangaKatana.strip_prefix _ r) as [rest|] eqn:Hp; [|discriminate].
  apply strip_prefix_iff in Hp.
  destruct (take_drop_while_split MangaKatana.not_close rest) as [Hs [Hall Hstop]].
  destruct (MangaKatana.drop_while _ rest) as [|d t] eqn:Hd; [discriminate|].
  intros [= <-]. split; [exact Hall|]. exists t.
  rewrite <- (not_close_false d (Hstop d t eq_refl)). now rewrite <- Hs.
Qed.

Lemma match_array_none (v r : string) :
  ~ (exists body post,
       r = MangaKatana.array_open v +:+ body +:+ String MangaKatana.rbracket post) ->
  MangaKatana.match_array v r = None.
Proof.
  intros Hno. destruct (MangaKatana.match_array v r) as [body|] eqn:Hm;
    [|reflexivity].
  destruct (match_array_sound v r body Hm) as [_ [post Hr]].
  exfalso. apply Hno. now exists body, post.
Qed.

(** *** The literal pattern *)

Lemma all_chars_and (f g : ascii -> bool) (s : string) :
  MangaKatana.all_chars (fun c => f c && g c) s = true ->
  MangaKatana.all_chars f s = true /\ MangaKatana.all_chars g s = true.
Proof.
  induction s as [|c s IH]; simpl; [now split|].
  rewrite !andb_true_iff. intros [[Hf Hg] Hs]. destruct (IH Hs). now repeat split.
Qed.

Lemma all_chars_app (f : ascii -> bool) (a b : string) :
  MangaKatana.all_chars f (a +:+ b)
  = MangaKatana.all_chars f a && MangaKatana.all_chars f b.
Proof.
  induction a as [|c a IH]; [reflexivity|].
  rewrite append_cons. simpl. now rewrite IH, andb_assoc.
Qed.

Lemma findall_skip (b rest : string) :
  MangaKatana.all_chars MangaKatana.not_quote b = true ->
  MangaKatana.findall_from (b +:+ rest) None = MangaKatana.findall_from rest None.
Proof.
  induction b as [|c b IH]; intros Hb; [reflexivity|].
  simpl in Hb. apply andb_true_iff in Hb as [Hc Hb].
  rewrite append_cons. simpl.
  unfold MangaKatana.not_quote in Hc. apply negb_true_iff in Hc. rewrite Hc.
  now apply IH.
Qed.

Lemma findall_literal (u rest : string) (acc : list ascii) :
  MangaKatana.all_chars MangaKatana.not_quote u = true ->
  MangaKatana.findall_from (u +:+ String MangaKatana.squote rest) (Some acc)
  = string_of_list_ascii (rev acc ++ list_ascii_of_string u)
      :: MangaKatana.findall_from rest None.
Proof.
  revert acc. induction u as [|c u IH]; intros acc Hu.
  - rewrite append_nil. simpl. now rewrite app_nil_r.
  - simpl in Hu. apply andb_true_iff in Hu as [Hc Hu].
    rewrite append_cons. simpl.
    unfold MangaKatana.not_quote in Hc. apply negb_true_iff in Hc. rewrite Hc.
    rewrite (IH (c :: acc) Hu). simpl. now rewrite <- app_assoc.
Qed.

Lemma findall_literals (lead : string) (lits : list (string * string)) :
  MangaKatana.all_chars MangaKatana.not_quote lead = true ->
  Forall (fun p => MangaKatana.all_chars MangaKatana.not_quote (fst p) = true /\
                   MangaKatana.all_chars MangaKatana.not_quote (snd p) = true) lits ->
  MangaKatana.findall_quoted (MangaKatana.literals_text lead lits) = map fst lits.
Proof.
  unfold MangaKatana.findall_quoted. revert lead.
  induction lits as [|[u sep] lits IH]; intros lead Hlead Hlits; simpl.
  - rewrite <- (append_nil_r lead). now rewrite (findall_skip lead _ Hlead).
  - inversion Hlits as [|? ? [Hu Hsep] Hrest]; subst. simpl in Hu, Hsep.
    rewrite (findall_skip lead _ Hlead). simpl.
    rewrite (findall_literal u _ [] Hu). simpl.
    rewrite string_of_list_ascii_of_string. f_equal. now apply IH.
Qed.

Lemma literals_text_no_close (lead : string) (lits : list (string * string)) :
  MangaKatana.plain lead = true ->
  Forall (fun p => MangaKatana.plain (fst p) = true /\
                   MangaKatana.plain (snd p) = true) lits ->
  MangaKatana.all_chars MangaKatana.not_close (MangaKatana.literals_text lead lits)
  = true.
Proof.
  revert lead. induction lits as [|[u sep] lits IH]; intros lead Hlead Hlits; simpl.
  - now apply all_chars_and in Hlead.
  - inversion Hlits as [|? ? [Hu Hsep] Hrest]; subst. simpl in Hu, Hsep.
    apply all_chars_and in Hlead as [_ Hlead]. apply all_chars_and in Hu as [_ Hu].
    rewrite all_chars_app, Hlead. simpl.
    rewrite all_chars_app, Hu. simpl. now apply IH.
Qed.

(** *** The marker pattern *)

Lemma search_first_some (m : string -> option string) (s group : string) :
  MangaKatana.search_first m s = Some group ->
  exists pre rest,
    s = pre +:+ rest /\ m rest = Some group /\
    forall p1 r1, s = p1 +:+ r1 ->
      (String.length p1 < String.length pre)%nat -> m r1 = None.
Proof.
  induction s as [|c s IH]; simpl.
  - destruct (m EmptyString) eqn:Hm; [|discriminate]. intros [= ->].
    exists EmptyString, EmptyString. repeat split; [exact Hm|]. simpl. lia.
  - destruct (m (String c s)) eqn:Hm.
    + intros [= ->]. exists EmptyString, (String c s).
      repeat split; [exact Hm|]. simpl. lia.
    + intros Hs. destruct (IH Hs) as [pre [rest [-> [Hr Hearly]]]].
      exists (String c pre), rest. rewrite append_cons.
      split; [reflexivity|]. split; [exact Hr|].
      intros [|d p1] r1 Heq Hlen.
      * rewrite append_nil in Heq. now subst.
      * rewrite append_cons in Heq. injection Heq as -> Heq.
        apply (Hearly p1 r1 Heq). simpl in Hlen. lia.
Qed.

(** What a match of the marker pattern looks like in the text. *)
Lemma match_marker_sound (r name : string) :
  MangaKatana.match_marker r = Some name ->
  exists q ws tail,
    r = "data-src" +:+ String q (String "," (ws +:+ name +:+ tail)) /\
    (q = MangaKatana.squote \/ q = MangaKatana.dquote) /\
    MangaKatana.all_chars Py.is_space ws = true /\
    MangaKatana.all_chars Py.is_word name = true /\
    name <> EmptyString /\
    (forall d t, tail = String d t -> Py.is_word d = false).
Proof.
  unfold MangaKatana.match_marker.
  destruct (MangaKatana.strip_prefix "data-src" r) as [rest0|] eqn:Hp;
    [|discriminate].
  apply strip_prefix_iff in Hp.
  destruct rest0 as [|q [|comma rest]]; try discriminate.
  destruct (Ascii.eqb_spec comma ","); [subst comma|
    intros H; exfalso; revert H;
    destruct comma as [[] [] [] [] [] [] [] []]; try discriminate; contradiction].
  destruct (Ascii.eqb q MangaKatana.squote || Ascii.eqb q MangaKatana.dquote)
    eqn:Hq; [|intros H; exfalso; revert H;
              destruct q as [[] [] [] [] [] [] [] []]; discriminate].
  destruct (take_drop_while_split Py.is_space rest) as [Hws [Hall_ws _]].
  destruct (take_drop_while_split Py.is_word
              (MangaKatana.drop_while Py.is_space rest)) as [Hw [Hall_w Hstop]].
  destruct (MangaKatana.take_while Py.is_word _) as [|c0 n0] eqn:Hname;
    [discriminate|].
  intros [= <-].
  exists q, (MangaKatana.take_while Py.is_space rest),
    (MangaKatana.drop_while Py.is_word (MangaKatana.drop_while Py.is_space rest)).
  split; [now rewrite <- Hw, <- Hws|].
  split; [apply orb_true_iff in Hq as [Hq|Hq]; apply Ascii.eqb_eq in Hq; auto|].
  split; [exact Hall_ws|]. split; [exact Hall_w|]. split; [discriminate|].
  exact Hstop.
Qed.

Lemma word_not_space (c : ascii) :
  Py.is_word c = true -> Py.is_space c = false.
Proof.
  destruct c as [[] [] [] [] [] [] [] []]; vm_compute; congruence.
Qed.

Lemma take_while_all (f : ascii -> bool) (b : string) :
  MangaKatana.all_chars f b = true -> MangaKatana.take_while f b = b.
Proof.
  induction b as [|c b IH]; [reflexivity|]. simpl. intros Hb.
  apply andb_true_iff in Hb as [-> Hb]. now rewrite IH.
Qed.

(** The anchored marker pattern matches exactly the texts of that shape. *)
Lemma match_marker_iff (r name : string) :
  MangaKatana.match_marker r = Some name <-> MangaKatana.marker_at r name.
Proof.
  split; [apply match_marker_sound|].
  intros [q [ws [tail [-> [Hq [Hws [Hname [Hne Htail]]]]]]]].
  unfold MangaKatana.match_marker.
  rewrite (proj2 (strip_prefix_iff "data-src" _
                    (String q (String "," (ws +:+ name +:+ tail)))) eq_refl).
  assert (Ascii.eqb q MangaKatana.squote || Ascii.eqb q MangaKatana.dquote = true)
    as -> by (destruct Hq as [-> | ->]; reflexivity).
  destruct name as [|c0 n0]; [contradiction|].
  pose proof Hname as Hname'. simpl in Hname'.
  apply andb_true_iff in Hname' as [Hc0 _].
  rewrite append_cons.
  destruct (take_drop_while_run Py.is_space ws c0 (n0 +:+ tail) Hws
              (word_not_space c0 Hc0)) as [_ ->].
  rewrite <- append_cons.
  assert (MangaKatana.take_while Py.is_word (String c0 n0 +:+ tail)
          = String c0 n0) as ->; [|reflexivity].
  destruct tail as [|d t].
  - rewrite append_nil_r. now apply take_while_all.
  - exact (proj1 (take_drop_while_run Py.is_word (String c0 n0) d t Hname
                    (Htail d t eq_refl))).
Qed.

(** C3 as stated fails.  The array pattern stops at the first closing
    bracket, so a literal that holds one cuts the array short; and a text
    that contains both fragments of the example gives nothing when an
    earlier marker captures another name. *)
Lemma pictures_from_chapters_not_all_literals :
  MangaKatana.pictures_from_chapters
    (fun _ => "data-src', foo);var foo=['a','b]','c']") []
  = ["a"] /\
  MangaKatana.pictures_from_chapters
    (fun _ => "data-src', foo);var foo=['a]b','c']") []
  = [] /\
  MangaKatana.pictures_from_chapters
    (fun _ => "data-src', bar);data-src', foo);var foo=['a','b','c']") []
  = [].
Proof. vm_compute. repeat split. Qed.

Section AssetExtraction.
Variable decode_utf8_ignore : list Byte.byte -> string.

(** C3, amended.  [pictures_from_chapters] is a total function of the
    decoded text, so it never raises.  It returns the empty list when the
    marker pattern matches nowhere in the text, and also when its first
    match captures the name [v] but the text holds no [var v=[] that a
    closing bracket follows.  When the first match of the marker captures
    [v] and the first assignment [var v=[ ... ]] holds the single-quoted
    literals [lits], the literals and the text around them being free of
    single quotes and closing brackets, it returns exactly these
    literals, in their order in the text. *)
Theorem pictures_from_chapters_spec (content : list Byte.byte) :
  let text := decode_utf8_ignore content in
  let pictures := MangaKatana.pictures_from_chapters decode_utf8_ignore content in
  let first_marker := fun v =>
    exists pre r,
      text = pre +:+ r /\ MangaKatana.marker_at r v /\
      forall p1 r1 v1, text = p1 +:+ r1 ->
        (String.length p1 < String.length pre)%nat ->
        ~ MangaKatana.marker_at r1 v1 in
  ((forall pre r v, text = pre +:+ r -> ~ MangaKatana.marker_at r v) ->
   pictures = []) /\
  (forall v,
     first_marker v ->
     ~ (exists pre body post,
          text = pre +:+ MangaKatana.array_open v +:+ body
                 +:+ String MangaKatana.rbracket post) ->
     pictures = []) /\
  (forall v pre lead lits post,
     first_marker v ->
     text = pre +:+ MangaKatana.array_open v
            +:+ MangaKatana.literals_text lead lits
            +:+ String MangaKatana.rbracket post ->
     (forall p1 r1, text = p1 +:+ r1 ->
        (String.length p1 < String.length pre)%nat ->
        ~ (exists body t,
             r1 = MangaKatana.array_open v +:+ body
                  +:+ String MangaKatana.rbracket t)) ->
     MangaKatana.plain lead = true ->
     Forall (fun p => MangaKatana.plain (fst p) = true /\
                      MangaKatana.plain (snd p) = true) lits ->
     pictures = map fst lits).
Proof.
  intros text pictures first_marker. subst pictures first_marker.
  unfold MangaKatana.pictures_from_chapters. fold text. cbv beta.
  assert (Hnone : forall r, (forall v, ~ MangaKatana.marker_at r v) ->
                    MangaKatana.match_marker r = None).
  { intros r Hr. destruct (MangaKatana.match_marker r) as [v|] eqn:Hm;
      [|reflexivity].
    apply match_marker_iff in Hm. now destruct (Hr v). }
  assert (Hfirst_marker : forall v,
            (exists pre r,
               text = pre +:+ r /\ MangaKatana.marker_at r v /\
               forall p1 r1 v1, text = p1 +:+ r1 ->
                 (String.length p1 < String.length pre)%nat ->
                 ~ MangaKatana.marker_at r1 v1) ->
            MangaKatana.search_marker text = Some v).
  { intros v [pre [r [Htext [Hat Hearly]]]]. unfold MangaKatana.search_marker.
    rewrite Htext. apply search_first_at.
    - now apply match_marker_iff.
    - intros p1 r1 Heq Hlen. apply Hnone. intros v1.
      apply (Hearly p1 r1 v1); [now rewrite Htext|exact Hlen]. }
  split; [|split].
  - intros Hno.
    assert (MangaKatana.search_marker text = None) as ->; [|reflexivity].
    apply search_first_none. intros pre rest Heq. apply Hnone.
    intros v. now apply (Hno pre rest v).
  - intros v Hv Habsent. rewrite (Hfirst_marker v Hv).
    assert (MangaKatana.search_array v text = None) as ->; [|reflexivity].
    apply search_first_none. intros pre rest Heq. apply match_array_none.
    intros [body [post Hr]]. apply Habsent. exists pre, body, post.
    now rewrite Heq, Hr.
  - intros v pre lead lits post Hv Htext Hfirst Hlead Hlits.
    rewrite (Hfirst_marker v Hv).
    assert (MangaKatana.search_array v text
            = Some (MangaKatana.literals_text lead lits)) as ->.
    { rewrite Htext. apply search_first_at.
      - apply match_array_some. now apply literals_text_no_close.
      - intros p1 r1 Heq Hlen. apply match_array_none.
        apply (Hfirst p1 r1); [now rewrite Htext|exact Hlen]. }
    apply findall_literals.
    + now apply all_chars_and in Hlead.
    + eapply Forall_impl; [exact Hlits|]. intros [u sep] [Hu Hsep].
      apply all_chars_and in Hu as [Hu _]. apply all_chars_and in Hsep as [Hsep _].
      now split.
Qed.

End AssetExtraction.

(** The example of the specification: the marker [data-src', foo);] and
    the assignment [var foo=['a','b','c']]. *)
Example pictures_from_chapters_example :
  MangaKatana.pictures_from_chapters
    (fun _ => "<script>$(img).attr('data-src', foo);var foo=['a','b','c'];</script>")
    []
  = ["a"; "b"; "c"] /\
  MangaKatana.pictures_from_chapters
    (fun _ => "data-src', foo);var foo=['a','b','c']") []
  = ["a"; "b"; "c"] /\
  MangaKatana.pictures_from_chapters
    (fun _ => "data-src', foo);var bar=['a','b','c']") []
  = [] /\
  MangaKatana.pictures_from_chapters
    (fun _ => "var foo=['a','b','c']") []
  = [].
Proof. vm_compute. repeat split. Qed.

Lemma pictures_from_chapters_spec_witness :
  MangaKatana.pictures_from_chapters
    (fun _ => "data-src', foo);var foo=['a','b','c']") []
  = ["a"; "b"; "c"] /\
  MangaKatana.pictures_from_chapters
    (fun _ => "data-src', foo);var bar=['a','b','c']") []
  = [] /\
  MangaKatana.pictures_from_chapters (fun _ => "var foo=['a','b','c']") []
  = [].
Proof.
  assert (Hmarker : forall rest,
            exists pre r,
              "data-src', foo);" +:+ rest = pre +:+ r /\
              MangaKatana.marker_at r "foo" /\
              forall p1 r1 v1, "data-src', foo);" +:+ rest = p1 +:+ r1 ->
                (String.length p1 < String.length pre)%nat ->
                ~ MangaKatana.marker_at r1 v1).
  { intros rest. exists EmptyString, ("data-src', foo);" +:+ rest).
    split; [reflexivity|]. split.
    - exists MangaKatana.squote, " ", (");" +:+ rest).
      split; [reflexivity|]. split; [now left|]. split; [reflexivity|].
      split; [reflexivity|]. split; [discriminate|].
      intros d t [= <- _]. reflexivity.
    - intros p1 r1 v1 _ Hlen. simpl in Hlen. lia. }
  split; [|split].
  - apply (proj2 (proj2 (pictures_from_chapters_spec
             (fun _ => "data-src', foo);var foo=['a','b','c']") []))
           "foo" "data-src', foo);" EmptyString
           [("a", ","); ("b", ","); ("c", EmptyString)] EmptyString).
    + exact (Hmarker "var foo=['a','b','c']").
    + reflexivity.
    + intros p1 r1 Heq Hlen [body [t Hr]]. subst r1.
      do 16 (destruct p1 as [|? p1];
             [vm_compute in Heq; discriminate Heq|
              rewrite append_cons in Heq; injection Heq as _ Heq]).
      simpl in Hlen. lia.
    + reflexivity.
    + repeat constructor.
  - apply (proj1 (proj2 (pictures_from_chapters_spec
             (fun _ => "data-src', foo);var bar=['a','b','c']") []))
           "foo").
    + exact (Hmarker "var bar=['a','b','c']").
    + intros [pre [body [post Heq]]].
      assert (Py.contains (MangaKatana.array_open "foo")
                "data-src', foo);var bar=['a','b','c']" = true) as Hc.
      { apply contains_iff. exists pre, (body +:+ String MangaKatana.rbracket post).
        cbv beta in Heq. exact Heq. }
      vm_compute in Hc. discriminate Hc.
  - apply (proj1 (pictures_from_chapters_spec
             (fun _ => "var foo=['a','b','c']") [])).
    intros pre r v Heq [q [ws [tail [Hr _]]]].
    assert (Py.contains "data-src" "var foo=['a','b','c']" = true) as Hc.
    { apply contains_iff.
      exists pre, (String q (String "," (ws +:+ v +:+ tail))).
      cbv beta in Heq. rewrite Heq, Hr. reflexivity. }
    vm_compute in Hc. discriminate Hc.
Defined.

(** ** The lazy chapter listing (plugins/atsumaru.py) *)

Section LazyListing.
Variable get_url : string -> Py.result (list Byte.byte).
Variable json_loads : list Byte.byte -> Py.result Py.json.
Variable py_str : Py.json -> string.

Lemma page_pass_no_items (slug : string) (card : Client.MangaCard) (page : Z)
  (content : list Byte.byte) (data chapters_data : Py.json) :
  json_loads content = Py.Ret data ->
  Py.dict_get data "chapters" (Py.JArr []) = Py.Ret chapters_data ->
  Py.truthy chapters_data = false ->
  Atsumaru.page_pass json_loads py_str slug card page content = ([], Atsumaru.Break).
Proof.
  intros Hl Hc Ht. unfold Atsumaru.page_pass.
  rewrite Hl. cbn [Py.bind]. rewrite Hc. cbn [Py.bind]. now rewrite Ht.
Qed.

(** Once some page from [page] on has no items, the loop started at
    [page] ends after at most [n + 1] requests, whatever fuel above [n]
    it is given, and it requests consecutive pages. *)
Lemma iter_pages_ends (slug : string) (card : Client.MangaCard) (n : nat) :
  forall page,
    Atsumaru.no_items get_url json_loads slug (page + Z.of_nat n) ->
    exists r k,
      (k <= n)%nat /\
      Atsumaru.requested r = Atsumaru.pages_from slug page (S k) /\
      forall fuel, (n < fuel)%nat ->
        Atsumaru.iter_pages get_url json_loads py_str fuel slug card page = Some r.
Proof.
  induction n as [|n IH]; intros page Hempty.
  - destruct Hempty as [content [data [cd [Hg [Hl [Hc Ht]]]]]].
    replace (page + Z.of_nat 0) with page in Hg by lia.
    eexists (Atsumaru.mkRun [] [_] Atsumaru.Exhausted), 0%nat.
    split; [lia|]. split.
    + unfold Atsumaru.pages_from. simpl. now rewrite Z.add_0_r.
    + intros [|fuel] Hf; [lia|]. simpl. rewrite Hg.
      now rewrite (page_pass_no_items slug card page content data cd Hl Hc Ht).
  - destruct (IH (page + 1)) as [r' [k' [Hk' [Hreq' Hrun']]]].
    { replace (page + 1 + Z.of_nat n) with (page + Z.of_nat (S n)) by lia.
      exact Hempty. }
    destruct (get_url (Atsumaru.chapters_url slug page)) as [content|e] eqn:Hg.
    + destruct (Atsumaru.page_pass json_loads py_str slug card page content)
        as [chapters [|]] eqn:Hp.
      * exists (Atsumaru.mkRun (chapters ++ Atsumaru.yielded r')
                  (Atsumaru.chapters_url slug page :: Atsumaru.requested r')
                  (Atsumaru.ended r')), (S k').
        split; [lia|]. split.
        -- cbn [Atsumaru.requested]. rewrite Hreq'. unfold Atsumaru.pages_from.
           change (seq 0 (S (S k'))) with (0%nat :: seq 1 (S k')).
           cbn [map]. rewrite Z.add_0_r. f_equal.
           rewrite <- seq_shift, map_map. apply map_ext. intros i.
           f_equal. lia.
        -- intros [|fuel] Hf; [lia|]. simpl. rewrite Hg, Hp.
           now rewrite (Hrun' fuel ltac:(lia)).
      * exists (Atsumaru.mkRun chapters [Atsumaru.chapters_url slug page]
                  Atsumaru.Exhausted), 0%nat.
        split; [lia|]. split.
        -- unfold Atsumaru.pages_from. simpl. now rewrite Z.add_0_r.
        -- intros [|fuel] Hf; [lia|]. simpl. now rewrite Hg, Hp.
    + exists (Atsumaru.mkRun [] [Atsumaru.chapters_url slug page]
                (Atsumaru.Propagated e)), 0%nat.
      split; [lia|]. split.
      * unfold Atsumaru.pages_from. simpl. now rewrite Z.add_0_r.
      * intros [|fuel] Hf; [lia|]. simpl. now rewrite Hg.
Qed.

(** The outcome of a finished run does not depend on the fuel. *)
Lemma iter_pages_deterministic (slug : string) (card : Client.MangaCard) :
  forall f1 f2 page r1 r2,
    Atsumaru.iter_pages get_url json_loads py_str f1 slug card page = Some r1 ->
    Atsumaru.iter_pages get_url json_loads py_str f2 slug card page = Some r2 ->
    r1 = r2.
Proof.
  induction f1 as [|f1 IH]; intros [|f2] page r1 r2; simpl; try discriminate.
  destruct (get_url _) as [content|e]; [|congruence].
  destruct (Atsumaru.page_pass _ _ _ _ _ _) as [chapters [|]]; [|congruence].
  destruct (Atsumaru.iter_pages _ _ _ f1 _ _ _) as [q1|] eqn:H1; [|discriminate].
  destruct (Atsumaru.iter_pages _ _ _ f2 _ _ _) as [q2|] eqn:H2; [|discriminate].
  rewrite (IH f2 (page + 1) q1 q2 H1 H2). congruence.
Qed.

(** C5.  If some page of the listing comes back without items, say page
    [n], then [iter_chapters] ends: with any fuel above [n] it returns the
    same finished run, whatever the [pages] fields of the responses say.
    The run requests pages 0, 1, ..., k for some [k <= n], starting from
    page 0, and every finished invocation on the same source gives this
    same run, so two invocations yield identical sequences. *)
Theorem iter_chapters_terminates (manga_url manga_name : string) (n : nat) :
  Atsumaru.no_items get_url json_loads (Atsumaru.slug_of manga_url) (Z.of_nat n) ->
  exists r k,
    (k <= n)%nat /\
    Atsumaru.requested r
      = map (fun i => Atsumaru.chapters_url (Atsumaru.slug_of manga_url)
                        (Z.of_nat i)) (seq 0 (S k)) /\
    (forall fuel, (n < fuel)%nat ->
       Atsumaru.iter_chapters get_url json_loads py_str fuel manga_url manga_name
         = Some r) /\
    (forall fuel r',
       Atsumaru.iter_chapters get_url json_loads py_str fuel manga_url manga_name
         = Some r' -> r' = r).
Proof.
  intros Hempty. unfold Atsumaru.iter_chapters.
  destruct (iter_pages_ends (Atsumaru.slug_of manga_url)
              (Client.mkCard (Py.JStr manga_name) manga_url EmptyString) n 0)
    as [r [k [Hk [Hreq Hrun]]]]; [exact Hempty|].
  exists r, k. split; [exact Hk|]. split; [exact Hreq|]. split; [exact Hrun|].
  intros fuel r' Hr'. symmetry.
  eapply iter_pages_deterministic; [apply (Hrun (S n)); lia|exact Hr'].
Qed.

End LazyListing.

Lemma iter_chapters_terminates_witness :
  exists r,
    Atsumaru.iter_chapters Samples.paged_get_url
      (Samples.paged_loads (Py.JNum 99)) Samples.sample_str
      3 "https://atsu.moe/manga/sample" "Sample" = Some r /\
    (List.length (Atsumaru.requested r) <= 3)%nat.
Proof.
  destruct (iter_chapters_terminates Samples.paged_get_url
              (Samples.paged_loads (Py.JNum 99)) Samples.sample_str
              "https://atsu.moe/manga/sample" "Sample" 2)
    as [r [k [Hk [Hreq [Hrun _]]]]].
  - eexists _, _, _. split; [reflexivity|]. split; [reflexivity|].
    split; [vm_compute; reflexivity|reflexivity].
  - exists r. split; [apply Hrun; lia|].
    rewrite Hreq, length_map, length_seq. lia.
Defined.

(** The sample listing: with a total of 99 pages declared, the run reads
    pages 0, 1 and 2 and stops at the empty page; with a total of 0
    declared, it stops after page 0. *)
Example iter_chapters_sample_runs :
  let run := fun pages =>
    Atsumaru.iter_chapters Samples.paged_get_url (Samples.paged_loads pages)
      Samples.sample_str 5 "https://atsu.moe/manga/sample" "Sample" in
  let names := fun r => map Client.chapter_name (Atsumaru.yielded r) in
  (exists r, run (Py.JNum 99) = Some r /\
     names r = ["Ch. 3 - Title"; "Ch. 2 - Title"; "Ch. 1 - Title"] /\
     List.length (Atsumaru.requested r) = 3%nat /\
     Atsumaru.ended r = Atsumaru.Exhausted) /\
  (exists r, run (Py.JNum 0) = Some r /\
     names r = ["Ch. 3 - Title"; "Ch. 2 - Title"] /\
     List.length (Atsumaru.requested r) = 1%nat) /\
  (exists r, run (Py.JStr "many") = Some r /\
     names r = ["Ch. 3 - Title"; "Ch. 2 - Title"] /\
     List.length (Atsumaru.requested r) = 1%nat).
Proof.
  cbv zeta. repeat split; eexists; (split; [vm_compute; reflexivity|]);
    repeat split.
Qed.

(** ** Malformed payloads in [search] *)

(** C6 does not hold on the code.  Atsumaru's [search] turns a body that
    is not JSON into the empty list, but its handler only covers the
    decoding error: a hit without [document] raises [KeyError] and a body
    that is a JSON array raises [AttributeError].  MangaKatana's and
    MangaFire's [search] raise [KeyError] on a listed anchor without
    [href]. *)
Theorem search_raises_on_malformed_payload
  (urlencode : list (string * string) -> string) (py_str : Py.json -> string)
  (quote : string -> string) (urljoin : string -> string -> string) :
  Atsumaru.search (Samples.fetch_bytes [])
    (fun _ => Py.Ret Samples.hits_without_document) urlencode py_str
    "naruto" 1 = Py.Raise Py.KeyError /\
  Atsumaru.search (Samples.fetch_bytes [])
    (fun _ => Py.Ret (Py.JArr [])) urlencode py_str
    "naruto" 1 = Py.Raise Py.AttributeError /\
  Atsumaru.search (Samples.fetch_bytes [])
    (fun _ => Py.Ret (Py.JArr [])) urlencode py_str
    EmptyString 1 = Py.Raise Py.AttributeError /\
  Atsumaru.search (Samples.fetch_bytes [])
    (fun _ => Py.Raise Py.JSONDecodeError) urlencode py_str
    "naruto" 1 = Py.Ret [] /\
  MangaKatana.search (Samples.fetch_bytes []) quote
    (fun _ => [Samples.book_without_href]) "naruto" 1
    = Py.Raise Py.KeyError /\
  MangaFire.search Samples.toy_open Samples.toy_save
    (fun _ => Py.Raise Py.TypeError) (Samples.fetch_content [])
    urljoin (fun _ => Py.Ret [Samples.unit_without_href]) "naruto" 1
    = Py.Raise Py.KeyError.
Proof. repeat split. Qed.

(** ** Recently updated items ([check_updated_urls]) *)






Section RecentUpdates.
Variable at_get_url : string -> Py.result (list Byte.byte).
Variable at_json_loads : list Byte.byte -> Py.result Py.json.
Variable mk_get_url : string -> Py.result (list Byte.byte).
Variable mk_select : list Byte.byte -> list MangaKatana.book_item.
Variable image_open : list Byte.byte -> Py.result PIL.image.
Variable image_save : PIL.image -> Py.result (list Byte.byte).
Variable int_of_str : string -> Py.result Z.
Variable super_get_url : string -> Py.result MangaFire.content.
Variable urljoin : string -> string -> string.
Variable mf_select : MangaFire.content -> Py.result (list MangaFire.unit_inner).




End RecentUpdates.


(** Sample runs: a listing that names a previously known URL reports it
    as updated; a listing without elements reports all as not updated. *)
Example check_updated_urls_samples :
  MangaKatana.check_updated_urls (Samples.fetch_bytes [])
    (fun _ => [Samples.book_listed])
    [Client.mkChapter "Sample" "https://mangakatana.com/manga/sample.1"
                      Samples.sample_card []]
  = Py.Ret (["https://mangakatana.com/manga/sample.1"], []) /\
  MangaKatana.check_updated_urls (Samples.fetch_bytes [])
    (fun _ => []) Samples.sample_last
  = Py.Ret ([], ["https://mangakatana.com/manga/sample.1/c7"]) /\
  Atsumaru.check_updated_urls (Samples.fetch_bytes [])
    (fun _ => Py.Ret (Py.JObj [("items", Py.JArr [Py.JObj []])]))
    Samples.sample_last
  = Py.Ret ([], ["https://mangakatana.com/manga/sample.1/c7"]) /\
  Atsumaru.check_updated_urls (Samples.fetch_bytes [])
    (fun _ => Py.Ret (Py.JObj [("items", Py.JArr [Py.JNum 1])]))
    Samples.sample_last
  = Py.Ret ([], []).
Proof. vm_compute. repeat split. Qed.

(** Atsumaru on bodies of various shapes: an object without [items],
    or with an empty object or an empty text under it, passes the loop
    and gives all previous URLs; a text or an object with entries under
    [items], a number there, and a body that is a list give two empty
    lists. *)
Example atsumaru_check_updated_urls_shapes :
  let run := fun body =>
    Atsumaru.check_updated_urls (Samples.fetch_bytes [])
      (fun _ => Py.Ret body) Samples.sample_last in
  let all := ["https://mangakatana.com/manga/sample.1/c7"] in
  run (Py.JObj []) = Py.Ret ([], all) /\
  run (Py.JObj [("items", Py.JObj [])]) = Py.Ret ([], all) /\
  run (Py.JObj [("items", Py.JStr EmptyString)]) = Py.Ret ([], all) /\
  run (Py.JObj [("items", Py.JArr [])]) = Py.Ret ([], all) /\
  run (Py.JObj [("items", Py.JStr "ab")]) = Py.Ret ([], []) /\
  run (Py.JObj [("items", Py.JObj [("k", Py.JNum 1)])]) = Py.Ret ([], []) /\
  run (Py.JObj [("items", Py.JNum 3)]) = Py.Ret ([], []) /\
  run (Py.JObj [("items", Py.JNull)]) = Py.Ret ([], []) /\
  run (Py.JArr []) = Py.Ret ([], []).
Proof. vm_compute. repeat split. Qed.

(* ================================================================== *)
(** * Part III: further properties of the plugins *)
(* ================================================================== *)

(** ** More on the descrambling transform (plugins/mangafire.py) *)

(** X1.  Descrambling is its own inverse: applied twice with the same
    offset to an image of positive size, it gives back every pixel. *)
Theorem descramble_twice_identity (img : PIL.image) (offset : Z) :
  0 < PIL.img_width img -> 0 < PIL.img_height img ->
  exists d r,
    MangaFire.descramble_pixels img offset = Py.Ret d /\
    MangaFire.descramble_pixels d offset = Py.Ret r /\
    PIL.img_width r = PIL.img_width img /\
    PIL.img_height r = PIL.img_height img /\
    forall i j,
      0 <= i < PIL.img_width img -> 0 <= j < PIL.img_height img ->
      PIL.get r i j = PIL.get img i j.
Proof.
  intros HW HH.
  destruct (descramble_pixels_px img offset HW HH) as [d [Hd [Hdw [Hdh Hdpx]]]].
  destruct (descramble_pixels_px d offset) as [r [Hr [Hrw [Hrh Hrpx]]]];
    [rewrite Hdw; exact HW|rewrite Hdh; exact HH|].
  rewrite Hdw, Hdh in Hrpx. rewrite Hdw in Hrw. rewrite Hdh in Hrh.
  exists d, r. repeat split; try assumption.
  intros i j Hi Hj. rewrite Hrpx by assumption.
  rewrite Hdpx by (apply src_coord_spec; assumption).
  now rewrite !src_coord_involutive.
Qed.

Lemma descramble_twice_identity_witness :
  exists d r,
    MangaFire.descramble_pixels Samples.img_3x3 1 = Py.Ret d /\
    MangaFire.descramble_pixels d 1 = Py.Ret r /\
    forall i j, 0 <= i < 3 -> 0 <= j < 3 ->
      PIL.get r i j = PIL.get Samples.img_3x3 i j.
Proof.
  destruct (descramble_twice_identity Samples.img_3x3 1)
    as [d [r [Hd [Hr [_ [_ Hpx]]]]]].
  - simpl. lia.
  - simpl. lia.
  - exists d, r. split; [exact Hd|]. split; [exact Hr|exact Hpx].
Defined.

(** X2.  On an image of positive size every tile of the loop is non-empty
    and both its destination box and its source box lie inside the image,
    so no crop reads outside the raster and no paste is clipped. *)
Theorem descramble_tiles_in_bounds (W H offset : Z) :
  0 < W -> 0 < H ->
  exists tiles,
    MangaFire.descramble_tiles W H offset = Py.Ret tiles /\
    forall t, In t tiles ->
      0 < MangaFire.w t /\ 0 < MangaFire.h t /\
      0 <= MangaFire.x_dst t /\ MangaFire.x_dst t + MangaFire.w t <= W /\
      0 <= MangaFire.y_dst t /\ MangaFire.y_dst t + MangaFire.h t <= H /\
      0 <= MangaFire.x_src t /\ MangaFire.x_src t + MangaFire.w t <= W /\
      0 <= MangaFire.y_src t /\ MangaFire.y_src t + MangaFire.h t <= H.
Proof.
  intros HW HH. eexists. split; [apply descramble_tiles_pure; assumption|].
  intros t Hin. apply In_grid in Hin as [x [y [Hx [Hy ->]]]].
  assert (Haxis : forall size idx, 0 < size ->
            0 <= idx < MangaFire.max_index size + 1 ->
            let p := MangaFire.piece_size size in
            let s := MangaFire.src_idx (MangaFire.max_index size) offset idx in
            0 < Z.min p (size - p * idx) /\
            0 <= p * idx /\ p * idx + Z.min p (size - p * idx) <= size /\
            0 <= p * s /\ p * s + Z.min p (size - p * idx) <= size).
  { intros size idx Hs Hidx p s.
    pose proof (piece_size_pos size Hs) as Hp. fold p in Hp.
    pose proof (max_index_bounds size Hs) as Hm. fold p in Hm.
    set (m := MangaFire.max_index size) in *.
    assert (Hsrc : 0 <= s <= m /\ (idx = m -> s = m) /\ (idx < m -> s < m)).
    { subst s. destruct (Z.eq_dec idx m) as [->|Hne].
      - rewrite src_idx_last. lia.
      - pose proof (src_idx_inner m offset idx ltac:(lia)). lia. }
    destruct (Z.eq_dec idx m); repeat split; nia. }
  destruct (Haxis W x HW Hx) as [? [? [? [? ?]]]].
  destruct (Haxis H y HH Hy) as [? [? [? [? ?]]]].
  cbn. repeat split; assumption.
Qed.

Lemma descramble_tiles_in_bounds_witness :
  exists tiles,
    MangaFire.descramble_tiles 7 3 4 = Py.Ret tiles /\
    forall t, In t tiles ->
      0 <= MangaFire.x_src t /\ MangaFire.x_src t + MangaFire.w t <= 7.
Proof.
  destruct (descramble_tiles_in_bounds 7 3 4) as [tiles [Ht Hb]]; [lia|lia|].
  exists tiles. split; [exact Ht|]. intros t Hin.
  destruct (Hb t Hin) as [_ [_ [_ [_ [_ [_ [H1 [H2 _]]]]]]]]. now split.
Defined.

(** X3.  The offset acts only through its remainders: adding a multiple
    of the product of the two last tile indexes leaves every tile, and so
    the descrambled image, unchanged. *)
Theorem descramble_offset_periodic (W H offset k : Z) :
  0 < W -> 0 < H ->
  MangaFire.descramble_tiles W H
    (offset + k * (MangaFire.max_index W * MangaFire.max_index H))
  = MangaFire.descramble_tiles W H offset.
Proof.
  intros HW HH. rewrite !descramble_tiles_pure by assumption. f_equal. f_equal.
  assert (Hidx : forall m c idx, 0 <= idx <= m ->
            MangaFire.src_idx m (offset + c * m) idx
            = MangaFire.src_idx m offset idx).
  { intros m c idx Hi. unfold MangaFire.src_idx.
    destruct (Z.eqb_spec idx m); [reflexivity|].
    replace (m - idx + (offset + c * m)) with (m - idx + offset + c * m) by lia.
    apply Z.mod_add. lia. }
  apply map_ext_in. intros y Hy. apply range_In in Hy.
  apply map_ext_in. intros x Hx. apply range_In in Hx.
  unfold MangaFire.tile_of. f_equal.
  - f_equal.
    replace (k * (MangaFire.max_index W * MangaFire.max_index H))
      with (k * MangaFire.max_index H * MangaFire.max_index W) by lia.
    apply Hidx. lia.
  - f_equal.
    replace (k * (MangaFire.max_index W * MangaFire.max_index H))
      with (k * MangaFire.max_index W * MangaFire.max_index H) by lia.
    apply Hidx. lia.
Qed.

Lemma descramble_offset_periodic_witness :
  MangaFire.descramble_tiles 7 3 (4 + 5 * 6) = MangaFire.descramble_tiles 7 3 4.
Proof. apply (descramble_offset_periodic 7 3 4 5); lia. Defined.

(** A size of zero on either axis makes the tile arithmetic divide by
    zero. *)
Lemma descramble_tiles_zero_size (W H offset : Z) :
  W = 0 \/ H = 0 ->
  MangaFire.descramble_tiles W H offset = Py.Raise Py.ZeroDivisionError.
Proof.
  intros Hz. unfold MangaFire.descramble_tiles, MangaFire.ceil_div, Py.floordiv.
  change (MangaFire.MIN_SPLIT_COUNT =? 0) with false. cbn [Py.bind].
  destruct Hz as [->| ->].
  - change (Z.min MangaFire.PIECE_SIZE
              ((0 + MangaFire.MIN_SPLIT_COUNT - 1) / MangaFire.MIN_SPLIT_COUNT))
      with 0.
    reflexivity.
  - change (Z.min MangaFire.PIECE_SIZE
              ((0 + MangaFire.MIN_SPLIT_COUNT - 1) / MangaFire.MIN_SPLIT_COUNT))
      with 0.
    destruct (_ =? 0); reflexivity.
Qed.

Section DescrambleEdges.
Variable image_open : list Byte.byte -> Py.result PIL.image.
Variable image_save : PIL.image -> Py.result (list Byte.byte).
Variable int_of_str : string -> Py.result Z.
Variable super_get_url : string -> Py.result MangaFire.content.

(** X4.  When the data decodes to an image of width or height zero, the
    division by zero is caught and [_descramble_image] returns the data
    unchanged. *)
Theorem descramble_zero_size_keeps_bytes
  (data : list Byte.byte) (img : PIL.image) (offset : Z) :
  image_open data = Py.Ret img ->
  PIL.img_width img = 0 \/ PIL.img_height img = 0 ->
  MangaFire._descramble_image image_open image_save data offset = data.
Proof.
  intros Hopen Hz. unfold MangaFire._descramble_image, MangaFire.descramble_pixels.
  rewrite Hopen. cbn [Py.bind].
  now rewrite (descramble_tiles_zero_size _ _ offset Hz).
Qed.

(** Splitting a URL at the scramble marker. *)
Lemma marker_needs_hash (c : ascii) (t : string) :
  c <> "#"%char -> String.prefix "#scrambled_" (String c t) = false.
Proof.
  intros Hc. destruct (String.prefix "#scrambled_" (String c t)) eqn:Hp;
    [|reflexivity].
  apply prefix_iff in Hp as [rest Hr].
  change ("#scrambled_" +:+ rest) with (String "#" ("scrambled_" +:+ rest)) in Hr.
  congruence.
Qed.

Lemma hash_free_cons (c : ascii) (t : string) :
  Py.contains "#" (String c t) = false ->
  c <> "#"%char /\ Py.contains "#" t = false.
Proof.
  change (Py.contains "#" (String c t))
    with (String.prefix "#" (String c t) || Py.contains "#" t).
  intros Hc. apply orb_false_iff in Hc as [Hp Ht]. split; [|exact Ht].
  intros ->.
  assert (String.prefix "#" (String "#" t) = true) as Hq
    by (apply prefix_iff; now exists t).
  congruence.
Qed.

Lemma split_marker_free (s : string) (cur : list ascii) :
  Py.contains "#" s = false ->
  Py.split_from "#scrambled_" s 0 cur
  = [string_of_list_ascii (rev cur ++ list_ascii_of_string s)].
Proof.
  revert cur. induction s as [|c s IH]; intros cur Hc.
  - simpl. now rewrite app_nil_r.
  - destruct (hash_free_cons c s Hc) as [Hne Hs].
    cbn [Py.split_from]. rewrite (marker_needs_hash c s Hne).
    rewrite (IH (c :: cur) Hs). simpl. now rewrite <- app_assoc.
Qed.

Lemma split_at_marker (base rest : string) (cur : list ascii) :
  Py.contains "#" base = false ->
  Py.split_from "#scrambled_" (base +:+ "#scrambled_" +:+ rest) 0 cur
  = string_of_list_ascii (rev cur ++ list_ascii_of_string base)
    :: Py.split_from "#scrambled_" rest 0 [].
Proof.
  revert cur. induction base as [|c base IH]; intros cur Hc.
  - rewrite append_nil.
    change ("#scrambled_" +:+ rest) with (String "#" ("scrambled_" +:+ rest)).
    cbn [Py.split_from].
    assert (String.prefix "#scrambled_" (String "#" ("scrambled_" +:+ rest)) = true)
      as -> by (apply prefix_iff; now exists rest).
    simpl list_ascii_of_string. rewrite app_nil_r. reflexivity.
  - destruct (hash_free_cons c base Hc) as [Hne Hb].
    rewrite append_cons. cbn [Py.split_from].
    rewrite (marker_needs_hash c _ Hne).
    rewrite (IH (c :: cur) Hb). simpl. now rewrite <- app_assoc.
Qed.

(** X5.  [get_url] and the scramble token.  A URL without the marker is
    fetched as it is and the content is handed back untouched.  For a URL
    made of a part free of [#], the marker and a token free of [#], the
    part before the marker is what is fetched; fetched bytes are
    descrambled with the token's value when the token is an integer, and
    handed back untouched when it is not. *)
Theorem get_url_scramble_token :
  (forall url,
     Py.contains "#scrambled_" url = false ->
     MangaFire.get_url image_open image_save int_of_str super_get_url url
     = super_get_url url) /\
  (forall base token,
     Py.contains "#" base = false -> Py.contains "#" token = false ->
     MangaFire.get_url image_open image_save int_of_str super_get_url
       (base +:+ "#scrambled_" +:+ token)
     = (content <- super_get_url base ;;
        match content, int_of_str token with
        | MangaFire.Bytes data, Py.Ret n =>
            Py.Ret (MangaFire.Bytes
                      (MangaFire._descramble_image image_open image_save data n))
        | _, _ => Py.Ret content
        end)).
Proof.
  split.
  - intros url Hno. unfold MangaFire.get_url. rewrite Hno.
    destruct (super_get_url url) as [[data|text]|e]; reflexivity.
  - intros base token Hbase Htoken. unfold MangaFire.get_url.
    assert (Py.contains "#scrambled_" (base +:+ "#scrambled_" +:+ token) = true)
      as -> by (apply contains_iff; now exists base, token).
    unfold Py.split. rewrite (split_at_marker base token [] Hbase).
    rewrite (split_marker_free token [] Htoken).
    cbn [nth rev app]. rewrite !string_of_list_ascii_of_string.
    destruct (int_of_str token) as [n|e];
      destruct (super_get_url base) as [[data|text]|e']; reflexivity.
Qed.

End DescrambleEdges.

Lemma descramble_zero_size_keeps_bytes_witness :
  MangaFire._descramble_image Samples.toy_open Samples.toy_save
    [Byte.x00; Byte.x03] 5 = [Byte.x00; Byte.x03].
Proof.
  apply (descramble_zero_size_keeps_bytes Samples.toy_open Samples.toy_save
           [Byte.x00; Byte.x03] _ 5 eq_refl).
  left. reflexivity.
Defined.

Lemma get_url_scramble_token_witness :
  MangaFire.get_url Samples.toy_open Samples.toy_save (fun _ => Py.Ret 1)
    (Samples.fetch_content [Byte.x07])
    "https://mangafire.to/img/1.jpg#scrambled_1"
  = Py.Ret (MangaFire.Bytes [Byte.x07]).
Proof.
  exact (proj2 (get_url_scramble_token Samples.toy_open Samples.toy_save
                  (fun _ => Py.Ret 1) (Samples.fetch_content [Byte.x07]))
           "https://mangafire.to/img/1.jpg" "1" eq_refl eq_refl).
Defined.

(** ** Pages of twenty ([get_chapters], [iter_chapters]) *)

(** Whatever the page number, also zero or negative, a page slice never
    holds more than 20 elements. *)
Lemma slice_page_length {A : Type} (l : list A) (p : Z) :
  (List.length (Py.slice l ((p - 1) * 20) (p * 20)) <= 20)%nat.
Proof.
  unfold Py.slice, Py.clamp_index. rewrite length_firstn.
  set (len := Z.of_nat (List.length l)).
  destruct (Z.ltb_spec ((p - 1) * 20) 0); destruct (Z.ltb_spec (p * 20) 0); lia.
Qed.

Lemma firstn_plus {A : Type} (a b : nat) (l : list A) :
  firstn (a + b) l = firstn a l ++ firstn b (skipn a l).
Proof.
  revert l. induction a as [|a IH]; intros l; [reflexivity|].
  destruct l as [|x l]; simpl.
  - now rewrite firstn_nil.
  - now rewrite IH.
Qed.

(** The pages 1, ..., n, one after the other, are the first [20 * n]
    elements of the list. *)
Lemma pages_cover {A : Type} (l : list A) (n : nat) :
  concat (map (fun i => Py.slice l ((Z.of_nat i - 1) * 20) (Z.of_nat i * 20))
              (seq 1 n))
  = firstn (20 * n) l.
Proof.
  induction n as [|n IH]; [reflexivity|].
  rewrite seq_S, map_app, concat_app, IH. cbn [map concat plus].
  rewrite app_nil_r, slice_page by lia.
  match goal with |- context [skipn ?k l] =>
    replace k with (20 * n)%nat by lia end.
  replace (20 * S n)%nat with (20 * n + 20)%nat by lia.
  now rewrite firstn_plus.
Qed.

Section Pages.
Variable image_open : list Byte.byte -> Py.result PIL.image.
Variable image_save : PIL.image -> Py.result (list Byte.byte).
Variable int_of_str : string -> Py.result Z.
Variable super_get_url : string -> Py.result MangaFire.content.
Variable json_loads : MangaFire.content -> Py.result Py.json.
Variable urlparse_path : string -> Py.result string.
Variable urljoin : string -> string -> string.
Variable select_li_items : Py.json -> Py.result (list MangaFire.li_item).
Variable get_url : string -> Py.result (list Byte.byte).
Variable select_chapter_rows : list Byte.byte -> list MangaKatana.chapter_row.

(** X6.  MangaKatana: the pages 1, ..., n of [get_chapters], one after
    the other, are the first [20 * n] chapters that [iter_chapters] gives
    for the same card, so together the pages give the whole listing. *)
Theorem katana_pages_cover_listing
  (manga_url manga_name : string) (full : list Client.MangaChapter) (n : nat) :
  MangaKatana.iter_chapters get_url select_chapter_rows manga_url manga_name
    = Py.Ret full ->
  let card := Client.mkCard (Py.JStr manga_name) manga_url EmptyString in
  exists pages,
    Py.mapM (fun i => MangaKatana.get_chapters get_url select_chapter_rows card
                        (Z.of_nat i)) (seq 1 n) = Py.Ret pages /\
    concat pages = firstn (20 * n) full /\
    ((List.length full <= 20 * n)%nat -> concat pages = full).
Proof.
  intros Hiter card. unfold MangaKatana.iter_chapters in Hiter. fold card in Hiter.
  destruct (get_url manga_url) as [content|e] eqn:Hget; [|discriminate].
  cbn [Py.bind] in Hiter.
  exists (map (fun i => Py.slice full ((Z.of_nat i - 1) * 20) (Z.of_nat i * 20))
              (seq 1 n)).
  split; [|split].
  - apply mapM_pure. intros i _. unfold MangaKatana.get_chapters.
    cbn [Client.card_url card]. rewrite Hget. cbn [Py.bind].
    rewrite Hiter. reflexivity.
  - apply pages_cover.
  - intros Hlen. rewrite pages_cover. now apply firstn_all2.
Qed.

(** X7.  MangaFire: whatever the page number and the response,
    [get_chapters] lets only a failure of the fetch itself escape; in
    every other case it returns a list, of at most 20 chapters. *)
Theorem fire_get_chapters_bounded (card : Client.MangaCard) (page : Z) :
  let result :=
    MangaFire.get_chapters image_open image_save int_of_str super_get_url
      json_loads urlparse_path urljoin select_li_items card page in
  (exists chapters,
     result = Py.Ret chapters /\ (List.length chapters <= 20)%nat) \/
  (exists path e,
     urlparse_path (Client.card_url card) = Py.Ret path /\
     MangaFire.get_url image_open image_save int_of_str super_get_url
       (MangaFire.ajax_url (MangaFire.last_dot_field path)) = Py.Raise e /\
     result = Py.Raise e).
Proof.
  cbv zeta. unfold MangaFire.get_chapters.
  destruct (urlparse_path (Client.card_url card)) as [path|e] eqn:Hpath;
    cbn [Py.bind]; [|left; exists []; split; [reflexivity|simpl; lia]].
  destruct (MangaFire.get_url _ _ _ _ _) as [content|e] eqn:Hget; cbn [Py.bind].
  - left. eexists. split; [reflexivity|].
    destruct (json_loads content) as [data|]; cbn [Py.bind Py.try_except];
      [|simpl; lia].
    destruct (Py.dict_get data "status" Py.JNull) as [status|];
      cbn [Py.bind Py.try_except]; [|simpl; lia].
    destruct (negb (Py.eq_int status 200)); cbn [Py.try_except]; [simpl; lia|].
    destruct (Py.dict_get data "result" _) as [html|];
      cbn [Py.bind Py.try_except]; [|simpl; lia].
    destruct (select_li_items html) as [items|];
      cbn [Py.bind Py.try_except]; [|simpl; lia].
    destruct (MangaFire.parse_chapters _ _ _) as [chapters|];
      cbn [Py.bind Py.try_except]; [|simpl; lia].
    apply slice_page_length.
  - right. exists path, e. repeat split. exact Hget.
Qed.


(** With every anchor in place the two listings name the same chapter
    URLs in the same order. *)
Lemma fire_listings_same_urls (card1 card2 : Client.MangaCard)
  (items : list MangaFire.li_item) :
  forall acc full,
    Py.for_each items
      (fun chapters item =>
         match MangaFire.li_link item with
         | None => Py.Ret chapters
         | Some link =>
             href <- Soup.attr (Soup.a_href link) ;;
             let url := urljoin MangaFire.base_url href in
             let name := MangaFire.chapter_label (MangaFire.item_number item)
                           (MangaFire.item_raw_title item) in
             Py.Ret (chapters ++ [Client.mkChapter name url card1 []])
         end) acc = Py.Ret full ->
    map Client.chapter_url full
    = map Client.chapter_url acc
      ++ map Client.chapter_url (MangaFire.iter_items urljoin card2 items).
Proof.
  induction items as [|item items IH]; intros acc full Hrun.
  - injection Hrun as <-. simpl. now rewrite app_nil_r.
  - cbn [Py.for_each MangaFire.iter_items] in *.
    destruct (MangaFire.li_link item) as [[t [href|]]|]; cbn in *.
    + rewrite (IH _ _ Hrun), map_app, <- app_assoc. reflexivity.
    + discriminate Hrun.
    + exact (IH _ _ Hrun).
Qed.

(** X9.  MangaFire: when the loop of [get_chapters] succeeds, the
    chapters it builds and those [iter_chapters] yields for the same
    elements have the same URLs in the same order, one per element that
    has an anchor. *)
Theorem fire_listings_agree (card1 card2 : Client.MangaCard)
  (items : list MangaFire.li_item) (full : list Client.MangaChapter) :
  MangaFire.parse_chapters urljoin card1 items = Py.Ret full ->
  map Client.chapter_url full
  = map Client.chapter_url (MangaFire.iter_items urljoin card2 items) /\
  (List.length full <= List.length items)%nat.
Proof.
  intros Hrun. unfold MangaFire.parse_chapters in Hrun.
  pose proof (fire_listings_same_urls card1 card2 items [] full Hrun) as Hurls.
  split; [exact Hurls|].
  rewrite <- (length_map Client.chapter_url), Hurls. cbn [map app].
  rewrite length_map. clear. induction items as [|item items IH]; simpl; [lia|].
  destruct (MangaFire.li_link item) as [[t [href|]]|]; simpl; lia.
Qed.

End Pages.

Lemma katana_pages_cover_listing_witness :
  exists pages,
    Py.mapM (fun i => MangaKatana.get_chapters (Samples.fetch_bytes [])
                        (fun _ => Samples.sample_rows) Samples.sample_card
                        (Z.of_nat i)) (seq 1 3) = Py.Ret pages /\
    concat pages = Samples.sample_chapters_katana.
Proof.
  destruct (katana_pages_cover_listing (Samples.fetch_bytes [])
              (fun _ => Samples.sample_rows)
              "https://mangafire.to/manga/sample.x1" "Sample"
              Samples.sample_chapters_katana 3)
    as [pages [Hpages [_ Hall]]].
  - vm_compute. reflexivity.
  - exists pages. split; [exact Hpages|]. apply Hall. vm_compute. lia.
Defined.


Lemma fire_listings_agree_witness :
  map Client.chapter_url Samples.sample_chapters_fire
  = map Client.chapter_url
      (MangaFire.iter_items Samples.join_root Samples.sample_card
         Samples.sample_items).
Proof.
  apply (fire_listings_agree Samples.join_root Samples.sample_card
           Samples.sample_card Samples.sample_items Samples.sample_chapters_fire).
  vm_compute. reflexivity.
Defined.

(** ** More on plugins/atsumaru.py *)

Lemma removeprefix_app (q r : string) : Py.removeprefix (q +:+ r) q = r.
Proof.
  unfold Py.removeprefix.
  assert (String.prefix q (q +:+ r) = true) as -> by (apply prefix_iff; now exists r).
  apply drop_append.
Qed.

Lemma removeprefix_absent (q s : string) :
  String.prefix q s = false -> Py.removeprefix s q = s.
Proof. intros H. unfold Py.removeprefix. now rewrite H. Qed.

(** The four shapes under which the upstream gives the same poster path
    all reduce to the bare path. *)
Lemma poster_path_forms (p raw : string) :
  String.prefix "/" p = false -> String.prefix "static/" p = false ->
  In raw [p; "/" +:+ p; "static/" +:+ p; "/static/" +:+ p] ->
  Py.removeprefix (Py.removeprefix raw "/") "static/" = p.
Proof.
  intros Hslash Hstatic [<-|[<-|[<-|[<-|[]]]]].
  - rewrite (removeprefix_absent "/" p Hslash). now apply removeprefix_absent.
  - rewrite removeprefix_app. now apply removeprefix_absent.
  - rewrite (removeprefix_absent "/" ("static/" +:+ p)) by reflexivity.
    apply removeprefix_app.
  - change ("/static/" +:+ p) with ("/" +:+ "static/" +:+ p).
    rewrite removeprefix_app. apply removeprefix_app.
Qed.

(** X10.  Thumbnail of a search result.  Whether the upstream gives the
    poster path bare, rooted, already under [static/], or both, and
    whether it gives it as a string or inside an object under [image],
    the card's thumbnail is the site's static base followed by the bare
    path. *)
Theorem atsumaru_thumbnail_forms (py_str : Py.json -> string)
  (id title : Py.json) (p raw : string) (poster : Py.json) :
  (forall s, py_str (Py.JStr s) = s) ->
  p <> EmptyString ->
  String.prefix "/" p = false -> String.prefix "static/" p = false ->
  In raw [p; "/" +:+ p; "static/" +:+ p; "/static/" +:+ p] ->
  In poster [Py.JStr raw; Py.JObj [("image", Py.JStr raw)]] ->
  Atsumaru.card_of_item py_str
    (Py.JObj [("id", id); ("title", title); ("poster", poster)])
  = Py.Ret (Client.mkCard title
              (Atsumaru.base_url +:+ "/manga/" +:+ py_str id)
              (Atsumaru.base_url +:+ "/static/" +:+ p)).
Proof.
  intros Hstr Hp Hslash Hstatic Hraw Hposter.
  assert (Htruthy : Py.truthy (Py.JStr raw) = true).
  { cbn [Py.truthy]. apply negb_true_iff, String.eqb_neq.
    destruct Hraw as [<-|[<-|[<-|[<-|[]]]]]; [exact Hp|discriminate..]. }
  pose proof (poster_path_forms p raw Hslash Hstatic Hraw) as Hnorm.
  unfold Atsumaru.card_of_item.
  destruct Hposter as [<-|[<-|[]]].
  - cbn in Htruthy |- *. rewrite Htruthy. cbn. rewrite Htruthy, Hstr, Hnorm.
    reflexivity.
  - cbn in Htruthy |- *. rewrite Htruthy, Hstr, Hnorm. reflexivity.
Qed.

Lemma atsumaru_thumbnail_forms_witness :
  Atsumaru.card_of_item Samples.sample_str
    (Py.JObj [("id", Py.JStr "one-piece"); ("title", Py.JStr "One Piece");
              ("poster", Py.JObj [("image", Py.JStr "/static/posters/op.jpg")])])
  = Py.Ret (Client.mkCard (Py.JStr "One Piece")
              "https://atsu.moe/manga/one-piece"
              "https://atsu.moe/static/posters/op.jpg").
Proof.
  apply (atsumaru_thumbnail_forms Samples.sample_str
           (Py.JStr "one-piece") (Py.JStr "One Piece")
           "posters/op.jpg" "/static/posters/op.jpg").
  - reflexivity.
  - discriminate.
  - reflexivity.
  - reflexivity.
  - right. right. right. left. reflexivity.
  - right. left. reflexivity.
Defined.

(** ** The listings of plugins/atsumaru.py *)

(** A loop that appends one built value per element returns what
    [mapM] returns, after the values it started with. *)
Lemma for_each_collect {A B : Type} (f : A -> Py.result B) (l : list A) :
  forall acc,
    Py.for_each l (fun acc a => b <- f a ;; Py.Ret (acc ++ [b])) acc
    = (bs <- Py.mapM f l ;; Py.Ret (acc ++ bs)).
Proof.
  induction l as [|a l IH]; intros acc.
  - simpl. now rewrite app_nil_r.
  - simpl. destruct (f a) as [b|e]; [|reflexivity]. cbn [Py.bind].
    rewrite IH. destruct (Py.mapM f l) as [bs|e]; [|reflexivity].
    cbn [Py.bind]. now rewrite <- app_assoc.
Qed.

Lemma mapM_built {A B : Type} (f : A -> Py.result B) (l : list A) :
  forall bs, Py.mapM f l = Py.Ret bs ->
    Forall (fun b => exists a, In a l /\ f a = Py.Ret b) bs.
Proof.
  induction l as [|a l IH]; intros bs; simpl.
  - intros [= <-]. constructor.
  - destruct (f a) as [b|e] eqn:Hf; [|discriminate]. cbn [Py.bind].
    destruct (Py.mapM f l) as [bs'|e]; [|discriminate]. cbn [Py.bind].
    intros [= <-]. constructor.
    + exists a. split; [now left|exact Hf].
    + eapply Forall_impl; [apply IH; reflexivity|].
      intros b' [a' [Hin Ha']]. exists a'. split; [now right|exact Ha'].
Qed.

Lemma mapM_seq_shift {B : Type} (f : nat -> Py.result B) (n : nat) :
  forall a, Py.mapM f (seq (S a) n) = Py.mapM (fun i => f (S i)) (seq a n).
Proof.
  induction n as [|n IH]; intros a; [reflexivity|].
  cbn [seq Py.mapM]. now rewrite IH.
Qed.

Lemma mapM_ext {A B : Type} (f g : A -> Py.result B) (l : list A) :
  (forall a, f a = g a) -> Py.mapM f l = Py.mapM g l.
Proof.
  intros Hfg. induction l as [|a l IH]; [reflexivity|].
  cbn [Py.mapM]. now rewrite Hfg, IH.
Qed.

(** Splitting at [/]. *)
Lemma prefix_slash (c : ascii) (t t' : string) :
  String.prefix "/" (String c t) = String.prefix "/" (String c t').
Proof.
  cbn [String.prefix]. destruct (ascii_dec "/" c); [|reflexivity].
  now destruct t, t'.
Qed.

Lemma split_slash_app (pre rest : string) :
  forall cur,
    Py.split_from "/" (pre +:+ String "/" rest) 0 cur
    = Py.split_from "/" pre 0 cur ++ Py.split_from "/" rest 0 [].
Proof.
  induction pre as [|c pre IH]; intros cur.
  - rewrite append_nil. cbn [Py.split_from].
    assert (String.prefix "/" (String "/" rest) = true) as ->
      by (apply prefix_iff; now exists rest).
    reflexivity.
  - rewrite append_cons. cbn [Py.split_from].
    rewrite (prefix_slash c (pre +:+ String "/" rest) pre).
    destruct (String.prefix "/" (String c pre)).
    + cbn [String.length Nat.pred]. rewrite IH. reflexivity.
    + apply IH.
Qed.

Lemma slash_free_cons (c : ascii) (t : string) :
  Py.contains "/" (String c t) = false ->
  String.prefix "/" (String c t) = false /\ Py.contains "/" t = false.
Proof.
  change (Py.contains "/" (String c t))
    with (String.prefix "/" (String c t) || Py.contains "/" t).
  intros Hc. now apply orb_false_iff in Hc.
Qed.

Lemma split_slash_free (s : string) :
  forall cur,
    Py.contains "/" s = false ->
    Py.split_from "/" s 0 cur
    = [string_of_list_ascii (rev cur ++ list_ascii_of_string s)].
Proof.
  induction s as [|c s IH]; intros cur Hc.
  - simpl. now rewrite app_nil_r.
  - destruct (slash_free_cons c s Hc) as [Hp Hs].
    cbn [Py.split_from]. rewrite Hp.
    rewrite (IH (c :: cur) Hs). simpl. now rewrite <- app_assoc.
Qed.

Lemma split_field (s : string) :
  Py.contains "/" s = false -> Py.split s "/" = [s].
Proof.
  intros Hs. unfold Py.split. rewrite (split_slash_free s [] Hs).
  cbn [rev app]. now rewrite string_of_list_ascii_of_string.
Qed.

(** The two fields that [pictures_from_chapters] reads off the end of a
    URL, and the field that [get_chapters] reads off the end of a card's
    URL. *)
Lemma last_two_fields (pre slug id : string) :
  Py.contains "/" slug = false -> Py.contains "/" id = false ->
  let parts := Py.split (pre +:+ "/" +:+ slug +:+ "/" +:+ id) "/" in
  Py.index_from_end parts 2 = Some slug /\
  Py.index_from_end parts 1 = Some id.
Proof.
  intros Hslug Hid parts. subst parts. unfold Py.split.
  change (pre +:+ "/" +:+ slug +:+ "/" +:+ id)
    with (pre +:+ String "/" (slug +:+ String "/" id)).
  rewrite !split_slash_app.
  fold (Py.split slug "/"). fold (Py.split id "/").
  rewrite (split_field slug Hslug), (split_field id Hid).
  unfold Py.index_from_end. rewrite !rev_app_distr. cbn [rev app].
  split; reflexivity.
Qed.

Lemma slug_of_last_field (pre slug : string) :
  Py.contains "/" slug = false ->
  Atsumaru.slug_of (pre +:+ "/" +:+ slug) = slug.
Proof.
  intros Hslug. unfold Atsumaru.slug_of, Py.split.
  change (pre +:+ "/" +:+ slug) with (pre +:+ String "/" slug).
  rewrite split_slash_app. fold (Py.split slug "/").
  rewrite (split_field slug Hslug). apply last_last.
Qed.

Section AtsumaruListings.
Variable get_url : string -> Py.result (list Byte.byte).
Variable json_loads : list Byte.byte -> Py.result Py.json.
Variable urlencode : list (string * string) -> string.
Variable py_str : Py.json -> string.

Lemma chapter_of_url (slug : string) (card : Client.MangaCard) (ch : Py.json)
  (c : Client.MangaChapter) :
  Atsumaru.chapter_of py_str slug card ch = Py.Ret c ->
  exists ch_id,
    Py.dict_get ch "id" Py.JNull = Py.Ret ch_id /\
    Client.chapter_url c
    = Atsumaru.base_url +:+ "/read/" +:+ slug +:+ "/" +:+ py_str ch_id.
Proof.
  unfold Atsumaru.chapter_of.
  destruct (Py.dict_get ch "id" Py.JNull) as [ch_id|]; [|discriminate].
  cbn [Py.bind].
  destruct (Py.dict_get ch "title" Py.JNull) as [title|]; [|discriminate].
  cbn [Py.bind].
  destruct (Py.dict_get ch "number" (Py.JStr EmptyString)) as [number|];
    [|discriminate].
  cbn [Py.bind]. intros [= <-]. exists ch_id. split; reflexivity.
Qed.

Lemma card_of_item_url (item : Py.json) (card : Client.MangaCard) :
  Atsumaru.card_of_item py_str item = Py.Ret card ->
  exists manga_id,
    Client.card_url card = Atsumaru.base_url +:+ "/manga/" +:+ py_str manga_id.
Proof.
  unfold Atsumaru.card_of_item.
  destruct (Py.dict_get item "id" Py.JNull) as [manga_id|]; [|discriminate].
  cbn [Py.bind].
  destruct (Py.dict_get item "title" Py.JNull) as [title|]; [|discriminate].
  cbn [Py.bind].
  destruct (Py.dict_get item "poster" Py.JNull) as [poster|]; [|discriminate].
  cbn [Py.bind].
  destruct (if Py.truthy poster then _ else _) as [image_path|]; [|discriminate].
  cbn [Py.bind].
  destruct (match image_path with Py.JObj _ => _ | _ => _ end) as [image|];
    [|discriminate].
  cbn [Py.bind]. intros [= <-]. exists manga_id. reflexivity.
Qed.

Lemma get_chapters_entries (card : Client.MangaCard) (page : Z)
  (chapters : list Client.MangaChapter) :
  Atsumaru.get_chapters get_url json_loads py_str card page = Py.Ret chapters ->
  Forall (fun c => exists ch,
            Atsumaru.chapter_of py_str
              (Atsumaru.slug_of (Client.card_url card)) card ch = Py.Ret c)
         chapters.
Proof.
  unfold Atsumaru.get_chapters.
  destruct (get_url _) as [content|]; [|discriminate]. cbn [Py.bind].
  destruct (Atsumaru.unless_decode_error _) as [[cd|]|]; [| |discriminate];
    cbn [Py.bind]; [|intros [= <-]; constructor].
  destruct (Py.iterate cd) as [entries|]; [|discriminate]. cbn [Py.bind].
  rewrite for_each_collect.
  destruct (Py.mapM _ entries) as [bs|] eqn:Hbs; [|discriminate].
  cbn [Py.bind app]. intros [= <-].
  eapply Forall_impl; [exact (mapM_built _ _ _ Hbs)|].
  intros c [ch [_ Hch]]. now exists ch.
Qed.

Lemma yield_chapters_entries (slug : string) (card : Client.MangaCard)
  (l : list Py.json) :
  Forall (fun c => exists ch, Atsumaru.chapter_of py_str slug card ch = Py.Ret c)
         (fst (Atsumaru.yield_chapters py_str slug card l)).
Proof.
  induction l as [|ch l IH]; simpl; [constructor|].
  destruct (Atsumaru.chapter_of py_str slug card ch) as [c|] eqn:Hc;
    [|constructor].
  destruct (Atsumaru.yield_chapters py_str slug card l) as [more ok].
  cbn [fst] in *. constructor; [now exists ch|exact IH].
Qed.

Lemma page_pass_entries (slug : string) (card : Client.MangaCard) (page : Z)
  (content : list Byte.byte) :
  Forall (fun c => exists ch, Atsumaru.chapter_of py_str slug card ch = Py.Ret c)
         (fst (Atsumaru.page_pass json_loads py_str slug card page content)).
Proof.
  unfold Atsumaru.page_pass.
  destruct (json_loads content) as [data|]; [|constructor]. cbn [Py.bind].
  destruct (Py.dict_get data "chapters" (Py.JArr [])) as [cd|]; [|constructor].
  cbn [Py.bind]. destruct (negb (Py.truthy cd)); [constructor|].
  destruct (Py.iterate cd) as [entries|]; [|constructor].
  pose proof (yield_chapters_entries slug card entries) as Hy.
  destruct (Atsumaru.yield_chapters py_str slug card entries) as [ys ok].
  cbn [fst] in Hy. destruct (negb ok); [exact Hy|].
  destruct (_ <- _ ;; _) as [[|]|]; exact Hy.
Qed.

Lemma iter_pages_entries (slug : string) (card : Client.MangaCard) :
  forall fuel page r,
    Atsumaru.iter_pages get_url json_loads py_str fuel slug card page = Some r ->
    Forall (fun c => exists ch,
              Atsumaru.chapter_of py_str slug card ch = Py.Ret c)
           (Atsumaru.yielded r).
Proof.
  induction fuel as [|fuel IH]; intros page r; simpl; [discriminate|].
  destruct (get_url _) as [content|]; [|intros [= <-]; constructor].
  pose proof (page_pass_entries slug card page content) as Hp.
  destruct (Atsumaru.page_pass _ _ _ _ _ _) as [chapters [|]]; cbn [fst] in Hp.
  - destruct (Atsumaru.iter_pages _ _ _ fuel _ _ _) as [r'|] eqn:Hr';
      [|discriminate].
    intros [= <-]. cbn [Atsumaru.yielded]. apply Forall_app. split; [exact Hp|].
    exact (IH _ _ Hr').
  - intros [= <-]. exact Hp.
Qed.

Lemma site_url_recognised (rest : string) :
  Atsumaru.contains_url (Atsumaru.base_url +:+ "/" +:+ rest) = true.
Proof.
  unfold Atsumaru.contains_url, Py.startswith. apply prefix_iff.
  exists rest. reflexivity.
Qed.

(** X11.  Atsumaru: every URL the plugin hands out is one that its own
    [contains_url] recognises: the URL of each chapter returned by
    [get_chapters], of each chapter yielded by [iter_chapters], and of
    each card returned by [search]. *)
Theorem atsumaru_urls_recognised :
  (forall card page chapters,
     Atsumaru.get_chapters get_url json_loads py_str card page = Py.Ret chapters ->
     Forall (fun c => Atsumaru.contains_url (Client.chapter_url c) = true)
            chapters) /\
  (forall fuel manga_url manga_name r,
     Atsumaru.iter_chapters get_url json_loads py_str fuel manga_url manga_name
       = Some r ->
     Forall (fun c => Atsumaru.contains_url (Client.chapter_url c) = true)
            (Atsumaru.yielded r)) /\
  (forall query page cards,
     Atsumaru.search get_url json_loads urlencode py_str query page
       = Py.Ret cards ->
     Forall (fun c => Atsumaru.contains_url (Client.card_url c) = true) cards).
Proof.
  assert (Hch : forall slug card c,
            (exists ch, Atsumaru.chapter_of py_str slug card ch = Py.Ret c) ->
            Atsumaru.contains_url (Client.chapter_url c) = true).
  { intros slug card c [ch Hc].
    destruct (chapter_of_url slug card ch c Hc) as [ch_id [_ ->]].
    apply (site_url_recognised ("read/" +:+ slug +:+ "/" +:+ py_str ch_id)). }
  split; [|split].
  - intros card page chapters Hrun.
    eapply Forall_impl; [exact (get_chapters_entries card page chapters Hrun)|].
    apply Hch.
  - intros fuel manga_url manga_name r Hrun. unfold Atsumaru.iter_chapters in Hrun.
    eapply Forall_impl; [exact (iter_pages_entries _ _ _ _ _ Hrun)|].
    apply Hch.
  - intros query page cards. unfold Atsumaru.search.
    destruct (if String.eqb query EmptyString then _ else _) as [[items|]|];
      [| |discriminate]; cbn [Py.bind]; [|intros [= <-]; constructor].
    destruct (Py.iterate items) as [l|]; [|discriminate]. cbn [Py.bind].
    rewrite for_each_collect.
    destruct (Py.mapM _ l) as [bs|] eqn:Hbs; [|discriminate].
    cbn [Py.bind app]. intros [= <-].
    eapply Forall_impl; [exact (mapM_built _ _ _ Hbs)|].
    intros c [item [_ Hc]].
    destruct (card_of_item_url item c Hc) as [manga_id ->].
    apply (site_url_recognised ("manga/" +:+ py_str manga_id)).
Qed.

(** One page of the eager listing against one pass of the lazy one. *)
Lemma falsy_iterates_empty (x : Py.json) (l : list Py.json) :
  Py.truthy x = false -> Py.iterate x = Py.Ret l -> l = [].
Proof.
  destruct x as [|b|n|s|items|fields]; cbn [Py.truthy Py.iterate];
    try discriminate.
  - destruct s; [|discriminate]. now intros _ [= <-].
  - destruct items; [|discriminate]. now intros _ [= <-].
  - destruct fields; [|discriminate]. now intros _ [= <-].
Qed.

Lemma yield_chapters_all (slug : string) (card : Client.MangaCard)
  (l : list Py.json) (bs : list Client.MangaChapter) :
  Py.mapM (Atsumaru.chapter_of py_str slug card) l = Py.Ret bs ->
  Atsumaru.yield_chapters py_str slug card l = (bs, true).
Proof.
  revert bs. induction l as [|ch l IH]; intros bs; simpl.
  - now intros [= <-].
  - destruct (Atsumaru.chapter_of py_str slug card ch) as [c|]; [|discriminate].
    cbn [Py.bind].
    destruct (Py.mapM _ l) as [bs'|]; [|discriminate]. cbn [Py.bind].
    intros [= <-]. now rewrite (IH bs' eq_refl).
Qed.

Lemma get_chapters_fetches (card : Client.MangaCard) (page : Z)
  (chapters : list Client.MangaChapter) :
  Atsumaru.get_chapters get_url json_loads py_str card (page + 1)
    = Py.Ret chapters ->
  exists content,
    get_url (Atsumaru.chapters_url (Atsumaru.slug_of (Client.card_url card)) page)
      = Py.Ret content /\
    fst (Atsumaru.page_pass json_loads py_str
           (Atsumaru.slug_of (Client.card_url card)) card page content)
    = chapters.
Proof.
  unfold Atsumaru.get_chapters, Atsumaru.page_pass.
  rewrite Z.add_simpl_r.
  destruct (get_url _) as [content|]; [|discriminate]. cbn [Py.bind].
  intros Hrun. exists content. split; [reflexivity|].
  destruct (json_loads content) as [data|e]; cbn [Py.bind] in Hrun |- *.
  - destruct (Py.dict_get data "chapters" (Py.JArr [])) as [cd|e];
      cbn [Py.bind Atsumaru.unless_decode_error] in Hrun |- *.
    + destruct (Py.iterate cd) as [entries|] eqn:Hit; [|discriminate].
      cbn [Py.bind] in Hrun. rewrite for_each_collect in Hrun.
      destruct (Py.mapM _ entries) as [bs|] eqn:Hbs; [|discriminate].
      cbn [Py.bind app] in Hrun. injection Hrun as <-.
      destruct (Py.truthy cd) eqn:Ht; cbn [negb].
      * rewrite (yield_chapters_all _ _ _ _ Hbs). cbn [negb].
        now destruct (_ <- _ ;; _) as [[|]|].
      * rewrite (falsy_iterates_empty cd entries Ht Hit) in Hbs.
        now injection Hbs as <-.
    + destruct e; cbn [Py.bind] in Hrun; try discriminate.
      now injection Hrun as <-.
  - destruct e; cbn [Atsumaru.unless_decode_error Py.bind] in Hrun;
      try discriminate.
    now injection Hrun as <-.
Qed.

Lemma iter_pages_matches_eager (card : Client.MangaCard) :
  forall fuel page r pages,
    Atsumaru.iter_pages get_url json_loads py_str fuel
      (Atsumaru.slug_of (Client.card_url card)) card page = Some r ->
    Py.mapM (fun i => Atsumaru.get_chapters get_url json_loads py_str card
                        (page + Z.of_nat i + 1))
            (seq 0 (List.length (Atsumaru.requested r))) = Py.Ret pages ->
    Atsumaru.yielded r = concat pages.
Proof.
  induction fuel as [|fuel IH]; intros page r pages; simpl; [discriminate|].
  set (slug := Atsumaru.slug_of (Client.card_url card)).
  assert (Hfirst : forall n rest,
            Py.mapM (fun i => Atsumaru.get_chapters get_url json_loads py_str card
                                (page + Z.of_nat i + 1)) (seq 0 (S n))
              = Py.Ret rest ->
            exists content first others,
              get_url (Atsumaru.chapters_url slug page) = Py.Ret content /\
              fst (Atsumaru.page_pass json_loads py_str slug card page content)
                = first /\
              rest = first :: others /\
              Py.mapM (fun i => Atsumaru.get_chapters get_url json_loads py_str
                                  card (page + 1 + Z.of_nat i + 1)) (seq 0 n)
                = Py.Ret others).
  { intros n rest. cbn [seq Py.mapM]. rewrite mapM_seq_shift.
    change (Z.of_nat 0) with 0. rewrite Z.add_0_r.
    destruct (Atsumaru.get_chapters _ _ _ card (page + 1)) as [first|] eqn:Hg;
      [|discriminate].
    cbn [Py.bind].
    rewrite (mapM_ext _ (fun i => Atsumaru.get_chapters get_url json_loads py_str
                                    card (page + 1 + Z.of_nat i + 1)))
      by (intros i; f_equal; lia).
    destruct (Py.mapM _ (seq 0 n)) as [others|]; [|discriminate].
    cbn [Py.bind]. intros [= <-].
    destruct (get_chapters_fetches card page first Hg) as [content [Hc Hp]].
    now exists content, first, others. }
  destruct (get_url (Atsumaru.chapters_url slug page)) as [content|e] eqn:Hget.
  - destruct (Atsumaru.page_pass json_loads py_str slug card page content)
      as [chapters [|]] eqn:Hp.
    + destruct (Atsumaru.iter_pages _ _ _ fuel _ _ _) as [r'|] eqn:Hr';
        [|discriminate].
      intros [= <-]. cbn [Atsumaru.requested Atsumaru.yielded List.length].
      intros Hpages.
      destruct (Hfirst _ _ Hpages) as [c [first [others [Hc [Hf [-> Ho]]]]]].
      assert (c = content) as -> by congruence.
      rewrite Hp in Hf. cbn [fst] in Hf. subst first.
      cbn [concat]. f_equal. exact (IH _ _ _ Hr' Ho).
    + intros [= <-]. cbn [Atsumaru.requested Atsumaru.yielded List.length].
      intros Hpages.
      destruct (Hfirst _ _ Hpages) as [c [first [others [Hc [Hf [-> Ho]]]]]].
      assert (c = content) as -> by congruence.
      rewrite Hp in Hf. cbn [fst] in Hf. subst first.
      cbn [seq Py.mapM] in Ho. injection Ho as <-.
      cbn [concat]. now rewrite app_nil_r.
  - intros [= <-]. cbn [Atsumaru.requested List.length]. intros Hpages.
    destruct (Hfirst _ _ Hpages) as [c [_ [_ [Hc _]]]]. discriminate Hc.
Qed.

(** X12.  Atsumaru: the lazy listing is the eager one, page after page.
    When [get_chapters] returns for the pages 1, 2, ... that correspond
    to the requests of a finished run of [iter_chapters], the chapters
    the run yields are those pages, one after the other. *)
Theorem atsumaru_lazy_matches_eager
  (fuel : nat) (manga_url manga_name : string) (r : Atsumaru.run)
  (pages : list (list Client.MangaChapter)) :
  Atsumaru.iter_chapters get_url json_loads py_str fuel manga_url manga_name
    = Some r ->
  Py.mapM (fun i => Atsumaru.get_chapters get_url json_loads py_str
                      (Client.mkCard (Py.JStr manga_name) manga_url EmptyString)
                      (Z.of_nat i + 1))
          (seq 0 (List.length (Atsumaru.requested r))) = Py.Ret pages ->
  Atsumaru.yielded r = concat pages.
Proof.
  intros Hrun Hpages. unfold Atsumaru.iter_chapters in Hrun.
  exact (iter_pages_matches_eager
           (Client.mkCard (Py.JStr manga_name) manga_url EmptyString)
           fuel 0 r pages Hrun Hpages).
Qed.

(** The loop goes on to the next page only when the response declares
    more pages than have been read. *)
Lemma page_pass_next (slug : string) (card : Client.MangaCard) (page : Z)
  (content : list Byte.byte) (chapters : list Client.MangaChapter) :
  Atsumaru.page_pass json_loads py_str slug card page content
    = (chapters, Atsumaru.NextPage) ->
  exists data total,
    json_loads content = Py.Ret data /\
    Py.dict_get data "pages" (Py.JNum 0) = Py.Ret total /\
    Py.int_ge (page + 1) total = Py.Ret false.
Proof.
  unfold Atsumaru.page_pass.
  destruct (json_loads content) as [data|] eqn:Hl; [|discriminate].
  cbn [Py.bind].
  destruct (Py.dict_get data "chapters" (Py.JArr [])) as [cd|]; [|discriminate].
  cbn [Py.bind]. destruct (negb (Py.truthy cd)); [discriminate|].
  destruct (Py.iterate cd) as [entries|]; [|discriminate].
  destruct (Atsumaru.yield_chapters py_str slug card entries) as [ys ok].
  destruct (negb ok); [discriminate|].
  destruct (Py.dict_get data "pages" (Py.JNum 0)) as [total|] eqn:Ht;
    [|discriminate].
  cbn [Py.bind].
  destruct (Py.int_ge (page + 1) total) as [[|]|] eqn:Hge; try discriminate.
  intros _. now exists data, total.
Qed.

Lemma iter_pages_bounded (slug : string) (card : Client.MangaCard) (N : Z) :
  (forall page content data total,
     get_url (Atsumaru.chapters_url slug page) = Py.Ret content ->
     json_loads content = Py.Ret data ->
     Py.dict_get data "pages" (Py.JNum 0) = Py.Ret total ->
     exists m, total = Py.JNum m /\ m <= N) ->
  forall fuel page,
    (1 <= fuel)%nat -> (Z.to_nat (N - page) <= fuel)%nat ->
    exists r,
      Atsumaru.iter_pages get_url json_loads py_str fuel slug card page = Some r /\
      (List.length (Atsumaru.requested r) <= Nat.max 1 (Z.to_nat (N - page)))%nat.
Proof.
  intros Hdecl. induction fuel as [|fuel IH]; intros page H1 Hfuel; [lia|].
  simpl.
  destruct (get_url (Atsumaru.chapters_url slug page)) as [content|e] eqn:Hget.
  - destruct (Atsumaru.page_pass json_loads py_str slug card page content)
      as [chapters [|]] eqn:Hp.
    + destruct (page_pass_next slug card page content chapters Hp)
        as [data [total [Hl [Ht Hge]]]].
      destruct (Hdecl page content data total Hget Hl Ht) as [m [-> Hm]].
      cbn [Py.int_ge] in Hge. injection Hge as Hge.
      apply Z.leb_gt in Hge.
      destruct (IH (page + 1)) as [r' [Hr' Hlen]]; [lia|lia|].
      rewrite Hr'. eexists. split; [reflexivity|].
      cbn [Atsumaru.requested List.length]. lia.
    + eexists. split; [reflexivity|]. cbn [Atsumaru.requested List.length]. lia.
  - eexists. split; [reflexivity|]. cbn [Atsumaru.requested List.length]. lia.
Qed.

(** X13.  Atsumaru: the declared page count bounds the lazy listing.
    When every response for the listing of a card declares at most [N]
    pages, [iter_chapters] ends after at most [max 1 N] requests, and
    that much fuel is enough for it to end; it does so whether or not a
    page without chapters is ever served. *)
Theorem atsumaru_page_count_bounds_requests
  (manga_url manga_name : string) (N : Z) :
  (forall page content data total,
     get_url (Atsumaru.chapters_url (Atsumaru.slug_of manga_url) page)
       = Py.Ret content ->
     json_loads content = Py.Ret data ->
     Py.dict_get data "pages" (Py.JNum 0) = Py.Ret total ->
     exists m, total = Py.JNum m /\ m <= N) ->
  exists r,
    (forall fuel, (Z.to_nat (Z.max 1 N) <= fuel)%nat ->
       Atsumaru.iter_chapters get_url json_loads py_str fuel manga_url manga_name
         = Some r) /\
    (List.length (Atsumaru.requested r) <= Z.to_nat (Z.max 1 N))%nat.
Proof.
  intros Hdecl. unfold Atsumaru.iter_chapters.
  set (slug := Atsumaru.slug_of manga_url).
  set (card := Client.mkCard (Py.JStr manga_name) manga_url EmptyString).
  destruct (iter_pages_bounded slug card N Hdecl (Z.to_nat (Z.max 1 N)) 0)
    as [r [Hr Hlen]]; [lia|lia|].
  exists r. split; [|lia].
  intros fuel Hfuel.
  destruct (iter_pages_bounded slug card N Hdecl fuel 0) as [r' [Hr' _]];
    [lia|lia|].
  rewrite Hr'. f_equal.
  exact (iter_pages_deterministic get_url json_loads py_str slug card
           _ _ _ _ _ Hr' Hr).
Qed.

Lemma mapM_pairs {A B : Type} (f : A -> Py.result B) (l : list A) :
  forall bs, Py.mapM f l = Py.Ret bs -> Forall2 (fun a b => f a = Py.Ret b) l bs.
Proof.
  induction l as [|a l IH]; intros bs; simpl.
  - intros [= <-]. constructor.
  - destruct (f a) as [b|e] eqn:Hf; [|discriminate]. cbn [Py.bind].
    destruct (Py.mapM f l) as [bs'|e]; [|discriminate]. cbn [Py.bind].
    intros [= <-]. constructor; [exact Hf|]. now apply IH.
Qed.

(** X14.  Atsumaru: a chapter URL built by [get_chapters] is read back
    by [pictures_from_chapters].  For a card whose URL ends in a slug
    free of [/], the chapters that [get_chapters] returns correspond one
    to one, in order, to the entries of the [chapters] list of the
    decoded page (there are none when the page does not decode): the
    chapter of an entry has the URL [base/read/slug/id] with [id] the
    text of the entry's [id] field, and, when that text is free of [/]
    too, [pictures_from_chapters] given this URL asks the reader endpoint
    for exactly this slug and identifier. *)
Theorem atsumaru_chapter_url_round_trip
  (card : Client.MangaCard) (page : Z) (chapters : list Client.MangaChapter)
  (pre slug : string) :
  Client.card_url card = pre +:+ "/" +:+ slug ->
  Py.contains "/" slug = false ->
  Atsumaru.get_chapters get_url json_loads py_str card page = Py.Ret chapters ->
  exists entries,
    ((exists content data chapters_data,
        get_url (Atsumaru.chapters_url slug (page - 1)) = Py.Ret content /\
        json_loads content = Py.Ret data /\
        Py.dict_get data "chapters" (Py.JArr []) = Py.Ret chapters_data /\
        Py.iterate chapters_data = Py.Ret entries) \/
     ((exists content,
         get_url (Atsumaru.chapters_url slug (page - 1)) = Py.Ret content /\
         json_loads content = Py.Raise Py.JSONDecodeError) /\
      entries = [])) /\
    Forall2 (fun entry c =>
               exists ch_id,
                 Py.dict_get entry "id" Py.JNull = Py.Ret ch_id /\
                 Client.chapter_url c
                   = Atsumaru.base_url +:+ "/read/" +:+ slug +:+ "/"
                     +:+ py_str ch_id /\
                 (Py.contains "/" (py_str ch_id) = false ->
                  forall content,
                    Atsumaru.pictures_from_chapters get_url json_loads py_str
                      content (Some (Client.chapter_url c))
                    = Atsumaru.pictures_from_api get_url json_loads py_str
                        slug (py_str ch_id)))
            entries chapters.
Proof.
  intros Hurl Hslug Hrun. unfold Atsumaru.get_chapters in Hrun.
  rewrite Hurl, (slug_of_last_field pre slug Hslug) in Hrun.
  destruct (get_url (Atsumaru.chapters_url slug (page - 1))) as [content|] eqn:Hget;
    [|discriminate].
  cbn [Py.bind] in Hrun.
  assert (Hentry : forall entry c,
            Atsumaru.chapter_of py_str slug card entry = Py.Ret c ->
            exists ch_id,
              Py.dict_get entry "id" Py.JNull = Py.Ret ch_id /\
              Client.chapter_url c
                = Atsumaru.base_url +:+ "/read/" +:+ slug +:+ "/"
                  +:+ py_str ch_id /\
              (Py.contains "/" (py_str ch_id) = false ->
               forall content,
                 Atsumaru.pictures_from_chapters get_url json_loads py_str
                   content (Some (Client.chapter_url c))
                 = Atsumaru.pictures_from_api get_url json_loads py_str
                     slug (py_str ch_id))).
  { intros entry c Hc.
    destruct (chapter_of_url slug card entry c Hc) as [ch_id [Hid Hcu]].
    exists ch_id. split; [exact Hid|]. split; [exact Hcu|].
    intros Hfree body. rewrite Hcu. unfold Atsumaru.pictures_from_chapters.
    change (Atsumaru.base_url +:+ "/read/" +:+ slug +:+ "/" +:+ py_str ch_id)
      with ((Atsumaru.base_url +:+ "/read") +:+ "/" +:+ slug +:+ "/"
            +:+ py_str ch_id).
    destruct (last_two_fields (Atsumaru.base_url +:+ "/read") slug
                (py_str ch_id) Hslug Hfree) as [-> ->].
    reflexivity. }
  destruct (json_loads content) as [data|e] eqn:Hl; cbn [Py.bind] in Hrun.
  - destruct (Py.dict_get data "chapters" (Py.JArr [])) as [cd|e] eqn:Hcd.
    + cbn [Atsumaru.unless_decode_error Py.bind] in Hrun.
      destruct (Py.iterate cd) as [entries|] eqn:Hit; [|discriminate].
      cbn [Py.bind] in Hrun. rewrite for_each_collect in Hrun.
      destruct (Py.mapM _ entries) as [bs|] eqn:Hbs; [|discriminate].
      cbn [Py.bind app] in Hrun. injection Hrun as <-.
      exists entries. split.
      * left. now exists content, data, cd.
      * eapply Forall2_impl; [exact (mapM_pairs _ _ _ Hbs)|].
        intros entry c Hc. exact (Hentry entry c Hc).
    + destruct data; cbn [Py.dict_get] in Hcd; try discriminate Hcd;
        injection Hcd as <-; discriminate Hrun.
  - destruct e; cbn [Atsumaru.unless_decode_error Py.bind] in Hrun;
      try discriminate Hrun.
    injection Hrun as <-. exists []. split; [|constructor].
    right. split; [now exists content|reflexivity].
Qed.

End AtsumaruListings.

Lemma atsumaru_urls_recognised_witness :
  (exists chapters,
     Atsumaru.get_chapters Samples.paged_get_url (Samples.paged_loads (Py.JNum 2))
       Samples.sample_str
       (Client.mkCard (Py.JStr "Sample") "https://atsu.moe/manga/sample" EmptyString)
       1 = Py.Ret chapters /\
     List.length chapters = 2%nat /\
     Forall (fun c => Atsumaru.contains_url (Client.chapter_url c) = true)
            chapters) /\
  (exists r,
     Atsumaru.iter_chapters Samples.paged_get_url (Samples.paged_loads (Py.JNum 2))
       Samples.sample_str 5 "https://atsu.moe/manga/sample" "Sample" = Some r /\
     List.length (Atsumaru.yielded r) = 3%nat /\
     Forall (fun c => Atsumaru.contains_url (Client.chapter_url c) = true)
            (Atsumaru.yielded r)) /\
  (exists cards,
     Atsumaru.search Samples.paged_get_url
       (fun _ => Py.Ret (Py.JObj [("items",
          Py.JArr [Py.JObj [("id", Py.JStr "one-piece");
                            ("title", Py.JStr "One Piece")]])]))
       (fun _ => "q=") Samples.sample_str EmptyString 1 = Py.Ret cards /\
     List.length cards = 1%nat /\
     Forall (fun c => Atsumaru.contains_url (Client.card_url c) = true) cards).
Proof.
  split; [|split].
  - eexists. split; [reflexivity|]. split; [reflexivity|].
    apply (proj1 (atsumaru_urls_recognised Samples.paged_get_url
                    (Samples.paged_loads (Py.JNum 2)) (fun _ => "q=")
                    Samples.sample_str)
             (Client.mkCard (Py.JStr "Sample") "https://atsu.moe/manga/sample"
                EmptyString) 1).
    reflexivity.
  - eexists. split; [reflexivity|]. split; [reflexivity|].
    apply (proj1 (proj2 (atsumaru_urls_recognised Samples.paged_get_url
                           (Samples.paged_loads (Py.JNum 2)) (fun _ => "q=")
                           Samples.sample_str))
             5%nat "https://atsu.moe/manga/sample" "Sample").
    reflexivity.
  - eexists. split; [reflexivity|]. split; [reflexivity|].
    apply (proj2 (proj2 (atsumaru_urls_recognised Samples.paged_get_url
                           (fun _ => Py.Ret (Py.JObj [("items",
                              Py.JArr [Py.JObj [("id", Py.JStr "one-piece");
                                                ("title", Py.JStr "One Piece")]])]))
                           (fun _ => "q=") Samples.sample_str))
             EmptyString 1).
    reflexivity.
Defined.

Lemma atsumaru_lazy_matches_eager_witness :
  exists r pages,
    Atsumaru.iter_chapters Samples.paged_get_url (Samples.paged_loads (Py.JNum 2))
      Samples.sample_str 5 "https://atsu.moe/manga/sample" "Sample" = Some r /\
    Py.mapM (fun i =>
               Atsumaru.get_chapters Samples.paged_get_url
                 (Samples.paged_loads (Py.JNum 2)) Samples.sample_str
                 (Client.mkCard (Py.JStr "Sample") "https://atsu.moe/manga/sample"
                    EmptyString)
                 (Z.of_nat i + 1))
            (seq 0 2) = Py.Ret pages /\
    map (@List.length _) pages = [2%nat; 1%nat] /\
    Atsumaru.yielded r = concat pages.
Proof.
  eexists. eexists. split; [reflexivity|]. split; [reflexivity|].
  split; [reflexivity|].
  apply (atsumaru_lazy_matches_eager Samples.paged_get_url
           (Samples.paged_loads (Py.JNum 2)) Samples.sample_str
           5 "https://atsu.moe/manga/sample" "Sample").
  - reflexivity.
  - reflexivity.
Defined.

Lemma atsumaru_page_count_bounds_requests_witness :
  exists r,
    (forall fuel, (2 <= fuel)%nat ->
       Atsumaru.iter_chapters Samples.paged_get_url
         (Samples.paged_loads (Py.JNum 2)) Samples.sample_str fuel
         "https://atsu.moe/manga/sample" "Sample" = Some r) /\
    (List.length (Atsumaru.requested r) <= 2)%nat.
Proof.
  apply (atsumaru_page_count_bounds_requests Samples.paged_get_url
           (Samples.paged_loads (Py.JNum 2)) Samples.sample_str
           "https://atsu.moe/manga/sample" "Sample" 2).
  intros page content data total _ Hl Ht.
  unfold Samples.paged_loads in Hl. injection Hl as <-.
  cbn [Py.dict_get Py.assoc String.eqb Ascii.eqb Bool.eqb] in Ht.
  injection Ht as <-. exists 2. split; [reflexivity|lia].
Defined.

Lemma atsumaru_chapter_url_round_trip_witness :
  exists chapters,
    Atsumaru.get_chapters Samples.paged_get_url (Samples.paged_loads (Py.JNum 2))
      Samples.sample_str
      (Client.mkCard (Py.JStr "Sample") "https://atsu.moe/manga/sample" EmptyString)
      1 = Py.Ret chapters /\
    List.length chapters = 2%nat /\
    Forall2 (fun entry c =>
               exists ch_id,
                 Py.dict_get entry "id" Py.JNull = Py.Ret ch_id /\
                 Client.chapter_url c
                   = Atsumaru.base_url +:+ "/read/" +:+ "sample" +:+ "/"
                     +:+ Samples.sample_str ch_id /\
                 (Py.contains "/" (Samples.sample_str ch_id) = false ->
                  forall content,
                    Atsumaru.pictures_from_chapters Samples.paged_get_url
                      (Samples.paged_loads (Py.JNum 2)) Samples.sample_str
                      content (Some (Client.chapter_url c))
                    = Atsumaru.pictures_from_api Samples.paged_get_url
                        (Samples.paged_loads (Py.JNum 2)) Samples.sample_str
                        "sample" (Samples.sample_str ch_id)))
            [Samples.entry 3; Samples.entry 2] chapters.
Proof.
  eexists. split; [reflexivity|]. split; [reflexivity|].
  destruct (atsumaru_chapter_url_round_trip Samples.paged_get_url
              (Samples.paged_loads (Py.JNum 2)) Samples.sample_str
              (Client.mkCard (Py.JStr "Sample") "https://atsu.moe/manga/sample"
                 EmptyString) 1 _ "https://atsu.moe/manga" "sample"
              eq_refl eq_refl eq_refl) as [entries [Hentries Hpairs]].
  destruct Hentries as [[content [data [cd [Hget [Hl [Hcd Hit]]]]]]|[[content [_ Hl]] _]].
  - injection Hget as <-. injection Hl as <-. injection Hcd as <-.
    injection Hit as <-. exact Hpairs.
  - discriminate Hl.
Defined.

(** ** The pictures of plugins/atsumaru.py *)

Lemma for_each_invariant {A S : Type} (P : S -> Prop)
  (body : S -> A -> Py.result S) (l : list A) :
  (forall s a s', P s -> body s a = Py.Ret s' -> P s') ->
  forall s out, P s -> Py.for_each l body s = Py.Ret out -> P out.
Proof.
  intros Hstep. induction l as [|a l IH]; intros s out Hs; simpl.
  - now intros [= <-].
  - destruct (body s a) as [s'|] eqn:Hb; [|discriminate]. cbn [Py.bind].
    apply IH. exact (Hstep s a s' Hs Hb).
Qed.

Section AtsumaruPictures.
Variable get_url : string -> Py.result (list Byte.byte).
Variable json_loads : list Byte.byte -> Py.result Py.json.
Variable py_str : Py.json -> string.

Lemma pictures_loop (pages : list Py.json) (paths : list string) :
  (forall s, py_str (Py.JStr s) = s) ->
  Forall2 (fun page p =>
             exists kv, page = Py.JObj kv /\
                        Py.assoc "image" kv = Some (Py.JStr p) /\
                        p <> EmptyString) pages paths ->
  forall acc,
    Py.for_each pages
      (fun images p =>
         img_path <- Py.dict_get p "image" Py.JNull ;;
         if Py.truthy img_path
         then Py.Ret (images ++ [Atsumaru.base_url +:+ py_str img_path])
         else Py.Ret images) acc
    = Py.Ret (acc ++ map (fun p => Atsumaru.base_url +:+ p) paths).
Proof.
  intros Hstr Hpages. induction Hpages as [|page p pages paths Hp _ IH];
    intros acc.
  - simpl. now rewrite app_nil_r.
  - destruct Hp as [kv [-> [Himg Hne]]].
    cbn [Py.for_each Py.dict_get]. rewrite Himg. cbn [Py.bind Py.truthy].
    apply String.eqb_neq in Hne. rewrite Hne. cbn [negb Py.bind].
    rewrite IH, Hstr, <- app_assoc. reflexivity.
Qed.

(** X15.  Atsumaru: the pictures of a chapter.  Whatever the response
    and whatever the reader endpoint answers, every URL that
    [pictures_from_chapters] returns starts with the site's base
    address.  When the endpoint's answer has, under [readChapter] and
    [pages], a list of objects each with a non-empty [image] path, the
    pictures are these paths after the base address, in order.  When
    the request or the decoding of its answer fails, there are no
    pictures. *)
Theorem atsumaru_pictures_from_reader :
  (forall content response,
     Forall (fun u => Py.startswith u Atsumaru.base_url = true)
            (Atsumaru.pictures_from_chapters get_url json_loads py_str
               content response)) /\
  (forall slug id content data read_chapter pages paths,
     (forall s, py_str (Py.JStr s) = s) ->
     get_url (Atsumaru.read_url slug id) = Py.Ret content ->
     json_loads content = Py.Ret data ->
     Py.dict_get data "readChapter" (Py.JObj []) = Py.Ret read_chapter ->
     Py.dict_get read_chapter "pages" (Py.JArr []) = Py.Ret (Py.JArr pages) ->
     Forall2 (fun page p =>
                exists kv, page = Py.JObj kv /\
                           Py.assoc "image" kv = Some (Py.JStr p) /\
                           p <> EmptyString) pages paths ->
     Atsumaru.pictures_from_api get_url json_loads py_str slug id
     = map (fun p => Atsumaru.base_url +:+ p) paths) /\
  (forall slug id,
     (forall content, get_url (Atsumaru.read_url slug id) = Py.Ret content ->
        exists e, json_loads content = Py.Raise e) ->
     Atsumaru.pictures_from_api get_url json_loads py_str slug id = []).
Proof.
  split; [|split].
  - assert (Hapi : forall slug id,
              Forall (fun u => Py.startswith u Atsumaru.base_url = true)
                (Atsumaru.pictures_from_api get_url json_loads py_str slug id)).
    { intros slug id. unfold Atsumaru.pictures_from_api.
      destruct (get_url _) as [json_content|]; [|constructor]. cbn [Py.bind].
      destruct (json_loads json_content) as [data|]; [|constructor].
      cbn [Py.bind].
      destruct (Py.dict_get data "readChapter" (Py.JObj [])) as [rc|];
        [|constructor].
      cbn [Py.bind].
      destruct (Py.dict_get rc "pages" (Py.JArr [])) as [pages|]; [|constructor].
      cbn [Py.bind]. destruct (Py.iterate pages) as [l|]; [|constructor].
      cbn [Py.bind].
      match goal with |- context [Py.for_each l ?b ?a] =>
        destruct (Py.for_each l b a) as [out|] eqn:Hloop
      end; [|constructor].
      cbn [Py.try_except].
      refine (for_each_invariant
                (Forall (fun u => Py.startswith u Atsumaru.base_url = true))
                _ l _ [] out (List.Forall_nil _) Hloop).
      intros images p images' Himages.
      destruct (Py.dict_get p "image" Py.JNull) as [img_path|]; [|discriminate].
      cbn [Py.bind]. destruct (Py.truthy img_path); intros [= <-];
        [|exact Himages].
      apply Forall_app. split; [exact Himages|]. constructor; [|constructor].
      unfold Py.startswith. apply prefix_iff. now exists (py_str img_path). }
    intros content [url_str|]; [|constructor].
    unfold Atsumaru.pictures_from_chapters.
    destruct (Py.index_from_end _ 2) as [slug|]; [|constructor].
    destruct (Py.index_from_end _ 1) as [chapter_id|]; [|constructor].
    apply Hapi.
  - intros slug id content data rc pages paths Hstr Hget Hl Hrc Hpages Hshape.
    unfold Atsumaru.pictures_from_api. rewrite Hget. cbn [Py.bind].
    rewrite Hl. cbn [Py.bind]. rewrite Hrc. cbn [Py.bind]. rewrite Hpages.
    cbn [Py.bind Py.iterate].
    rewrite (pictures_loop pages paths Hstr Hshape []). reflexivity.
  - intros slug id Hfail. unfold Atsumaru.pictures_from_api.
    destruct (get_url _) as [content|]; [|reflexivity].
    destruct (Hfail content eq_refl) as [e He]. cbn [Py.bind].
    now rewrite He.
Qed.

End AtsumaruPictures.

Lemma atsumaru_pictures_from_reader_witness :
  Atsumaru.pictures_from_api (Samples.fetch_bytes [])
    (fun _ => Py.Ret (Py.JObj [("readChapter",
       Py.JObj [("pages",
         Py.JArr [Py.JObj [("image", Py.JStr "/static/p1.jpg")];
                  Py.JObj [("image", Py.JStr "/static/p2.jpg");
                           ("number", Py.JNum 2)]])])]))
    Samples.sample_str "sample" "c3"
  = ["https://atsu.moe/static/p1.jpg"; "https://atsu.moe/static/p2.jpg"] /\
  Atsumaru.pictures_from_api (Samples.fetch_bytes [])
    (fun _ => Py.Raise Py.JSONDecodeError) Samples.sample_str "sample" "c3"
  = [].
Proof.
  split.
  - eapply (proj1 (proj2 (atsumaru_pictures_from_reader (Samples.fetch_bytes [])
                           (fun _ => Py.Ret (Py.JObj [("readChapter",
                              Py.JObj [("pages",
                                Py.JArr [Py.JObj [("image", Py.JStr "/static/p1.jpg")];
                                         Py.JObj [("image", Py.JStr "/static/p2.jpg");
                                                  ("number", Py.JNum 2)]])])]))
                           Samples.sample_str))
             "sample" "c3" [] _ _ _
             ["/static/p1.jpg"; "/static/p2.jpg"]).
    + reflexivity.
    + reflexivity.
    + reflexivity.
    + reflexivity.
    + reflexivity.
    + constructor; [|constructor; [|constructor]].
      * eexists. split; [reflexivity|]. split; [reflexivity|discriminate].
      * eexists. split; [reflexivity|]. split; [reflexivity|discriminate].
  - apply (proj2 (proj2 (atsumaru_pictures_from_reader (Samples.fetch_bytes [])
                           (fun _ => Py.Raise Py.JSONDecodeError)
                           Samples.sample_str))
             "sample" "c3").
    intros content _. now exists Py.JSONDecodeError.
Defined.

(** ** The cards of plugins/mangafire.py *)

Section FireSearch.
Variable image_open : list Byte.byte -> Py.result PIL.image.
Variable image_save : PIL.image -> Py.result (list Byte.byte).
Variable int_of_str : string -> Py.result Z.
Variable super_get_url : string -> Py.result MangaFire.content.
Variable urljoin : string -> string -> string.
Variable select_units : MangaFire.content -> Py.result (list MangaFire.unit_inner).

Lemma search_loop_urls (container : list MangaFire.unit_inner) :
  forall acc cards,
    Py.for_each container
      (fun mangas element =>
         match MangaFire.info_link element with
         | None => Py.Ret mangas
         | Some info_link =>
             let name := Py.strip (Soup.a_text info_link) in
             href <- Soup.attr (Soup.a_href info_link) ;;
             let manga_url := urljoin MangaFire.base_url href in
             picture_url <- match MangaFire.unit_img element with
                            | Some i => Soup.attr (Soup.img_src i)
                            | None => Py.Ret EmptyString
                            end ;;
             Py.Ret (mangas ++ [Client.mkCard (Py.JStr name) manga_url picture_url])
         end) acc = Py.Ret cards ->
    map Client.card_url cards
    = map Client.card_url acc ++ MangaFire.listed_urls urljoin container.
Proof.
  induction container as [|element container IH]; intros acc cards Hrun.
  - injection Hrun as <-. simpl. now rewrite app_nil_r.
  - cbn [Py.for_each MangaFire.listed_urls flat_map] in *.
    destruct (MangaFire.info_link element) as [[t [href|]]|];
      cbn [Soup.a_href Soup.attr Py.bind] in Hrun.
    + destruct (match MangaFire.unit_img element with
                | Some i => _ | None => _ end) as [picture_url|];
        cbn [Py.bind] in Hrun; [|discriminate].
      rewrite (IH _ _ Hrun), map_app, <- app_assoc. reflexivity.
    + discriminate Hrun.
    + exact (IH _ _ Hrun).
Qed.

(** X16.  MangaFire: the cards of a search.  When [search] returns, the
    listing was fetched from the filter page for the stripped query with
    its spaces turned into [+], and the cards carry, in order, the joined
    URLs of the elements that have an info link: the very URLs that
    [check_updated_urls] records for such a listing. *)
Theorem fire_search_urls (query : string) (page : Z)
  (cards : list Client.MangaCard) :
  MangaFire.search image_open image_save int_of_str super_get_url urljoin
    select_units query page = Py.Ret cards ->
  exists content container,
    MangaFire.get_url image_open image_save int_of_str super_get_url
      (MangaFire.base_url +:+ "/filter?keyword="
       +:+ Py.replace (Py.strip query) " " "+"
       +:+ "&page=" +:+ Py.str_int page) = Py.Ret content /\
    select_units content = Py.Ret container /\
    map Client.card_url cards = MangaFire.listed_urls urljoin container /\
    (List.length cards <= List.length container)%nat.
Proof.
  unfold MangaFire.search. cbv zeta.
  destruct (MangaFire.get_url _ _ _ _ _) as [content|] eqn:Hget; [|discriminate].
  cbn [Py.bind].
  destruct (select_units content) as [container|] eqn:Hsel; [|discriminate].
  cbn [Py.bind]. intros Hrun. exists content, container.
  split; [reflexivity|]. split; [exact Hsel|].
  pose proof (search_loop_urls container [] cards Hrun) as Hurls.
  cbn [map app] in Hurls. split; [exact Hurls|].
  rewrite <- (List.length_map Client.card_url cards), Hurls.
  unfold MangaFire.listed_urls. clear.
  induction container as [|element container IH]; [reflexivity|].
  cbn [flat_map]. rewrite List.length_app. cbn [List.length].
  destruct (MangaFire.info_link element) as [[t [href|]]|]; cbn [List.length]; lia.
Qed.

End FireSearch.

Lemma fire_search_urls_witness :
  exists content container,
    MangaFire.get_url Samples.toy_open Samples.toy_save
      (fun _ => Py.Raise Py.TypeError) (Samples.fetch_content [])
      "https://mangafire.to/filter?keyword=one+piece&page=1" = Py.Ret content /\
    Py.Ret [Samples.unit_listed; MangaFire.mkUnit None None] = Py.Ret container /\
    ["https://mangafire.to/manga/sample.x1"]
    = MangaFire.listed_urls Samples.join_root container /\
    (1 <= List.length container)%nat.
Proof.
  apply (fire_search_urls Samples.toy_open Samples.toy_save
           (fun _ => Py.Raise Py.TypeError) (Samples.fetch_content [])
           Samples.join_root
           (fun _ => Py.Ret [Samples.unit_listed; MangaFire.mkUnit None None])
           " one piece " 1
           [Client.mkCard (Py.JStr "Sample") "https://mangafire.to/manga/sample.x1"
              EmptyString]).
  reflexivity.
Defined.
